(** * Send Raw to KOReader: a shallow embedding of the transfer core

  The development follows [send_raw/ui.py] and [send_raw/config.py]:
  the metadata sanitizer, the task builder with its filename rules, the
  single-book transport, the background worker and the remote reset of
  the device catalog. The earlier transport of the top-level [ui.py] is
  kept in [Legacy] for comparison.

  Python values are modelled as the code uses them:
  - a [str] is a list of Unicode code points ([list N]), so that [len]
    and slicing count characters, not bytes;
  - [bytes] is a list of [Byte.byte];
  - objects with optional attributes are records with [attr] fields;
  - dictionaries received from the device are finite maps;
  - effects (device calls, the notification queue, the error reports)
    are threaded explicitly through a state record. *)

From Stdlib Require Import ZArith NArith QArith Lia Sorted.
From Stdlib Require Import Strings.Ascii Strings.String Strings.Byte.
From stdpp Require Import base option list strings gmap.

Local Open Scope N_scope.

(** ** Python strings *)

Abbreviation pystr := (list N).

Module PyStr.

Fixpoint bytes_of_string (s : string) : list N :=
  match s with
  | EmptyString => []
  | String a r => N_of_ascii a :: bytes_of_string r
  end.

(** Continuation bits of a UTF-8 byte. *)
Definition cont (b : N) : N := N.land b 63.

(** Source literals are UTF-8; [utf8_decode] recovers the code points. *)
Fixpoint utf8_decode (bs : list N) : list N :=
  match bs with
  | [] => []
  | b0 :: r0 =>
    if b0 <? 128 then b0 :: utf8_decode r0
    else
      match r0 with
      | [] => [b0]
      | b1 :: r1 =>
        if b0 <? 224 then
          N.lor (N.shiftl (N.land b0 31) 6) (cont b1) :: utf8_decode r1
        else
          match r1 with
          | [] => [b0; b1]
          | b2 :: r2 =>
            if b0 <? 240 then
              N.lor (N.shiftl (N.land b0 15) 12)
                    (N.lor (N.shiftl (cont b1) 6) (cont b2))
              :: utf8_decode r2
            else
              match r2 with
              | [] => [b0; b1; b2]
              | b3 :: r3 =>
                N.lor (N.shiftl (N.land b0 7) 18)
                      (N.lor (N.shiftl (cont b1) 12)
                             (N.lor (N.shiftl (cont b2) 6) (cont b3)))
                :: utf8_decode r3
              end
          end
      end
  end.

(** A literal of the source as a Python [str]. *)
Definition py (s : string) : pystr := utf8_decode (bytes_of_string s).
Arguments py : simpl never.

(** [not s] for a string. *)
Definition is_empty (s : pystr) : bool :=
  match s with [] => true | _ => false end.

(** [c in chars] for a single character. *)
Definition char_in (chars : pystr) (c : N) : bool :=
  existsb (N.eqb c) chars.

(** [s.replace(c, r)] for one-character [c] and [r]. *)
Definition replace (c r : N) (s : pystr) : pystr :=
  map (fun x => if x =? c then r else x) s.

Fixpoint lstrip (chars s : pystr) : pystr :=
  match s with
  | [] => []
  | c :: r => if char_in chars c then lstrip chars r else s
  end.

Definition rstrip (chars s : pystr) : pystr :=
  reverse (lstrip chars (reverse s)).

(** [s.strip(chars)] *)
Definition strip (chars s : pystr) : pystr :=
  rstrip chars (lstrip chars s).

(** [str.upper] and [str.lower] apply the Unicode case mapping. The model
    is their restriction to ASCII: exact on strings of code points below
    128, which is where format codes and file extensions live, and the
    identity on every other code point. *)
Definition upper_char (c : N) : N :=
  if (97 <=? c) && (c <=? 122) then c - 32 else c.
Definition lower_char (c : N) : N :=
  if (65 <=? c) && (c <=? 90) then c + 32 else c.
Definition upper (s : pystr) : pystr := map upper_char s.
Definition lower (s : pystr) : pystr := map lower_char s.

(** [sub in s] *)
Fixpoint starts_with (p s : pystr) : bool :=
  match p, s with
  | [], _ => true
  | _ :: _, [] => false
  | a :: p', b :: s' => (a =? b) && starts_with p' s'
  end.

Fixpoint contains (sub s : pystr) : bool :=
  starts_with sub s ||
  match s with
  | [] => false
  | _ :: r => contains sub r
  end.

(** [str(n)] for a natural number. *)
Fixpoint digits (u : Decimal.uint) : pystr :=
  match u with
  | Decimal.Nil => []
  | Decimal.D0 r => 48 :: digits r
  | Decimal.D1 r => 49 :: digits r
  | Decimal.D2 r => 50 :: digits r
  | Decimal.D3 r => 51 :: digits r
  | Decimal.D4 r => 52 :: digits r
  | Decimal.D5 r => 53 :: digits r
  | Decimal.D6 r => 54 :: digits r
  | Decimal.D7 r => 55 :: digits r
  | Decimal.D8 r => 56 :: digits r
  | Decimal.D9 r => 57 :: digits r
  end.

Definition str_of_N (n : N) : pystr := digits (N.to_uint n).

Definition str_of_Z (z : Z) : pystr :=
  match z with
  | Zneg p => 45 :: str_of_N (Npos p)
  | _ => str_of_N (Z.to_N z)
  end.

End PyStr.

Import PyStr.

(** ** The safe-name transform ([SendRawAction._safe_filename]) *)

Definition invalid_chars : pystr := py "<>:" ++ [34] ++ py "/\|?*".

Definition underscore : N := 95.

Definition _safe_filename (name : pystr) : pystr :=
  if is_empty name then py "Unknown"
  else
    let name := fold_left (fun name char => replace char underscore name)
                          invalid_chars name in
    let name := strip (py ". ") name in
    let name := if (100 <? length name)%nat then take 100 name else name in
    if is_empty name then py "Unknown" else name.

(** ** Metadata objects

  A calibre [Metadata] object is duck-typed: the code asks [hasattr]
  before it touches an optional attribute. [Missing] is an attribute the
  object does not have; [Has None] is an attribute holding Python's
  [None]. *)

Inductive attr (A : Type) : Type :=
| Missing
| Has (v : A).
Arguments Missing {A}.
Arguments Has {A} v.

Definition hasattr {A} (a : attr A) : bool :=
  match a with Missing => false | Has _ => true end.

(** [getattr(obj, name, default)] *)
Definition getattr {A} (a : attr A) (default : A) : A :=
  match a with Missing => default | Has v => v end.

(** Truth value of an optional string: [None] and [''] are falsy. *)
Definition str_truthy (s : option pystr) : bool :=
  match s with
  | Some (_ :: _) => true
  | _ => false
  end.

Record FormatInfo := {
  fi_path : pystr;
  fi_size : Z;
}.

Record Metadata := {
  title : option pystr;
  authors : list pystr;
  series : option pystr;
  series_index : option Q;
  tags : attr (list pystr);
  comments : attr pystr;
  last_modified : attr (option Z);
  lpath : attr pystr;
  uuid : attr (option pystr);
  extension : attr pystr;
  size : attr Z;
  md5 : attr pystr;
  format_metadata : attr (gmap pystr FormatInfo);
  cover_data : attr (option (pystr * list byte));
  thumbnail : attr (option (list byte));
  device_collections : attr (option (list pystr));
}.

(** Attribute assignment, one function per assigned attribute. *)
Definition set_extension (v : pystr) (m : Metadata) : Metadata :=
  {| title := title m; authors := authors m; series := series m;
     series_index := series_index m; tags := tags m; comments := comments m;
     last_modified := last_modified m; lpath := lpath m; uuid := uuid m;
     extension := Has v; size := size m; md5 := md5 m;
     format_metadata := format_metadata m; cover_data := cover_data m;
     thumbnail := thumbnail m; device_collections := device_collections m |}.

Definition set_size (v : Z) (m : Metadata) : Metadata :=
  {| title := title m; authors := authors m; series := series m;
     series_index := series_index m; tags := tags m; comments := comments m;
     last_modified := last_modified m; lpath := lpath m; uuid := uuid m;
     extension := extension m; size := Has v; md5 := md5 m;
     format_metadata := format_metadata m; cover_data := cover_data m;
     thumbnail := thumbnail m; device_collections := device_collections m |}.

Definition set_md5 (v : pystr) (m : Metadata) : Metadata :=
  {| title := title m; authors := authors m; series := series m;
     series_index := series_index m; tags := tags m; comments := comments m;
     last_modified := last_modified m; lpath := lpath m; uuid := uuid m;
     extension := extension m; size := size m; md5 := Has v;
     format_metadata := format_metadata m; cover_data := cover_data m;
     thumbnail := thumbnail m; device_collections := device_collections m |}.

Definition set_format_metadata (v : gmap pystr FormatInfo) (m : Metadata)
  : Metadata :=
  {| title := title m; authors := authors m; series := series m;
     series_index := series_index m; tags := tags m; comments := comments m;
     last_modified := last_modified m; lpath := lpath m; uuid := uuid m;
     extension := extension m; size := size m; md5 := md5 m;
     format_metadata := Has v; cover_data := cover_data m;
     thumbnail := thumbnail m; device_collections := device_collections m |}.

Definition set_cover_data (v : option (pystr * list byte)) (m : Metadata)
  : Metadata :=
  {| title := title m; authors := authors m; series := series m;
     series_index := series_index m; tags := tags m; comments := comments m;
     last_modified := last_modified m; lpath := lpath m; uuid := uuid m;
     extension := extension m; size := size m; md5 := md5 m;
     format_metadata := format_metadata m; cover_data := Has v;
     thumbnail := thumbnail m; device_collections := device_collections m |}.

Definition set_thumbnail (v : option (list byte)) (m : Metadata) : Metadata :=
  {| title := title m; authors := authors m; series := series m;
     series_index := series_index m; tags := tags m; comments := comments m;
     last_modified := last_modified m; lpath := lpath m; uuid := uuid m;
     extension := extension m; size := size m; md5 := md5 m;
     format_metadata := format_metadata m; cover_data := cover_data m;
     thumbnail := Has v; device_collections := device_collections m |}.

Definition set_uuid (v : option pystr) (m : Metadata) : Metadata :=
  {| title := title m; authors := authors m; series := series m;
     series_index := series_index m; tags := tags m; comments := comments m;
     last_modified := last_modified m; lpath := lpath m; uuid := Has v;
     extension := extension m; size := size m; md5 := md5 m;
     format_metadata := format_metadata m; cover_data := cover_data m;
     thumbnail := thumbnail m; device_collections := device_collections m |}.

Definition set_device_collections (v : option (list pystr)) (m : Metadata)
  : Metadata :=
  {| title := title m; authors := authors m; series := series m;
     series_index := series_index m; tags := tags m; comments := comments m;
     last_modified := last_modified m; lpath := lpath m; uuid := uuid m;
     extension := extension m; size := size m; md5 := md5 m;
     format_metadata := format_metadata m; cover_data := cover_data m;
     thumbnail := thumbnail m; device_collections := Has v |}.

(** ** [str(uuid4())]

  [uuid4] draws 16 random bytes; [rnd] is their value as a big-endian
  integer. The version and variant bits are forced, and the result is
  printed as 32 lower-case hexadecimal digits in groups 8-4-4-4-12. *)

Module Uuid.

Definition uuid4_int (rnd : N) : N :=
  let i := rnd mod 2 ^ 128 in
  let i := N.ldiff i (N.shiftl 49152 48) in
  let i := N.lor i (N.shiftl 32768 48) in
  let i := N.ldiff i (N.shiftl 61440 64) in
  N.lor i (N.shiftl 4 76).

Definition hex_digit (d : N) : N :=
  if d <? 10 then 48 + d else 87 + d.

(** ['%032x' % i] *)
Definition hex32 (i : N) : pystr :=
  map (fun k => hex_digit (N.land (N.shiftr i (4 * (31 - N.of_nat k))) 15))
      (seq 0 32).

Definition dash : N := 45.

Definition str_uuid (i : N) : pystr :=
  let hex := hex32 i in
  take 8 hex ++ [dash] ++ take 4 (drop 8 hex) ++ [dash]
    ++ take 4 (drop 12 hex) ++ [dash] ++ take 4 (drop 16 hex) ++ [dash]
    ++ drop 20 hex.

Definition str_uuid4 (rnd : N) : pystr := str_uuid (uuid4_int rnd).

End Uuid.

Import Uuid.

(** ** The metadata sanitizer ([prepare_metadata_for_device]) *)

(** [mi.deepcopy_metadata()]: a copy carries the same attribute values. *)
Definition deepcopy_metadata (mi : Metadata) : Metadata := mi.

Definition prepare_metadata_for_device
    (mi : Metadata) (ext : pystr) (file_size : Z)
    (file_md5 : option pystr) (rnd : N) : Metadata :=
  let metadata := deepcopy_metadata mi in
  let metadata := set_extension (lower ext) metadata in
  let metadata := set_size file_size metadata in
  let metadata :=
    match file_md5 with
    | Some (c :: h) => set_md5 (c :: h) metadata
    | _ => metadata
    end in
  let metadata :=
    if hasattr (format_metadata metadata)
    then set_format_metadata ∅ metadata else metadata in
  let metadata :=
    if hasattr (cover_data metadata)
    then set_cover_data None metadata else metadata in
  let metadata :=
    if hasattr (thumbnail metadata)
    then set_thumbnail None metadata else metadata in
  let metadata :=
    if negb (str_truthy (getattr (uuid metadata) None))
    then set_uuid (Some (str_uuid4 rnd)) metadata else metadata in
  set_device_collections
    (Some (default [] (getattr (device_collections metadata) (Some []))))
    metadata.


(** ** Filename templates ([str.format] with keyword arguments)

    The fragment of the format mini-language that filename templates use:
    literal text, the escapes [{{] and [}}], and replacement fields
    [{name}]. A field that asks for attribute access, indexing, a
    conversion or a format specification is outside the fragment
    ([FmtUnmodelled]). *)

Inductive fmt_result :=
| FmtOk (s : pystr)
| FmtKeyError      (* a keyword that was not passed *)
| FmtValueError    (* unbalanced braces, or an index with too many digits *)
| FmtIndexError    (* a positional field, with no positional argument *)
| FmtUnmodelled.

Definition lbrace : N := 123.
Definition rbrace : N := 125.

Definition fmt_prepend (s : pystr) (r : fmt_result) : fmt_result :=
  match r with
  | FmtOk t => FmtOk (s ++ t)
  | e => e
  end.

Definition is_digit (c : N) : bool := (48 <=? c) && (c <=? 57).

(** Characters that start attribute access, indexing, a conversion, a
    format specification or a nested field. *)
Definition field_special (c : N) : bool := char_in (py ".[!:{") c.

(** [sys.maxsize] of a 64-bit interpreter: the largest index a field
    name may denote. *)
Definition PY_SSIZE_T_MAX : N := 2 ^ 63 - 1.

(** The number that a name made of ASCII digits denotes. *)
Definition decimal_value (name : pystr) : N :=
  fold_left (fun acc c => 10 * acc + (c - 48)) name 0.

Definition ascii_non_digit (c : N) : bool := (c <? 128) && negb (is_digit c).

(** One replacement field.
    - An empty name, or a name of ASCII digits, asks for a positional
      argument: none is passed, so the lookup raises [IndexError]; a
      number beyond [PY_SSIZE_T_MAX] raises [ValueError] ("Too many
      decimal digits in format string") before any lookup.
    - A name with an ASCII character that is not a digit is a keyword.
    - Any other name has a character outside ASCII and no ASCII
      character but digits: whether it is a number is decided by the
      interpreter's table of Unicode decimal digits, which is outside the
      fragment. *)
Definition fmt_field (kwargs : gmap pystr pystr) (name : pystr)
  : fmt_result :=
  if forallb is_digit name then
    if (PY_SSIZE_T_MAX <? decimal_value name) then FmtValueError
    else FmtIndexError
  else if existsb ascii_non_digit name then
    match kwargs !! name with
    | Some v => FmtOk v
    | None => FmtKeyError
    end
  else FmtUnmodelled.

(** [field] is [None] in literal text and [Some acc] inside a replacement
    field, [acc] being the characters of the field name read so far, last
    one first. *)
Fixpoint fmt_scan (kwargs : gmap pystr pystr) (t : pystr)
    (field : option pystr) {struct t} : fmt_result :=
  match field, t with
  | None, [] => FmtOk []
  | None, c :: r =>
    if c =? lbrace then
      match r with
      | c' :: r' =>
        if c' =? lbrace then fmt_prepend [lbrace] (fmt_scan kwargs r' None)
        else fmt_scan kwargs r (Some [])
      | [] => FmtValueError
      end
    else if c =? rbrace then
      match r with
      | c' :: r' =>
        if c' =? rbrace then fmt_prepend [rbrace] (fmt_scan kwargs r' None)
        else FmtValueError
      | [] => FmtValueError
      end
    else fmt_prepend [c] (fmt_scan kwargs r None)
  | Some _, [] => FmtValueError
  | Some acc, c :: r =>
    if c =? rbrace then
      match fmt_field kwargs (reverse acc) with
      | FmtOk v => fmt_prepend v (fmt_scan kwargs r None)
      | e => e
      end
    else if field_special c then FmtUnmodelled
    else fmt_scan kwargs r (Some (c :: acc))
  end.

(** [template.format(author=..., title=..., ...)] *)
Definition str_format (template : pystr) (kwargs : gmap pystr pystr)
  : fmt_result :=
  fmt_scan kwargs template None.

(** ** Destination filenames ([SendRawAction._build_filename]) *)

Inductive fname_result :=
| Fname (s : pystr)
| FnameIndexError     (* not caught by [except (KeyError, ValueError)] *)
| FnameUnmodelled.

(** [int(x)] for a float: truncation toward zero. *)
Definition int_of_Q (q : Q) : Z := Z.quot (Qnum q) (Z.pos (Qden q)).

(** Truth value of an optional float: [None] and [0.0] are falsy. *)
Definition float_truthy (q : option Q) : bool :=
  match q with
  | Some x => negb (Qnum x =? 0)%Z
  | None => false
  end.

(** [x or d] for an optional string. *)
Definition str_or (x : option pystr) (d : pystr) : pystr :=
  match x with
  | Some (c :: r) => c :: r
  | _ => d
  end.

(** [mi.authors[0] if mi.authors else "Unknown"] *)
Definition first_author (mi : Metadata) : pystr :=
  match authors mi with
  | a :: _ => a
  | [] => py "Unknown"
  end.

Definition default_template : pystr := py "{author} - {title}".

Definition _build_filename (mi : Metadata) (fmt : pystr) (template : pystr)
  : fname_result :=
  let author := first_author mi in
  let title := str_or (title mi) (py "Unknown") in
  let series := str_or (series mi) [] in
  let series_index :=
    if float_truthy (series_index mi)
    then str_of_Z (int_of_Q (default 0%Q (series_index mi))) else [] in
  let kwargs : gmap pystr pystr :=
    <[py "author" := _safe_filename author]>
    (<[py "title" := _safe_filename title]>
    (<[py "series" := _safe_filename series]>
    (<[py "series_index" := series_index]> ∅))) in
  let ext := [46] ++ lower fmt in
  match str_format template kwargs with
  | FmtOk filename => Fname (filename ++ ext)
  | FmtKeyError | FmtValueError =>
    Fname ((_safe_filename author ++ py " - " ++ _safe_filename title) ++ ext)
  | FmtIndexError => FnameIndexError
  | FmtUnmodelled => FnameUnmodelled
  end.

(** ** User preferences ([config.py])

    [prefs] is a calibre [JSONConfig]: a dictionary of the values the user
    has saved, together with a dictionary [defaults]. A field is [None]
    when its key is absent from the dictionary. *)

Record PrefValues := {
  preferred_formats : option (list pystr);
  device_subdir : option pystr;
  filename_template : option pystr;
  verify_md5 : option bool;
  timeout : option Z;
}.

Record JSONConfig := {
  stored : PrefValues;
  defaults : PrefValues;
}.

(** [JSONConfig.get(key, default)]: the saved value when the key is
    present, [self.defaults.get(key, default)] otherwise. *)
Definition prefs_get {A : Type} (key : PrefValues -> option A)
    (p : JSONConfig) (default : A) : A :=
  match key (stored p) with
  | Some v => v
  | None =>
    match key (defaults p) with
    | Some v => v
    | None => default
    end
  end.

(** The assignments to [prefs.defaults] at module level. *)
Definition registered_defaults : PrefValues :=
  {| preferred_formats :=
       Some [py "EPUB"; py "AZW3"; py "MOBI"; py "PDF"; py "CBZ"; py "CBR"];
     device_subdir := Some [];
     filename_template := Some (py "{author} - {title}");
     verify_md5 := Some false;
     timeout := Some 120%Z |}.

(** A settings store in which nothing has been saved. *)
Definition nothing_saved : PrefValues :=
  {| preferred_formats := None; device_subdir := None;
     filename_template := None; verify_md5 := None; timeout := None |}.

(** [prefs] as [config.py] sets it up over the saved values. *)
Definition prefs (saved : PrefValues) : JSONConfig :=
  {| stored := saved; defaults := registered_defaults |}.

(** ** Tasks and the task builder ([SendRawAction._build_tasks]) *)

Record Task := {
  task_book_id : Z;
  task_path : pystr;
  task_name : pystr;
  task_title : option pystr;
  task_metadata : Metadata;
  task_size : Z;
  task_verify_md5 : bool;
  task_format : pystr;
}.

(** What the task builder reads: the library database and the file store. *)
Record Library := {
  db_formats : Z -> list pystr;
  db_get_metadata : Z -> Metadata;
  db_format_abspath : Z -> pystr -> option pystr;
  os_path_exists : pystr -> bool;
  os_path_getsize : pystr -> Z;
}.

(** A value inside an f-string; [None] prints as [None]. *)
Definition fstr (o : option pystr) : pystr := default (py "None") o.

(** The walk over the preference list: the first entry whose upper-cased
    code the book has. *)
Fixpoint first_preferred (preferred formats : list pystr)
  : option pystr :=
  match preferred with
  | [] => None
  | fmt :: rest =>
    if bool_decide (upper fmt ∈ formats) then Some (upper fmt)
    else first_preferred rest formats
  end.

(** The choice of [target_fmt] for one book. *)
Definition select_format (formats : list pystr)
    (requested_fmt : option pystr) (preferred : list pystr)
  : option pystr :=
  if str_truthy requested_fmt then
    let wanted := upper (default [] requested_fmt) in
    if bool_decide (wanted ∈ formats) then Some wanted else None
  else
    match first_preferred preferred formats with
    | Some fmt => Some fmt
    | None =>
      match formats with
      | first :: _ => Some first
      | [] => None
      end
    end.

Inductive build_result :=
| Built (tasks : list Task) (failed : list pystr)
| BuildIndexError
| BuildUnmodelled.

Definition no_formats_reason (mi : Metadata) : pystr :=
  fstr (title mi) ++ py " - 无可用格式".

Definition format_absent_reason (mi : Metadata)
    (requested_fmt : option pystr) : pystr :=
  fstr (title mi) ++ py " - 无 " ++ fstr requested_fmt ++ py " 格式".

Definition file_missing_reason (mi : Metadata) : pystr :=
  fstr (title mi) ++ py " - 文件不存在".

(** The loop over [book_ids]. [i] counts the books seen so far and
    [urandom i] is the random draw available to the [i]-th book. *)
Fixpoint build_loop (lib : Library) (preferred : list pystr)
    (template : pystr) (verify : bool) (urandom : nat -> N)
    (requested_fmt : option pystr) (book_ids : list Z) (i : nat)
    (tasks : list Task) (failed : list pystr) {struct book_ids}
  : build_result :=
  match book_ids with
  | [] => Built tasks failed
  | book_id :: rest =>
    let formats := db_formats lib book_id in
    let mi := db_get_metadata lib book_id in
    match formats with
    | [] =>
      build_loop lib preferred template verify urandom requested_fmt rest
                 (S i) tasks (failed ++ [no_formats_reason mi])
    | _ :: _ =>
      match select_format formats requested_fmt preferred with
      | None =>
        build_loop lib preferred template verify urandom requested_fmt rest
                   (S i) tasks
                   (failed ++ [format_absent_reason mi requested_fmt])
      | Some target_fmt =>
        let raw_path := db_format_abspath lib book_id target_fmt in
        if str_truthy raw_path && os_path_exists lib (default [] raw_path)
        then
          let raw_path := default [] raw_path in
          match _build_filename mi target_fmt template with
          | Fname filename =>
            let file_size := os_path_getsize lib raw_path in
            let metadata_obj :=
              prepare_metadata_for_device mi target_fmt file_size None
                                          (urandom i) in
            build_loop lib preferred template verify urandom requested_fmt
              rest (S i)
              (tasks ++ [{| task_book_id := book_id;
                            task_path := raw_path;
                            task_name := filename;
                            task_title := title mi;
                            task_metadata := metadata_obj;
                            task_size := file_size;
                            task_verify_md5 := verify;
                            task_format := target_fmt |}])
              failed
          | FnameIndexError => BuildIndexError
          | FnameUnmodelled => BuildUnmodelled
          end
        else
          build_loop lib preferred template verify urandom requested_fmt rest
                     (S i) tasks (failed ++ [file_missing_reason mi])
      end
    end
  end.

Definition _build_tasks (lib : Library) (prefs : JSONConfig)
    (urandom : nat -> N) (book_ids : list Z)
    (requested_fmt : option pystr) : build_result :=
  let preferred :=
    prefs_get preferred_formats prefs
              [py "EPUB"; py "AZW3"; py "MOBI"; py "PDF"] in
  let template := prefs_get filename_template prefs (py "{author} - {title}") in
  let verify := prefs_get verify_md5 prefs true in
  build_loop lib preferred template verify urandom requested_fmt book_ids 0
             [] [].

(** ** Exceptions *)

(** An exception object: its class name and the text [str(e)] yields. *)
Record PyExc := {
  exc_class : pystr;
  exc_str : pystr;
}.

Definition RuntimeError (msg : pystr) : PyExc :=
  {| exc_class := py "RuntimeError"; exc_str := msg |}.

(** ** The device driver, as the transport sees it *)

(** One entry of the list [upload_books] returns: the tuple
    [(lpath, length)], or a value that is not a usable entry. *)
Inductive UploadEntry :=
| EntryNone                                     (* [None] *)
| EntryEmpty                                    (* [()] *)
| EntryPair (lpath : option pystr) (length : Z).

(** Python truth value of an entry: a two-element tuple is true whatever
    it holds. *)
Definition entry_truthy (e : UploadEntry) : bool :=
  match e with
  | EntryPair _ _ => true
  | _ => false
  end.

Record UploadCall := {
  up_files : list pystr;
  up_names : list pystr;
  up_on_card : option pystr;
  up_end_session : bool;
  up_metadata : list Metadata;
}.

Inductive UploadOutcome :=
| Returns (paths : option (list UploadEntry))    (* [None] or a list *)
| UploadRaises (e : PyExc) (trace : pystr).
    (* [trace] is the text of [traceback.format_exc()] in the handler *)

(** [device.upload_books]: the answer may depend on the calls made before. *)
Definition Device := list UploadCall -> UploadCall -> UploadOutcome.

(** ** State of a batch: what the worker and the transport write to *)

Inductive LogLine :=
| LogInfo (s : pystr)
| LogError (s : pystr).

Definition Report : Type := option pystr * pystr * pystr.

Record World := {
  device_calls : list UploadCall;       (* calls to [upload_books], in order *)
  error_reports : list Report;          (* [transport._error_reports] *)
  notifications : list (Q * pystr);    (* the [notifications] queue *)
  log_lines : list LogLine;
}.

Definition empty_world : World :=
  {| device_calls := []; error_reports := []; notifications := [];
     log_lines := [] |}.

Definition record_call (c : UploadCall) (w : World) : World :=
  {| device_calls := device_calls w ++ [c]; error_reports := error_reports w;
     notifications := notifications w; log_lines := log_lines w |}.

Definition add_report (r : Report) (w : World) : World :=
  {| device_calls := device_calls w; error_reports := error_reports w ++ [r];
     notifications := notifications w; log_lines := log_lines w |}.

Definition notifications_put (n : Q * pystr) (w : World) : World :=
  {| device_calls := device_calls w; error_reports := error_reports w;
     notifications := notifications w ++ [n]; log_lines := log_lines w |}.

Definition log (l : LogLine) (w : World) : World :=
  {| device_calls := device_calls w; error_reports := error_reports w;
     notifications := notifications w; log_lines := log_lines w ++ [l] |}.

(** ** The transport ([SmartDeviceTransport]) *)

Definition newline : N := 10.

Definition corruption_note : pystr :=
  py "检测到设备端元数据可能已损坏。" ++ [newline]
  ++ py "1) 请在插件菜单中使用“清除 KOReader 元数据缓存”删除主机端缓存；"
  ++ [newline]
  ++ py "2) 并在 KOReader -> Calibre 无线 -> 菜单 中执行“重置无线共享”以重建 metadata.calibre。".

(** The entry [_record_error] appends: [(title, message, details)]. *)
Definition error_report (title : option pystr) (exc : PyExc)
    (trace : pystr) : Report :=
  let details := trace in
  let message := exc_str exc in
  if contains (py "'extension'") message || contains (py "KeyError") message
  then (title, message ++ [newline] ++ corruption_note,
        details ++ [newline; newline] ++ corruption_note)
  else (title, message, details).

Definition _record_error (title : option pystr) (exc : PyExc)
    (trace : pystr) (w : World) : World :=
  add_report (error_report title exc trace) w.

Definition unconfirmed : pystr := py "传输未确认".

(** The call [send_single_book] makes for a task. *)
Definition upload_call (task : Task) : UploadCall :=
  {| up_files := [task_path task];
     up_names := [task_name task];
     up_on_card := None;
     up_end_session := false;
     up_metadata := [task_metadata task] |}.

(** Returns [(ok, error, location)]. *)
Definition send_single_book (device : Device) (task : Task) (w : World)
  : (bool * option pystr * option UploadEntry) * World :=
  let call := upload_call task in
  let answer := device (device_calls w) call in
  let w := record_call call w in
  match answer with
  | Returns paths =>
    match paths with
    | Some (first :: _) =>
      if entry_truthy first then ((true, None, Some first), w)
      else ((false, Some unconfirmed, None), w)
    | _ => ((false, Some unconfirmed, None), w)
    end
  | UploadRaises e trace =>
    ((false, Some (exc_str e), None), _record_error (task_title task) e trace w)
  end.

(** ** The background worker ([send_raw_books_worker]) *)

(** [calculate_md5(path)] on the file store: the digest in hexadecimal, or
    the exception that reading the file raises. *)
Inductive Md5Outcome :=
| Digest (hex : pystr)
| Md5Raises (e : PyExc).

Definition FileStore := pystr -> Md5Outcome.

Record Outcomes := {
  success_titles : list (option pystr);
  failed_list : list (option pystr * option pystr);
  upload_locations : list UploadEntry;
  upload_metadata : list Metadata;
}.

Definition no_outcomes : Outcomes :=
  {| success_titles := []; failed_list := []; upload_locations := [];
     upload_metadata := [] |}.

(** [task["metadata"] = m] *)
Definition with_metadata (m : Metadata) (t : Task) : Task :=
  {| task_book_id := task_book_id t; task_path := task_path t;
     task_name := task_name t; task_title := task_title t;
     task_metadata := m; task_size := task_size t;
     task_verify_md5 := task_verify_md5 t; task_format := task_format t |}.

(** [float(i) / total] *)
Definition progress (i total : nat) : Q := Z.of_nat i # Pos.of_nat total.

(** [({i + 1}/{total})] *)
Definition position (i total : nat) : pystr :=
  py "(" ++ str_of_N (N.of_nat (i + 1)) ++ py "/" ++ str_of_N (N.of_nat total)
  ++ py ")".

(** The block that computes the hash when the task asks for it. *)
Definition md5_step (files : FileStore) (total i : nat) (task : Task)
    (w : World) : Task * World :=
  let title := task_title task in
  if task_verify_md5 task then
    let w :=
      notifications_put
        (progress i total,
         py "正在计算 MD5 " ++ position i total ++ py ": " ++ fstr title) w in
    match files (task_path task) with
    | Digest file_md5 =>
      (with_metadata (set_md5 file_md5 (task_metadata task)) task, w)
    | Md5Raises e =>
      (task,
       log (LogError (py "MD5 calculation failed for " ++ fstr title
                      ++ py ": " ++ exc_str e)) w)
    end
  else (task, w).

(** Truth value of a location. *)
Definition location_truthy (l : option UploadEntry) : bool :=
  match l with
  | Some e => entry_truthy e
  | None => false
  end.

(** The [if is_ok: ... else: ...] that files the result of one send. *)
Definition classify (task : Task)
    (sent : bool * option pystr * option UploadEntry) (out : Outcomes)
  : Outcomes :=
  let '(is_ok, err_msg, location) := sent in
  let title := task_title task in
  if is_ok then
    if location_truthy location then
      {| success_titles := success_titles out ++ [title];
         failed_list := failed_list out;
         upload_locations :=
           upload_locations out ++ [default EntryNone location];
         upload_metadata := upload_metadata out ++ [task_metadata task] |}
    else
      {| success_titles := success_titles out ++ [title];
         failed_list := failed_list out;
         upload_locations := upload_locations out;
         upload_metadata := upload_metadata out |}
  else
    {| success_titles := success_titles out;
       failed_list := failed_list out ++ [(title, err_msg)];
       upload_locations := upload_locations out;
       upload_metadata := upload_metadata out |}.

(** The loop over [enumerate(tasks)]. [abort i] is what [abort.is_set()]
    answers at the top of iteration [i]; [total] is [len(tasks)] of the
    whole batch. *)
Fixpoint worker_loop (device : Device) (files : FileStore)
    (abort : nat -> bool) (total : nat) (tasks : list Task) (i : nat)
    (out : Outcomes) (w : World) {struct tasks} : Outcomes * World :=
  match tasks with
  | [] => (out, w)
  | task :: rest =>
    if abort i then (out, w)
    else
      let title := task_title task in
      let w := log (LogInfo (py "Processing: " ++ fstr title)) w in
      let '(task, w) := md5_step files total i task w in
      let w :=
        notifications_put
          (progress i total,
           py "正在发送 " ++ position i total ++ py ": " ++ fstr title) w in
      let '(sent, w) := send_single_book device task w in
      worker_loop device files abort total rest (S i) (classify task sent out) w
  end.

Record WorkerResult := {
  r_success_titles : list (option pystr);
  r_failed_list : list (option pystr * option pystr);
  r_error_reports : list Report;
  r_upload_locations : list UploadEntry;
  r_upload_metadata : list Metadata;
}.

Inductive WorkerOutcome :=
| WorkerRaises (e : PyExc)
| WorkerReturns (r : WorkerResult).

Definition finished : Q * pystr := (1%Q, py "发送完成").

(** The result tuple, from the lists of the loop and the reports of the
    transport. *)
Definition result_of (out : Outcomes) (w : World) : WorkerResult :=
  {| r_success_titles := success_titles out;
     r_failed_list := failed_list out;
     r_error_reports := error_reports w;
     r_upload_locations := upload_locations out;
     r_upload_metadata := upload_metadata out |}.

(** [device] is [None] when no device object is connected. The job starts
    with a fresh transport, an empty notification queue and an empty log. *)
Definition send_raw_books_worker (tasks : list Task) (device : option Device)
    (abort : nat -> bool) (files : FileStore) : WorkerOutcome * World :=
  let total := length tasks in
  match device with
  | None => (WorkerRaises (RuntimeError (py "设备未连接")), empty_world)
  | Some device =>
    let '(out, w) :=
      worker_loop device files abort total tasks 0 no_outcomes empty_world in
    let w := notifications_put finished w in
    (WorkerReturns (result_of out w), w)
  end.

(** The task as the loop hands it to the transport: with the hash attached
    when the task asks for it and the file can be read. *)
Definition sent_task (files : FileStore) (task : Task) : Task :=
  if task_verify_md5 task then
    match files (task_path task) with
    | Digest file_md5 =>
      with_metadata (set_md5 file_md5 (task_metadata task)) task
    | Md5Raises _ => task
    end
  else task.

Definition never : nat -> bool := fun _ => false.

(** ** Remote reset of the device catalog

    [_purge_remote_metadata_file] speaks the protocol directly. The
    session is observed through the events below, in the order in which
    they happen. *)

Record SendBookArgs := {
  sb_lpath : pystr;
  sb_length : nat;
  sb_metadata : Metadata;
  sb_thisBook : Z;
  sb_totalBooks : Z;
  sb_willStreamBooks : bool;
  sb_willStreamBinary : bool;
  sb_wantsSendOkToSendbook : bool;
  sb_canSupportLpathChanges : bool;
}.

Inductive SessionEvent :=
| LockAcquired                      (* entering [with device.sync_lock] *)
| LockReleased                      (* leaving it, by any path *)
| CallClient (opcode : pystr) (args : SendBookArgs)
             (print_debug_info wait_for_response : bool)
| SendByteString (payload : list byte)
| DeleteBooks (paths : list pystr) (end_session : bool).

(** What [_call_client] gives back: [(opcode, result)], both possibly
    [None], or an exception. *)
Inductive ClientAnswer :=
| Answer (opcode : option pystr) (result : option (gmap pystr pystr))
| ClientRaises (e : PyExc).

Record SmartDevice := {
  can_send_ok_to_sendbook : attr bool;
  _call_client : pystr -> SendBookArgs -> bool -> bool -> ClientAnswer;
  delete_books : list pystr -> bool -> option PyExc;
}.

Inductive outcome (A : Type) : Type :=
| Returned (a : A)
| Raised (e : PyExc).
Arguments Returned {A} a.
Arguments Raised {A} e.

(** [b"[]"] *)
Definition payload : list byte := [Byte.x5b; Byte.x5d].

(** The metadata object of the reset. [rnd] is the random draw of [uuid4];
    [now] is [utcnow()], or [None] when it cannot be had. *)
Definition reset_metadata (lpath : pystr) (rnd : N) (now : option Z)
  : Metadata :=
  {| title := Some (py "Calibre Metadata Reset");
     authors := [py "Calibre"];
     series := None; series_index := None;
     tags := Has [];
     comments := Has (py "calibre-metadata-reset");
     last_modified := Has now;
     lpath := Has lpath;
     uuid := Has (Some (str_uuid4 rnd));
     extension := Missing;
     size := Has (Z.of_nat (length payload));
     md5 := Missing; format_metadata := Missing; cover_data := Missing;
     thumbnail := Missing; device_collections := Missing |}.

(** The fields of the [SEND_BOOK] message. *)
Definition send_book_args (lpath : pystr) (wait_for_ack : bool) (rnd : N)
    (now : option Z) : SendBookArgs :=
  {| sb_lpath := lpath;
     sb_length := length payload;
     sb_metadata := reset_metadata lpath rnd now;
     sb_thisBook := 0;
     sb_totalBooks := 1;
     sb_willStreamBooks := true;
     sb_willStreamBinary := true;
     sb_wantsSendOkToSendbook := wait_for_ack;
     sb_canSupportLpathChanges := true |}.

Definition none_has_no_get : PyExc :=
  {| exc_class := py "AttributeError";
     exc_str := py "'NoneType' object has no attribute 'get'" |}.

(** Returns the path to delete, with the events of the session. *)
Definition _purge_remote_metadata_file (device : SmartDevice)
    (lpath : pystr) (rnd : N) (now : option Z)
  : outcome pystr * list SessionEvent :=
  let wait_for_ack := getattr (can_send_ok_to_sendbook device) false in
  let args := send_book_args lpath wait_for_ack rnd now in
  let events :=
    [LockAcquired; CallClient (py "SEND_BOOK") args false wait_for_ack] in
  match _call_client device (py "SEND_BOOK") args false wait_for_ack with
  | ClientRaises e => (Raised e, events ++ [LockReleased])
  | Answer opcode result =>
    let checked : outcome pystr :=
      if wait_for_ack then
        if bool_decide (opcode = Some (py "ERROR")) then
          match result with
          | Some r =>
            Raised (RuntimeError (default (py "SEND_BOOK failed")
                                          (r !! py "message")))
          | None => Raised none_has_no_get
          end
        else
          match result with
          | Some r => Returned (default lpath (r !! py "lpath"))
          | None => Raised none_has_no_get
          end
      else Returned lpath in
    match checked with
    | Raised e => (Raised e, events ++ [LockReleased])
    | Returned lpath =>
      if bool_decide (payload = [])
      then (Returned lpath, events ++ [LockReleased])
      else (Returned lpath,
            events ++ [SendByteString payload; LockReleased])
    end
  end.

(** The two calls in the [try] block of [delete_remote_metadata_file]. *)
Definition purge_and_delete (device : SmartDevice) (target : pystr)
    (rnd : N) (now : option Z) : outcome pystr * list SessionEvent :=
  match _purge_remote_metadata_file device target rnd now with
  | (Raised e, events) => (Raised e, events)
  | (Returned cleaned_path, events) =>
    let events := events ++ [DeleteBooks [cleaned_path] false] in
    match delete_books device [cleaned_path] false with
    | Some e => (Raised e, events)
    | None => (Returned cleaned_path, events)
    end
  end.

(** ** The earlier transport ([ui.py] at the top of the repository)

    [send_books] hands the whole batch to one [upload_books] call and
    accepts an entry by the sign of its length. Only the two lists it
    returns are modelled; its error reports are left out. *)

Module Legacy.

Definition transfer_failed : pystr := py "传输失败".

Definition batch_call (tasks : list Task) : UploadCall :=
  {| up_files := map task_path tasks;
     up_names := map task_name tasks;
     up_on_card := None;
     up_end_session := true;
     up_metadata := map task_metadata tasks |}.

Definition not_subscriptable : PyExc :=
  {| exc_class := py "TypeError";
     exc_str := py "'NoneType' object is not subscriptable" |}.

Definition tuple_index : PyExc :=
  {| exc_class := py "IndexError"; exc_str := py "tuple index out of range" |}.

Definition no_len : PyExc :=
  {| exc_class := py "TypeError";
     exc_str := py "object of type 'NoneType' has no len()" |}.

(** The loop that files every task after the upload; an exception leaves
    it with the lists as they are at that point. *)
Fixpoint file_results (paths : list UploadEntry) (tasks : list Task)
    (i : nat) (success : list (option pystr))
    (failed : list (option pystr * pystr))
  : list (option pystr) * list (option pystr * pystr) * option PyExc :=
  match tasks with
  | [] => (success, failed, None)
  | task :: rest =>
    match paths !! i with
    | None =>
      file_results paths rest (S i) success
                   (failed ++ [(task_title task, transfer_failed)])
    | Some (EntryPair _ len) =>
      if (0 <=? len)%Z
      then file_results paths rest (S i) (success ++ [task_title task]) failed
      else file_results paths rest (S i) success
                        (failed ++ [(task_title task, transfer_failed)])
    | Some EntryNone => (success, failed, Some not_subscriptable)
    | Some EntryEmpty => (success, failed, Some tuple_index)
    end
  end.

Definition fail_all (e : PyExc) (tasks : list Task)
  : list (option pystr * pystr) :=
  map (fun task => (task_title task, exc_str e)) tasks.

Definition send_books (device : Device) (history : list UploadCall)
    (tasks : list Task)
  : list (option pystr) * list (option pystr * pystr) :=
  match tasks with
  | [] => ([], [])
  | _ :: _ =>
    match device history (batch_call tasks) with
    | Returns (Some paths) =>
      match file_results paths tasks 0 [] [] with
      | (success, failed, None) => (success, failed)
      | (success, failed, Some e) => (success, failed ++ fail_all e tasks)
      end
    | Returns None => ([], fail_all no_len tasks)
    | UploadRaises e _ => ([], fail_all e tasks)
    end
  end.

End Legacy.

(** ** Derived views of the worker, used to state its properties *)

(** The state in which the send of [task] starts at iteration [i]. *)
Definition before_send (files : FileStore) (total i : nat) (task : Task)
    (w : World) : World :=
  notifications_put
    (progress i total,
     py "正在发送 " ++ position i total ++ py ": " ++ fstr (task_title task))
    (snd (md5_step files total i task
            (log (LogInfo (py "Processing: " ++ fstr (task_title task))) w))).

(** The loop over [tasks] when the cancellation flag stays clear. *)
Definition processed (device : Device) (files : FileStore) (total : nat)
    (tasks : list Task) : Outcomes * World :=
  worker_loop device files never total tasks 0 no_outcomes empty_world.

(** The upload calls that sending [tasks] makes, one per task. *)
Definition calls_for (files : FileStore) (tasks : list Task)
  : list UploadCall :=
  map (fun t => upload_call (sent_task files t)) tasks.

(** ** Derived views of the task builder *)

(** What holds of a task built for a book of the library. *)
Definition task_built_from (lib : Library) (t : Task) : Prop :=
  task_format t ∈ db_formats lib (task_book_id t) /\
  db_format_abspath lib (task_book_id t) (task_format t) = Some (task_path t) /\
  os_path_exists lib (task_path t) = true /\
  task_size t = os_path_getsize lib (task_path t) /\
  size (task_metadata t) = Has (task_size t) /\
  extension (task_metadata t) = Has (lower (task_format t)) /\
  md5 (task_metadata t) = md5 (db_get_metadata lib (task_book_id t)) /\
  task_title t = title (db_get_metadata lib (task_book_id t)).




(** ** Derived views of a batch *)

(** The progress fractions put on the notification queue, in order. *)
Definition fractions (w : World) : list Q := map fst (notifications w).

(** The title of an error report. *)
Definition report_title (r : Report) : option pystr := fst (fst r).

(** ** The action and its collaborators

    What [SendRawAction] asks of the host: the device manager with the
    connected device, dialogs, and the answers of the operator. What the
    action does is observed as a list of events, in order. *)

(** A device booklist, by the lpaths of its books. *)
Definition BookList := list pystr.

(** The three booklists: main memory, card A, card B. *)
Definition BookLists : Type := BookList * option BookList * option BookList.

(** The connected device object. [has_upload_books] and
    [has_device_socket] are what [hasattr] answers; [get_file] is [None]
    when the file is fetched and the exception otherwise. An optional
    method is [Missing] when the object has no such attribute and
    otherwise holds the exception the call raises, if any. *)
Record ConnectedDevice := {
  has_upload_books : bool;
  has_device_socket : bool;
  uploader : Device;
  session : SmartDevice;
  get_file : pystr -> option PyExc;
  add_books_to_metadata : attr (option PyExc);
}.

(** [gui.device_manager]: its [device] attribute may be missing or [None];
    [get_current_device_information], when the manager has it, returns
    the information ([Some tt]) or [None], or raises. *)
Record DeviceManager := {
  dm_device : attr (option ConnectedDevice);
  get_current_device_information : attr (outcome (option unit));
}.

Definition _get_smart_device (dm : option DeviceManager)
  : option ConnectedDevice :=
  match dm with
  | None => None
  | Some dm =>
    match getattr (dm_device dm) None with
    | None => None
    | Some device =>
      if negb (has_upload_books device) then None
      else if negb (has_device_socket device) then None
      else Some device
    end
  end.

Inductive UiEvent :=
| ErrorDialog (title msg : pystr) (det_msg : option pystr)
| InfoDialog (title msg : pystr) (det_msg : option pystr)
| Question (title msg : pystr)
| GetFile (lpath : pystr)
| OnSession (e : SessionEvent)
| RunThreadedJob (tasks : list Task) (device : ConnectedDevice)
| StatusMessage (msg : pystr) (msecs : Z)
| AddBooksToMetadata (locations : list UploadEntry)
                     (metadata : list Metadata) (booklists : BookLists)
| SetBooksInLibrary (booklists : BookLists) (reset do_device_sync : bool)
| RefreshDeviceViews
| Printed (msg : pystr).

Definition _remote_file_exists (device : ConnectedDevice) (lpath : pystr)
  : bool :=
  match get_file device lpath with
  | None => true
  | Some _ => false
  end.

Definition candidates : list pystr :=
  [py ".metadata.calibre"; py "metadata.calibre"].

(** The loop over the candidates, with the fetches it makes. *)
Fixpoint locate_among (device : ConnectedDevice) (names : list pystr)
  : option pystr * list UiEvent :=
  match names with
  | [] => (None, [])
  | candidate :: rest =>
    if _remote_file_exists device candidate
    then (Some candidate, [GetFile candidate])
    else
      let '(found, fetches) := locate_among device rest in
      (found, GetFile candidate :: fetches)
  end.

Definition _locate_remote_metadata_file (device : ConnectedDevice)
  : option pystr * list UiEvent :=
  locate_among device candidates.

(** [SendRawAction] defines no [_record_error] and inherits none: the
    method of that name belongs to [SmartDeviceTransport]. The call in the
    handler of [delete_remote_metadata_file] raises this. *)
Definition no_record_error : PyExc :=
  {| exc_class := py "AttributeError";
     exc_str :=
       py "'SendRawAction' object has no attribute '_record_error'" |}.

Definition delete_question (target : pystr) : UiEvent :=
  Question (py "删除设备元数据")
    (py "将删除 KOReader 收件箱目录下的 " ++ target
     ++ py "，用于解除损坏的缓存。" ++ [newline]
     ++ py "此操作不会删除书籍，但会强制 KOReader 重新生成设备书库。"
     ++ [newline; newline] ++ py "继续执行？").

Definition deleted_dialog (cleaned_path : pystr) : UiEvent :=
  InfoDialog (py "删除完成")
    (py "已从设备删除 " ++ cleaned_path ++ py "。" ++ [newline]
     ++ py "请在 KOReader 中运行“重置无线共享”或重新连接，以重建元数据。")
    None.

(** [confirmed] is whether the operator answers [Yes] to the question. *)
Definition delete_remote_metadata_file (dm : option DeviceManager)
    (confirmed : bool) (rnd : N) (now : option Z)
  : outcome unit * list UiEvent :=
  match _get_smart_device dm with
  | None =>
    (Returned tt,
     [ErrorDialog (py "设备未连接")
        (py "请先连接 KOReader 无线设备，再重试删除 .metadata.calibre 文件。")
        None])
  | Some device =>
    let '(target, fetches) := _locate_remote_metadata_file device in
    match target with
    | None =>
      (Returned tt,
       fetches ++
       [InfoDialog (py "未找到文件")
          (py "在设备收件箱目录中未检测到 metadata.calibre/.metadata.calibre 文件。")
          None])
    | Some target =>
      if negb confirmed then (Returned tt, fetches ++ [delete_question target])
      else
        match purge_and_delete (session device) target rnd now with
        | (Returned cleaned_path, events) =>
          (Returned tt,
           fetches ++ [delete_question target] ++ map OnSession events
           ++ [deleted_dialog cleaned_path])
        | (Raised _, events) =>
          (Raised no_record_error,
           fetches ++ [delete_question target] ++ map OnSession events)
        end
    end
  end.

(** Events on the protocol session: the fetches made with
    [device.get_file] and the steps of the reset and of the delete. *)
Definition touches_session (ev : UiEvent) : bool :=
  match ev with
  | GetFile _ | OnSession _ => true
  | _ => false
  end.

(** The fetches [_locate_remote_metadata_file] makes: the hidden catalog
    first, the plain one only when the first fetch raised. *)
Definition probe_fetches (device : ConnectedDevice) : list UiEvent :=
  if _remote_file_exists device (py ".metadata.calibre")
  then [GetFile (py ".metadata.calibre")]
  else [GetFile (py ".metadata.calibre"); GetFile (py "metadata.calibre")].

Definition is_error_dialog (ev : UiEvent) : bool :=
  match ev with
  | ErrorDialog _ _ _ => true
  | _ => false
  end.

(** ** Purge of the local cache ([_delete_local_metadata_files]) *)

Definition metadata_name : pystr := py ".metadata.calibre".

Definition slash : N := 47.

(** [os.path.join(a, b)] for a relative [b], with [/] as the separator. *)
Definition path_join (a b : pystr) : pystr :=
  match last a with
  | None => b
  | Some c => if c =? slash then a ++ b else a ++ [slash] ++ b
  end.

(** The host as the purge reads it. [driver_cache_dir] is what
    [cache_dir()] returns, [None] when it raises; [config_dir] is [None]
    when it cannot be imported; [os_walk base] lists the [(root, files)]
    pairs of [os.walk(base)]; [remove_error path] is the exception, other
    than [FileNotFoundError], that [os.remove] raises on an existing
    [path], if any. *)
Record Host := {
  driver_cache_dir : option pystr;
  config_dir : option pystr;
  os_path_exists_dir : pystr -> bool;
  os_walk : pystr -> list (pystr * list pystr);
  remove_error : pystr -> option PyExc;
}.

(** [candidate_dirs.add(d)]; the set is kept in insertion order. *)
Definition add_dir (d : pystr) (dirs : list pystr) : list pystr :=
  if bool_decide (d ∈ dirs) then dirs else dirs ++ [d].

Definition candidate_dirs (host : Host) : list pystr :=
  let dirs := [] in
  let dirs :=
    if str_truthy (driver_cache_dir host)
       && os_path_exists_dir host (default [] (driver_cache_dir host))
    then add_dir (default [] (driver_cache_dir host)) dirs else dirs in
  if str_truthy (config_dir host)
     && os_path_exists_dir host (default [] (config_dir host))
  then
    let config := default [] (config_dir host) in
    let dirs := add_dir config dirs in
    let devices_path := path_join config (py "device_drivers") in
    if os_path_exists_dir host devices_path then add_dir devices_path dirs
    else dirs
  else dirs.

(** The catalog files found under the candidate directories. *)
Definition metadata_files (host : Host) : list pystr :=
  flat_map
    (fun base =>
       flat_map
         (fun entry : pystr * list pystr =>
            if bool_decide (metadata_name ∈ snd entry)
            then [path_join (fst entry) metadata_name] else [])
         (os_walk host base))
    (candidate_dirs host).

(** The loop that removes the files found. [present] is the set of files
    that exist; a file that is no longer there is passed over. *)
Fixpoint remove_found (host : Host) (paths : list pystr)
    (present : gset pystr) (deleted : list pystr)
    (errors : list (pystr * pystr))
  : list pystr * list (pystr * pystr) * gset pystr :=
  match paths with
  | [] => (deleted, errors, present)
  | path :: rest =>
    if bool_decide (path ∈ present) then
      match remove_error host path with
      | None =>
        remove_found host rest (present ∖ {[ path ]}) (deleted ++ [path])
                     errors
      | Some err =>
        remove_found host rest present deleted
                     (errors ++ [(path, exc_str err)])
      end
    else remove_found host rest present deleted errors
  end.

(** Returns [(deleted, errors)], with the files that exist afterwards. *)
Definition _delete_local_metadata_files (host : Host) (present : gset pystr)
  : list pystr * list (pystr * pystr) * gset pystr :=
  remove_found host (metadata_files host) present [] [].

(** ** The host window

    A device view is [Missing] when the window has no such attribute;
    otherwise it holds what [view.model().db] evaluates to, a booklist or
    [None], or the exception it raises. *)

(** [jm.has_device_jobs]: the answer to the call with [queued_also=True]
    and the answer to the call without arguments. *)
Record DeviceJobs := {
  with_queued_also : outcome bool;
  without_arguments : outcome bool;
}.

Record JobManager := {
  has_device_jobs : attr DeviceJobs;
}.

Record Gui := {
  device_manager : option DeviceManager;
  job_manager : option JobManager;
  memory_view : attr (outcome (option BookList));
  card_a_view : attr (outcome (option BookList));
  card_b_view : attr (outcome (option BookList));
  set_books_in_library : attr (option PyExc);
}.

(** [sep.join(parts)] *)
Fixpoint join (sep : pystr) (parts : list pystr) : pystr :=
  match parts with
  | [] => []
  | [p] => p
  | p :: rest => p ++ sep ++ join sep rest
  end.

(** [view.model().db if hasattr(gui, view) else None] *)
Definition view_db (view : attr (outcome (option BookList)))
  : outcome (option BookList) :=
  match view with
  | Missing => Returned None
  | Has r => r
  end.

(** Returns the three booklists, or [None]; an exception is printed. *)
Definition _get_booklists (gui : Gui) : option BookLists * list UiEvent :=
  let failed (e : PyExc) : option BookLists * list UiEvent :=
    (None, [Printed (py "Failed to get booklists: " ++ exc_str e)]) in
  match view_db (memory_view gui) with
  | Raised e => failed e
  | Returned main_list =>
    match view_db (card_a_view gui) with
    | Raised e => failed e
    | Returned carda_list =>
      match view_db (card_b_view gui) with
      | Raised e => failed e
      | Returned cardb_list =>
        match main_list with
        | Some main => (Some (main, carda_list, cardb_list), [])
        | None => (None, [])
        end
      end
    end
  end.

Definition sync_failed (e : PyExc) : UiEvent :=
  Printed (py "Failed to sync books to device: " ++ exc_str e).

(** [_sync_books_to_device(locations, metadata)]. The views are refreshed
    by [_refresh_device_views], which catches every exception of its
    own; it is one event here. *)
Definition _sync_books_to_device (gui : Gui) (locations : list UploadEntry)
    (metadata : list Metadata) : list UiEvent :=
  match locations, metadata with
  | [], _ | _, [] => []
  | _ :: _, _ :: _ =>
    match device_manager gui with
    | None => []
    | Some dm =>
      match getattr (dm_device dm) None with
      | None => []
      | Some device =>
        let '(booklists, printed) := _get_booklists gui in
        match booklists with
        | None => printed
        | Some booklists =>
          let add := AddBooksToMetadata locations metadata booklists in
          let set := SetBooksInLibrary booklists true false in
          match add_books_to_metadata device with
          | Has (Some e) => printed ++ [add; sync_failed e]
          | added =>
            let done := printed ++ (if hasattr added then [add] else []) in
            match set_books_in_library gui with
            | Has (Some e) => done ++ [set; sync_failed e]
            | Has None => done ++ [set; RefreshDeviceViews]
            | Missing => done ++ [RefreshDeviceViews]
            end
          end
        end
      end
    end
  end.

(** ** The end of a job ([SendRawAction.job_finished]) *)

(** The job as [ThreadedJob] hands it to the callback. *)
Record Job := {
  job_failed : bool;
  job_details : option pystr;
  job_result : option WorkerResult;
}.

(** [f"{n} ..."] for a length. *)
Definition str_of_len {A : Type} (l : list A) : pystr :=
  str_of_N (N.of_nat (length l)).

Definition is_nil {A : Type} (l : list A) : bool :=
  match l with
  | [] => true
  | _ :: _ => false
  end.

Definition summary_msg (r : WorkerResult) : pystr :=
  let msg_parts :=
    (if is_nil (r_success_titles r) then []
     else [py "成功发送: " ++ str_of_len (r_success_titles r) ++ py " 本"])
    ++ (if is_nil (r_failed_list r) then []
        else [py "发送失败: " ++ str_of_len (r_failed_list r) ++ py " 本"]) in
  join [newline] msg_parts.

Definition failed_line (f : option pystr * option pystr) : pystr :=
  fstr (fst f) ++ py ": " ++ fstr (snd f) ++ [newline].

Definition report_block (r : Report) : pystr :=
  py "[" ++ fstr (fst (fst r)) ++ py "]" ++ [newline]
  ++ py "错误: " ++ snd (fst r) ++ [newline]
  ++ py "详情:" ++ [newline] ++ snd r ++ [newline; newline].

Definition detailed_msg (r : WorkerResult) : pystr :=
  (if is_nil (r_failed_list r) then []
   else py "--- 失败详情 ---" ++ [newline]
        ++ concat (map failed_line (r_failed_list r)) ++ [newline])
  ++ (if is_nil (r_error_reports r) then []
      else py "--- 详细错误报告 ---" ++ [newline]
           ++ concat (map report_block (r_error_reports r))).

Definition job_finished (gui : Gui) (job : Job) : list UiEvent :=
  if job_failed job then
    [ErrorDialog (py "发送失败") (py "后台发送任务执行失败") (job_details job)]
  else
    match job_result job with
    | None => []
    | Some r =>
      _sync_books_to_device gui (r_upload_locations r) (r_upload_metadata r)
      ++ (if is_nil (r_failed_list r) && is_nil (r_error_reports r) then []
          else [ErrorDialog (py "发送完成 (有错误)") (summary_msg r)
                            (Some (detailed_msg r))])
    end.

(** The job that results from running the worker: a worker that raises
    gives a failed job with the details of the exception, a worker that
    returns gives its result. *)
Definition job_of (run : WorkerOutcome) (details : pystr) : Job :=
  match run with
  | WorkerRaises _ =>
    {| job_failed := true; job_details := Some details; job_result := None |}
  | WorkerReturns r =>
    {| job_failed := false; job_details := None; job_result := Some r |}
  end.

(** Events that change the device booklists or the views. *)
Definition is_sync_event (ev : UiEvent) : bool :=
  match ev with
  | AddBooksToMetadata _ _ _ | SetBooksInLibrary _ _ _ | RefreshDeviceViews =>
    true
  | _ => false
  end.

Definition is_dialog (ev : UiEvent) : bool :=
  match ev with
  | ErrorDialog _ _ _ | InfoDialog _ _ _ | Question _ _ => true
  | _ => false
  end.

(** What the sync may do with the device and the views. *)
Definition sync_event_ok (gui : Gui) (locations : list UploadEntry)
    (metadata : list Metadata) (ev : UiEvent) : Prop :=
  is_dialog ev = false /\
  match ev with
  | AddBooksToMetadata l m b =>
    l = locations /\ m = metadata /\ fst (_get_booklists gui) = Some b
  | SetBooksInLibrary b reset do_device_sync =>
    fst (_get_booklists gui) = Some b /\ reset = true /\
    do_device_sync = false
  | _ => True
  end /\
  (is_sync_event ev = true ->
   locations <> [] /\ metadata <> [] /\
   (exists dm device,
      device_manager gui = Some dm /\ dm_device dm = Has (Some device)) /\
   (exists b, fst (_get_booklists gui) = Some b)).

(** ** The main entry ([SendRawAction.send_raw_selected]) *)

(** How a flow of the action ends. *)
Inductive flow_end :=
| Finished
| Raises (e : PyExc)
| RaisesIndexError     (* a positional field in the filename template *)
| OutsideModel.        (* a template outside the modelled fragment *)

Definition connecting_dialog : UiEvent :=
  InfoDialog (py "设备正在连接") (py "设备信息正在加载中，请稍后再发送。")
             (Some (py "等待设备列表与书库加载完成后再试。")).

Definition busy_dialog : UiEvent :=
  InfoDialog (py "设备正在同步") (py "当前设备正在同步，请稍后再发送。")
             (Some (py "等待设备同步任务完成后再试。")).

(** [except TypeError], by the name of the class. *)
Definition is_type_error (e : PyExc) : bool :=
  bool_decide (exc_class e = py "TypeError").

Definition _device_ready_for_send (gui : Gui) : outcome bool * list UiEvent :=
  let information_missing :=
    match device_manager gui with
    | Some dm =>
      match get_current_device_information dm with
      | Has (Returned None) => true
      | _ => false
      end
    | None => false
    end in
  if information_missing then (Returned false, [connecting_dialog])
  else
    match job_manager gui with
    | Some jm =>
      match has_device_jobs jm with
      | Has jobs =>
        let device_busy :=
          match with_queued_also jobs with
          | Returned busy => Returned busy
          | Raised e =>
            if is_type_error e then without_arguments jobs else Raised e
          end in
        match device_busy with
        | Returned true => (Returned false, [busy_dialog])
        | Returned false => (Returned true, [])
        | Raised e => (Raised e, [])
        end
      | Missing => (Returned true, [])
      end
    | None => (Returned true, [])
    end.

Definition skipped_dialog (failed : list pystr) : UiEvent :=
  InfoDialog (py "部分跳过")
             (str_of_len failed ++ py " 本书籍无法处理，将被跳过。")
             (Some (join [newline] failed)).

Definition sending_message (tasks : list Task) : UiEvent :=
  StatusMessage
    (py "正在后台发送 " ++ str_of_len tasks ++ py " 本书籍到 KOReader...") 3000.

(** [book_ids] are the identifiers of the selected rows, in order. *)
Definition send_raw_selected (gui : Gui) (book_ids : list Z) (lib : Library)
    (prefs : JSONConfig) (urandom : nat -> N) (fmt : option pystr)
  : flow_end * list UiEvent :=
  match book_ids with
  | [] =>
    (Finished,
     [ErrorDialog (py "未选择书籍") (py "请先选择要发送的书籍") None])
  | _ :: _ =>
    match _get_smart_device (device_manager gui) with
    | None =>
      (Finished,
       [ErrorDialog (py "设备未连接") (py "请先通过无线连接 KOReader 设备")
          (Some (py "在 KOReader 中打开 Calibre 无线连接，然后在 Calibre 中连接设备。"))])
    | Some device =>
      match _device_ready_for_send gui with
      | (Raised e, shown) => (Raises e, shown)
      | (Returned false, shown) => (Finished, shown)
      | (Returned true, shown) =>
        match _build_tasks lib prefs urandom book_ids fmt with
        | BuildIndexError => (RaisesIndexError, shown)
        | BuildUnmodelled => (OutsideModel, shown)
        | Built tasks failed =>
          let skipped :=
            if is_nil failed then [] else [skipped_dialog failed] in
          if is_nil tasks then
            (Finished,
             shown ++ skipped
             ++ [ErrorDialog (py "无法发送")
                             (py "没有找到可发送的有效书籍任务") None])
          else
            (Finished,
             shown ++ skipped
             ++ [RunThreadedJob tasks device; sending_message tasks])
        end
      end
    end
  end.

(** What holds of a job that is started. *)
Definition job_start_ok (gui : Gui) (book_ids : list Z) (lib : Library)
    (prefs : JSONConfig) (urandom : nat -> N) (fmt : option pystr)
    (events : list UiEvent) (ev : UiEvent) : Prop :=
  match ev with
  | RunThreadedJob tasks device =>
    tasks <> [] /\ book_ids <> [] /\
    _get_smart_device (device_manager gui) = Some device /\
    fst (_device_ready_for_send gui) = Returned true /\
    exists failed,
      _build_tasks lib prefs urandom book_ids fmt = Built tasks failed /\
      (failed = [] \/ skipped_dialog failed ∈ events)
  | _ => True
  end.

Definition is_job_start (ev : UiEvent) : bool :=
  match ev with
  | RunThreadedJob _ _ => true
  | _ => false
  end.

(** ** The settings widget ([config.py], [ConfigWidget]) *)

(** The characters [str.strip()] removes when it is given no argument. *)
Definition whitespace : pystr :=
  [9; 10; 11; 12; 13; 28; 29; 30; 31; 32; 133; 160; 5760;
   8192; 8193; 8194; 8195; 8196; 8197; 8198; 8199; 8200; 8201; 8202;
   8232; 8233; 8239; 8287; 12288].

(** [s.strip()] *)
Definition strip_ws (s : pystr) : pystr := strip whitespace s.

(** The state of the widget: the rows of the format list, the current row
    ([-1] when there is none), the two line edits, the spin box and the
    check box. *)
Record ConfigWidget := {
  format_list : list pystr;
  current_row : Z;
  subdir_edit : pystr;
  template_edit : pystr;
  timeout_spin : Z;
  verify_md5_cb : bool;
}.

(** [timeout_spin.setValue(v)]: the spin box has the range 30 to 600 and
    brings a value outside it to the nearest bound. *)
Definition spin_set_value (v : Z) : Z := Z.max 30 (Z.min 600 v).

Definition load_settings (p : JSONConfig) (w : ConfigWidget) : ConfigWidget :=
  {| format_list :=
       prefs_get preferred_formats p
                 [py "EPUB"; py "AZW3"; py "MOBI"; py "PDF"];
     current_row := -1;
     subdir_edit := prefs_get device_subdir p [];
     template_edit := prefs_get filename_template p (py "{author} - {title}");
     timeout_spin := spin_set_value (prefs_get timeout p 120%Z);
     verify_md5_cb := prefs_get verify_md5 p true |}.

(** The values [save_settings] stores. *)
Definition save_settings (w : ConfigWidget) : PrefValues :=
  {| preferred_formats := Some (format_list w);
     device_subdir := Some (strip_ws (subdir_edit w));
     filename_template :=
       Some (if is_empty (strip_ws (template_edit w))
             then py "{author} - {title}"
             else strip_ws (template_edit w));
     timeout := Some (timeout_spin w);
     verify_md5 := Some (verify_md5_cb w) |}.

Definition with_formats (items : list pystr) (row : Z) (w : ConfigWidget)
  : ConfigWidget :=
  {| format_list := items; current_row := row;
     subdir_edit := subdir_edit w; template_edit := template_edit w;
     timeout_spin := timeout_spin w; verify_md5_cb := verify_md5_cb w |}.

(** [fmt] and [ok] are what the input dialog returns. *)
Definition add_format (w : ConfigWidget) (fmt : pystr) (ok : bool)
  : ConfigWidget :=
  if ok && negb (is_empty fmt) then
    let fmt := strip_ws (upper fmt) in
    if bool_decide (fmt ∈ format_list w) then w
    else with_formats (format_list w ++ [fmt]) (current_row w) w
  else w.

(** [insertItem(row, item)] *)
Definition insert_item {A : Type} (row : nat) (item : A) (l : list A)
  : list A :=
  take row l ++ item :: drop row l.

(** [takeItem(row)] followed by [insertItem(target, item)] and
    [setCurrentRow(target)]. The current row of a list widget is below
    its count, so there is always an item to take. *)
Definition move_item (w : ConfigWidget) (row target : nat) : ConfigWidget :=
  match format_list w !! row with
  | Some item =>
    with_formats (insert_item target item (delete row (format_list w)))
                 (Z.of_nat target) w
  | None => w
  end.

Definition move_up (w : ConfigWidget) : ConfigWidget :=
  let current := current_row w in
  if (0 <? current)%Z
  then move_item w (Z.to_nat current) (Z.to_nat (current - 1))
  else w.

Definition move_down (w : ConfigWidget) : ConfigWidget :=
  let current := current_row w in
  if (0 <=? current)%Z && (current <? Z.of_nat (length (format_list w)) - 1)%Z
  then move_item w (Z.to_nat current) (Z.to_nat (current + 1))
  else w.

(** ** Hashing a file ([calculate_md5])

    The hash object is taken by its interface: a fresh object, [update]
    and [hexdigest]. The file is read in chunks of 8192 bytes until a
    read returns nothing. *)

Definition chunk_size : nat := N.to_nat 8192.

Section Hashing.

Variable hash : Type.
Variable hash_new : hash.
Variable hash_update : hash -> list byte -> hash.
Variable hash_hexdigest : hash -> pystr.

(** The loop over the chunks that [f.read(8192)] returns, up to the first
    empty one; [rest] is what is left to read. [fuel] bounds the number of
    reads. *)
Fixpoint hash_chunks (fuel : nat) (rest : list byte) (h : hash) : hash :=
  match fuel with
  | O => h
  | S fuel =>
    match take chunk_size rest with
    | [] => h
    | chunk => hash_chunks fuel (drop chunk_size rest) (hash_update h chunk)
    end
  end.

(** A file of [n] bytes is read in at most [n] non-empty chunks, and one
    more read finds the end. *)
Definition calculate_md5 (content : list byte) : pystr :=
  hash_hexdigest (hash_chunks (S (length content)) content hash_new).

End Hashing.

(** ** Sample data for the examples *)

Definition sample_kwargs : gmap pystr pystr :=
  <[py "author" := py "A"]> (<[py "title" := py "T"]> ∅).

(** A library record with a title and authors and no optional attribute. *)
Definition plain_metadata (t : pystr) (a : list pystr) : Metadata :=
  {| title := Some t; authors := a; series := None; series_index := None;
     tags := Missing; comments := Missing; last_modified := Missing;
     lpath := Missing; uuid := Missing; extension := Missing;
     size := Missing; md5 := Missing; format_metadata := Missing;
     cover_data := Missing; thumbnail := Missing;
     device_collections := Missing |}.

(** A title of 101 letters [b] by an author of 101 letters [a]. *)
Definition long_metadata : Metadata :=
  plain_metadata (replicate 101 98) [replicate 101 97].

(** 99 letters [a], a space and a letter [b]: 101 characters. *)
Definition name_cut_after_space : pystr := replicate 99 97 ++ py " b".

(** A library with one book, number 1, in EPUB and MOBI; the other
    numbers have no formats. *)
Definition sample_library : Library :=
  {| db_formats := fun id =>
       if (id =? 1)%Z then [py "EPUB"; py "MOBI"] else [];
     db_get_metadata := fun _ => plain_metadata (py "Book") [py "Author"];
     db_format_abspath := fun _ fmt => Some (py "/library/book." ++ lower fmt);
     os_path_exists := fun _ => true;
     os_path_getsize := fun _ => 1024%Z |}.

Definition zero_entropy : nat -> N := fun _ => 0.

(** The task that the sample library yields for book 1 when nothing is
    saved in the settings and no format is requested. *)
Definition sample_task : Task :=
  {| task_book_id := 1;
     task_path := py "/library/book.epub";
     task_name := py "Author - Book.epub";
     task_title := Some (py "Book");
     task_metadata :=
       prepare_metadata_for_device (plain_metadata (py "Book") [py "Author"])
                                   (py "EPUB") 1024 None 0;
     task_size := 1024;
     task_verify_md5 := false;
     task_format := py "EPUB" |}.

(** A driver that answers every upload with the single entry
    [(None, -1)]. *)
Definition refusing_device : Device :=
  fun _ _ => Returns (Some [EntryPair None (-1)]).

Definition no_files : FileStore :=
  fun _ => Md5Raises {| exc_class := py "FileNotFoundError";
                        exc_str := py "No such file or directory" |}.

Definition titled_task (id : Z) (t : pystr) : Task :=
  {| task_book_id := id;
     task_path := py "/library/" ++ t ++ py ".epub";
     task_name := t ++ py ".epub";
     task_title := Some t;
     task_metadata := plain_metadata t [py "Author"];
     task_size := 1024;
     task_verify_md5 := false;
     task_format := py "EPUB" |}.

Definition task_one : Task := titled_task 1 (py "One").
Definition task_two : Task := titled_task 2 (py "Two").
Definition task_three : Task := titled_task 3 (py "Three").

Definition five_tasks : list Task :=
  [task_one; task_two; task_three; titled_task 4 (py "Four");
   titled_task 5 (py "Five")].

(** The flag is clear at the first check and set from then on. *)
Definition set_after_first : nat -> bool := fun i => (0 <? i)%nat.

(** A driver that stores every file under the name it is given. *)
Definition accepting_device : Device :=
  fun _ call =>
    Returns (Some (map (fun n => EntryPair (Some n) 1024) (up_names call))).

Definition timed_out : PyExc :=
  {| exc_class := py "TimeoutError"; exc_str := py "timed out" |}.

Definition timed_out_trace : pystr :=
  py "Traceback (most recent call last): TimeoutError: timed out".

(** A driver whose second upload times out. *)
Definition failing_on_second : Device :=
  fun history call =>
    match history with
    | [_] => UploadRaises timed_out timed_out_trace
    | _ => accepting_device history call
    end.

Definition catalog : pystr := py ".metadata.calibre".

(** A device that asks for no acknowledgement and deletes what it is told
    to delete. *)
Definition silent_device : SmartDevice :=
  {| can_send_ok_to_sendbook := Missing;
     _call_client := fun _ _ _ _ => Answer None None;
     delete_books := fun _ _ => None |}.

(** A device that acknowledges [SEND_BOOK] and asks for another path. *)
Definition correcting_device : SmartDevice :=
  {| can_send_ok_to_sendbook := Has true;
     _call_client := fun _ _ _ _ =>
       Answer (Some (py "OK"))
              (Some {[ py "lpath" := py "books/.metadata.calibre" ]});
     delete_books := fun _ _ => None |}.

(** A device that answers [SEND_BOOK] with [("ERROR", {"message": "locked"})]. *)
Definition locked_device : SmartDevice :=
  {| can_send_ok_to_sendbook := Has true;
     _call_client := fun _ _ _ _ =>
       Answer (Some (py "ERROR")) (Some {[ py "message" := py "locked" ]});
     delete_books := fun _ _ => None |}.

(** A driver that answers every upload with the list [[None]]. *)
Definition confirming_nothing : Device :=
  fun _ _ => Returns (Some [EntryNone]).

(** A library whose book 1 is the long-named record, in EPUB. *)
Definition long_library : Library :=
  {| db_formats := fun _ => [py "EPUB"];
     db_get_metadata := fun _ => long_metadata;
     db_format_abspath := fun _ _ => Some (py "/library/long.epub");
     os_path_exists := fun _ => true;
     os_path_getsize := fun _ => 1024%Z |}.

(** The skip reason of the sample library for a book without formats. *)
Definition sample_skip : pystr := py "Book - 无可用格式".

(** Settings in which only the verification switch was saved, as on. *)
Definition verify_saved_on : PrefValues :=
  {| preferred_formats := None; device_subdir := None;
     filename_template := None; verify_md5 := Some true; timeout := None |}.

(** The task of the sample library when the switch is saved as on. *)
Definition verified_task : Task :=
  {| task_book_id := 1;
     task_path := py "/library/book.epub";
     task_name := py "Author - Book.epub";
     task_title := Some (py "Book");
     task_metadata := task_metadata sample_task;
     task_size := 1024;
     task_verify_md5 := true;
     task_format := py "EPUB" |}.

(** A device that wants no acknowledgement and yet answers [ERROR]. *)
Definition unheard_device : SmartDevice :=
  {| can_send_ok_to_sendbook := Has false;
     _call_client := fun _ _ _ _ =>
       Answer (Some (py "ERROR")) (Some {[ py "message" := py "locked" ]});
     delete_books := fun _ _ => None |}.

(** A connected device on which only [metadata.calibre] can be fetched and
    whose session answers [ERROR]. *)
Definition locked_reader : ConnectedDevice :=
  {| has_upload_books := true;
     has_device_socket := true;
     uploader := accepting_device;
     session := locked_device;
     get_file := fun lpath =>
       if bool_decide (lpath = py "metadata.calibre") then None
       else Some {| exc_class := py "ControlError";
                    exc_str := py "no such file" |};
     add_books_to_metadata := Has None |}.

Definition locked_manager : option DeviceManager :=
  Some {| dm_device := Has (Some locked_reader);
          get_current_device_information := Has (Returned (Some tt)) |}.

(** A host whose configuration directory holds a catalog in the folder of
    the device drivers; the walk of the configuration directory and the
    walk of that folder both find it. *)
Definition sample_host : Host :=
  {| driver_cache_dir := None;
     config_dir := Some (py "/cfg");
     os_path_exists_dir := fun _ => true;
     os_walk := fun base =>
       if bool_decide (base = py "/cfg")
       then [(py "/cfg", [py "global.py"]);
             (py "/cfg/device_drivers", [py ".metadata.calibre"])]
       else [(py "/cfg/device_drivers", [py ".metadata.calibre"])];
     remove_error := fun _ => None |}.

Definition sample_catalog : pystr := py "/cfg/device_drivers/.metadata.calibre".

(** A host without cache and configuration directories. *)
Definition bare_host : Host :=
  {| driver_cache_dir := None; config_dir := None;
     os_path_exists_dir := fun _ => false;
     os_walk := fun _ => [];
     remove_error := fun _ => None |}.

(** A widget as the operator may leave it: padded texts, the second row
    current. *)
Definition sample_widget : ConfigWidget :=
  {| format_list := [py "EPUB"; py "PDF"; py "MOBI"];
     current_row := 1;
     subdir_edit := py " books ";
     template_edit := py "  ";
     timeout_spin := 90;
     verify_md5_cb := true |}.

(** A hash object that keeps what it is fed. *)
Definition keep_hexdigest (h : list byte) : pystr := map Byte.to_N h.

(** A file of 20000 bytes: three reads that return bytes and one that
    finds the end. *)
Definition long_content : list byte := replicate (N.to_nat 20000) Byte.x01.



(** * Verified properties *)

(** ** Strings and the safe-name transform *)

Example py_unconfirmed : py "传输未确认" = [20256; 36755; 26410; 30830; 35748].
Proof. reflexivity. Qed.

Example invalid_chars_codes :
  invalid_chars = [60; 62; 58; 34; 47; 92; 124; 63; 42].
Proof. reflexivity. Qed.

Example safe_filename_ex1 :
  _safe_filename (py "  A/B: C?. ") = py "A_B_ C_".
Proof. reflexivity. Qed.

Section StringFacts.

Lemma char_in_spec chars c : char_in chars c = true <-> c ∈ chars.
Proof.
  unfold char_in. rewrite existsb_exists. split.
  - intros (x & Hx & Heq). apply N.eqb_eq in Heq. subst.
    by apply list_elem_of_In.
  - intros H. exists c. split; [by apply list_elem_of_In | apply N.eqb_refl].
Qed.

Lemma lstrip_suffix chars s : lstrip chars s `suffix_of` s.
Proof.
  induction s as [|c r IH]; simpl; [done|].
  destruct (char_in chars c); [by apply suffix_cons_r | done].
Qed.

Lemma lstrip_elem chars s x : x ∈ lstrip chars s -> x ∈ s.
Proof.
  intros H. destruct (lstrip_suffix chars s) as [k ->].
  apply elem_of_app. by right.
Qed.

Lemma lstrip_length chars s : (length (lstrip chars s) <= length s)%nat.
Proof. apply suffix_length, lstrip_suffix. Qed.

Lemma rstrip_elem chars s x : x ∈ rstrip chars s -> x ∈ s.
Proof.
  unfold rstrip. rewrite elem_of_reverse. intros H.
  apply lstrip_elem in H. by apply elem_of_reverse.
Qed.

Lemma strip_elem chars s x : x ∈ strip chars s -> x ∈ s.
Proof. unfold strip. intros H. by apply rstrip_elem, lstrip_elem in H. Qed.

Lemma lstrip_head chars s c r :
  lstrip chars s = c :: r -> char_in chars c = false.
Proof.
  induction s as [|a s IH]; simpl; [done|].
  destruct (char_in chars a) eqn:E; [done|].
  intros [= <- <-]. done.
Qed.

(** After [strip], no character of [chars] is left at the end. *)
Lemma rstrip_last chars s c :
  last (rstrip chars s) = Some c -> char_in chars c = false.
Proof.
  unfold rstrip. rewrite last_reverse.
  destruct (lstrip chars (reverse s)) as [|a r] eqn:E; simpl; [done|].
  intros [= <-]. eapply lstrip_head, E.
Qed.

Lemma strip_last chars s c :
  last (strip chars s) = Some c -> char_in chars c = false.
Proof. apply rstrip_last. Qed.

Lemma replace_elem c u s x :
  x ∈ replace c u s -> x = u \/ (x ∈ s /\ x <> c).
Proof.
  unfold replace. rewrite list_elem_of_fmap. intros (y & -> & Hy).
  destruct (N.eqb_spec y c); auto.
Qed.

Lemma replace_all_elem u cs s x :
  x ∈ fold_left (fun name char => replace char u name) cs s ->
  x = u \/ (x ∈ s /\ x ∉ cs).
Proof.
  revert s. induction cs as [|c cs IH]; intros s; simpl.
  - intros H. right. split; [done | apply not_elem_of_nil].
  - intros H. destruct (IH _ H) as [-> | [H1 H2]]; [by left|].
    destruct (replace_elem _ _ _ _ H1) as [-> | [H3 H4]]; [by left|].
    right. split; [done|]. rewrite elem_of_cons. intros [-> | ?]; done.
Qed.

End StringFacts.

(** The three guarantees of the safe-name transform that hold for every
    input. *)
Lemma safe_filename_no_invalid_char (name : pystr) (c : N) :
  c ∈ invalid_chars -> c ∉ _safe_filename name.
Proof.
  intros Hc. unfold _safe_filename.
  assert (Hu : c ∉ py "Unknown").
  { intros Hin. revert Hc. vm_compute in Hin.
    repeat (apply elem_of_cons in Hin as [-> | Hin]);
      try (by apply elem_of_nil in Hin);
      intros Hc; vm_compute in Hc;
      repeat (apply elem_of_cons in Hc as [Hc | Hc]; [discriminate Hc|]);
      by apply elem_of_nil in Hc. }
  destruct (is_empty name); [done|].
  set (r := fold_left _ _ _).
  assert (Hs : c ∉ strip (py ". ") r).
  { intros Hin. apply strip_elem in Hin.
    apply replace_all_elem in Hin as [-> | [_ Hn]]; [|done].
    vm_compute in Hc.
    repeat (apply elem_of_cons in Hc as [Hc | Hc]; [discriminate Hc|]).
    by apply elem_of_nil in Hc. }
  assert (Ht : c ∉ take 100 (strip (py ". ") r)).
  { intros Hin. apply Hs. apply elem_of_take in Hin as (i & Hi & _).
    by eapply list_elem_of_lookup_2. }
  destruct (100 <? length (strip (py ". ") r))%nat;
    match goal with |- context [is_empty ?l] => destruct (is_empty l) end;
    done.
Qed.

Lemma safe_filename_length (name : pystr) :
  (length (_safe_filename name) <= 100)%nat.
Proof.
  unfold _safe_filename.
  assert (Hu : (length (py "Unknown") <= 100)%nat) by (vm_compute; lia).
  destruct (is_empty name); [done|].
  set (s := strip _ _).
  destruct (Nat.ltb_spec 100 (length s)).
  - destruct (is_empty (take 100 s)); [done|]. rewrite length_take. lia.
  - destruct (is_empty s); [done | lia].
Qed.

Lemma safe_filename_nonempty (name : pystr) : _safe_filename name <> [].
Proof.
  unfold _safe_filename.
  destruct (is_empty name); [done|].
  match goal with |- context [is_empty ?l] => destruct l eqn:E end; done.
Qed.

Example str_uuid4_zero :
  str_uuid4 0 = py "00000000-0000-4000-8000-000000000000".
Proof. reflexivity. Qed.

Example str_uuid4_ones :
  str_uuid4 (2 ^ 128 - 1) = py "ffffffff-ffff-4fff-bfff-ffffffffffff".
Proof. reflexivity. Qed.

Lemma str_uuid4_length rnd : length (str_uuid4 rnd) = 36%nat.
Proof.
  unfold str_uuid4, str_uuid.
  assert (H : length (hex32 (uuid4_int rnd)) = 32%nat)
    by (unfold hex32; rewrite length_map, length_seq; reflexivity).
  rewrite !length_app, !length_take, !length_drop, H. reflexivity.
Qed.

Lemma str_uuid4_nonempty rnd : str_uuid4 rnd <> [].
Proof.
  intros E. pose proof (str_uuid4_length rnd) as H.
  rewrite E in H. discriminate H.
Qed.

Lemma replace_all_length u cs s :
  length (fold_left (fun name char => replace char u name) cs s) = length s.
Proof.
  revert s. induction cs as [|c cs IH]; intros s; simpl; [done|].
  rewrite IH. unfold replace. apply length_map.
Qed.

Lemma strip_length chars s : (length (strip chars s) <= length s)%nat.
Proof.
  unfold strip, rstrip. rewrite length_reverse.
  etransitivity; [apply lstrip_length|]. rewrite length_reverse.
  apply lstrip_length.
Qed.

(** A name that is not cut ends in neither a dot nor a space. *)
Lemma safe_filename_trimmed_when_short (name : pystr) (c : N) :
  (length name <= 100)%nat ->
  last (_safe_filename name) = Some c -> char_in (py ". ") c = false.
Proof.
  intros Hlen. unfold _safe_filename.
  destruct (is_empty name); [by intros [= <-]|].
  set (r := fold_left _ _ _).
  assert (Hs : (length (strip (py ". ") r) <= 100)%nat).
  { etransitivity; [apply strip_length|]. unfold r.
    by rewrite replace_all_length. }
  destruct (Nat.ltb_spec 100 (length (strip (py ". ") r))); [lia|].
  destruct (is_empty (strip (py ". ") r)); [by intros [= <-]|].
  apply strip_last.
Qed.

(** C7: on the 101-character name made of 99 letters, a space and one more
    letter, nothing is trimmed, the cut to 100 characters removes the last
    letter, and the name that is returned ends in a space. *)
Theorem safe_filename_cut_leaves_trailing_space :
  (length name_cut_after_space = 101%nat) /\
  (_safe_filename name_cut_after_space = replicate 99 97 ++ py " ") /\
  (last (_safe_filename name_cut_after_space) = Some 32) /\
  (char_in (py ". ") 32 = true).
Proof. repeat split; vm_compute; reflexivity. Qed.

(** ** Metadata sanitizer *)

(** C6: for every source record, format code, byte size, optional hash and
    random draw, the sanitized record has the lower-cased extension and the
    size set; its hash is the provided one when a non-empty hash was given
    and is untouched otherwise; it carries no cover data, no thumbnail and
    no per-format sub-record; and its unique identifier is a non-empty
    string: the source's own when it has one, a freshly generated one
    otherwise. *)
Theorem prepare_metadata_for_device_sanitizes
    (mi : Metadata) (ext : pystr) (file_size : Z)
    (file_md5 : option pystr) (rnd : N) :
  let m := prepare_metadata_for_device mi ext file_size file_md5 rnd in
  extension m = Has (lower ext) /\
  size m = Has file_size /\
  md5 m = (if str_truthy file_md5 then Has (default [] file_md5) else md5 mi) /\
  (forall d, cover_data m <> Has (Some d)) /\
  (forall d, thumbnail m <> Has (Some d)) /\
  (forall fm, format_metadata m = Has fm -> fm = ∅) /\
  exists u, uuid m = Has (Some u) /\ u <> [] /\
    (if str_truthy (getattr (uuid mi) None)
     then uuid mi = Has (Some u) else u = str_uuid4 rnd).
Proof.
  destruct mi as [t a s si tg cm lm lp u e sz h fm cd th dc].
  unfold prepare_metadata_for_device, deepcopy_metadata.
  destruct file_md5 as [[|c0 h0]|], fm as [|fm], cd as [|cd], th as [|th];
    cbn -[str_uuid4 lower];
    (destruct u as [|[[|c1 u1]|]]; cbn -[str_uuid4 lower];
     repeat split; try congruence;
     try (eexists; repeat split; try reflexivity;
          first [apply str_uuid4_nonempty | discriminate])).
Qed.

(** ** Filename templates *)

Example str_format_default :
  str_format (py "{author} - {title}") sample_kwargs = FmtOk (py "A - T").
Proof. vm_compute. reflexivity. Qed.

Example str_format_escapes :
  str_format (py "{{{title}}}") sample_kwargs = FmtOk (py "{T}").
Proof. vm_compute. reflexivity. Qed.

Example str_format_unknown_key :
  str_format (py "{publisher}") sample_kwargs = FmtKeyError.
Proof. vm_compute. reflexivity. Qed.

Example str_format_single_brace :
  str_format (py "{title}}") sample_kwargs = FmtValueError.
Proof. vm_compute. reflexivity. Qed.

Example str_format_positional :
  str_format (py "{} - {title}") sample_kwargs = FmtIndexError.
Proof. vm_compute. reflexivity. Qed.

Example str_format_index :
  str_format (py "{0} - {title}") sample_kwargs = FmtIndexError.
Proof. vm_compute. reflexivity. Qed.

(** The largest index is still looked up; one more digit is refused. *)
Example str_format_largest_index :
  str_format (py "{9223372036854775807}") sample_kwargs = FmtIndexError /\
  str_format (py "{9223372036854775808}") sample_kwargs = FmtValueError.
Proof. split; vm_compute; reflexivity. Qed.

(** A field name in which a letter follows the digits is a keyword. *)
Example str_format_digits_then_letter :
  str_format (py "{1a}") sample_kwargs = FmtKeyError.
Proof. vm_compute. reflexivity. Qed.

(** An index with too many digits is caught by the handler of
    [_build_filename], which falls back to [author - title]. *)
Example build_filename_overlong_index :
  _build_filename (plain_metadata (py "Book") [py "Author"]) (py "EPUB")
                  (py "{99999999999999999999}")
  = Fname (py "Author - Book.epub").
Proof. vm_compute. reflexivity. Qed.

Lemma str_format_default_template (a t s si : pystr) :
  str_format default_template
    (<[py "author" := a]> (<[py "title" := t]>
      (<[py "series" := s]> (<[py "series_index" := si]> ∅))))
  = FmtOk (a ++ py " - " ++ t).
Proof.
  transitivity (FmtOk (a ++ py " - " ++ (t ++ []))).
  - vm_compute. reflexivity.
  - by rewrite app_nil_r.
Qed.

Lemma build_filename_default (mi : Metadata) (fmt : pystr) :
  _build_filename mi fmt default_template =
  Fname ((_safe_filename (first_author mi) ++ py " - "
          ++ _safe_filename (str_or (title mi) (py "Unknown")))
         ++ [46] ++ lower fmt).
Proof.
  unfold _build_filename. by rewrite str_format_default_template.
Qed.

(** C10: each placeholder value is capped on its own before it is
    substituted and the extension is appended after the substitution: with
    the default template the name is [safe(author) - safe(title).ext].
    For a record whose author and title both have more than 100
    characters the complete filename has 208 characters, more than 100,
    and it is the name the task builder puts in the task and the
    transport passes to the upload. *)
Theorem build_filename_cap_is_per_placeholder :
  (forall (mi : Metadata) (fmt : pystr),
     _build_filename mi fmt default_template =
     Fname ((_safe_filename (first_author mi) ++ py " - "
             ++ _safe_filename (str_or (title mi) (py "Unknown")))
            ++ [46] ++ lower fmt)) /\
  (100 < length (first_author long_metadata))%nat /\
  (100 < length (str_or (title long_metadata) (py "Unknown")))%nat /\
  (exists s : pystr,
     _build_filename long_metadata (py "EPUB") default_template = Fname s /\
     length s = 208%nat /\ (100 < length s)%nat) /\
  (exists t : Task,
     _build_tasks long_library (prefs nothing_saved) zero_entropy [1%Z] None
       = Built [t] [] /\
     up_names (upload_call t) = [task_name t] /\
     (100 < length (task_name t))%nat).
Proof.
  split; [apply build_filename_default|].
  split; [vm_compute; lia|].
  split; [vm_compute; lia|].
  split.
  - eexists. split; [vm_compute; reflexivity|].
    split; [reflexivity | vm_compute; lia].
  - eexists. split; [vm_compute; reflexivity|].
    split; [reflexivity | vm_compute; lia].
Qed.

(** ** Task builder: format selection *)

Lemma first_preferred_Some (preferred formats : list pystr) (x : pystr) :
  first_preferred preferred formats = Some x ->
  exists pre p post,
    preferred = pre ++ p :: post /\
    Forall (fun q => upper q ∉ formats) pre /\
    upper p ∈ formats /\ x = upper p.
Proof.
  induction preferred as [|q rest IH]; simpl; [done|].
  case_bool_decide as Hq.
  - intros [= <-]. exists [], q, rest. by repeat split.
  - intros H. destruct (IH H) as (pre & p & post & -> & Hpre & Hp & ->).
    exists (q :: pre), p, post. repeat split; [|done].
    by constructor.
Qed.






(** ** Task builder: the integrity-verification flag *)

(** Every task the loop adds carries the flag the loop was started with. *)
Lemma build_loop_verify_flag (lib : Library) (preferred : list pystr)
    (template : pystr) (verify : bool) (urandom : nat -> N)
    (requested : option pystr) (book_ids : list Z) :
  forall (i : nat) (tasks : list Task) (failed : list pystr)
         (tasks' : list Task) (failed' : list pystr),
    Forall (fun t => task_verify_md5 t = verify) tasks ->
    build_loop lib preferred template verify urandom requested book_ids i
               tasks failed = Built tasks' failed' ->
    Forall (fun t => task_verify_md5 t = verify) tasks'.
Proof.
  induction book_ids as [|book_id rest IH]; intros i tasks failed tasks' failed'
    Hinv; cbn [build_loop].
  - by intros [= <- _].
  - destruct (db_formats lib book_id) as [|f fs]; [by apply IH|].
    destruct (select_format (f :: fs) requested preferred) as [fmt|];
      [|by apply IH].
    destruct (str_truthy _ && os_path_exists lib _); [|by apply IH].
    destruct (_build_filename _ fmt template) as [name| |]; [|done|done].
    apply IH. apply Forall_app. split; [done|]. by repeat constructor.
Qed.

Example prefs_get_verify_md5_nothing_saved :
  prefs_get verify_md5 (prefs nothing_saved) true = false.
Proof. reflexivity. Qed.

(** The fallback passed to [get] decides only when no default is
    registered for the key. *)
Example prefs_get_fallback_without_default :
  prefs_get verify_md5 {| stored := nothing_saved; defaults := nothing_saved |}
            true = true.
Proof. reflexivity. Qed.

Example build_tasks_sample :
  _build_tasks sample_library (prefs nothing_saved) zero_entropy [1%Z] None
  = Built [sample_task] [].
Proof. vm_compute. reflexivity. Qed.

(** The settings widget reads the switch the same way: with nothing
    saved, the check box comes up unchecked, although [True] is the
    fallback passed to [get]. *)
Example load_settings_verify_md5_nothing_saved (w : ConfigWidget) :
  verify_md5_cb (load_settings (prefs nothing_saved) w) = false.
Proof. reflexivity. Qed.

(** Verification is not on for every task built from an empty settings
    store: the task built for book 1 of the sample library has it off. *)
Lemma verify_md5_default_on_refuted :
  ~ (forall (lib : Library) (urandom : nat -> N) (book_ids : list Z)
            (requested : option pystr) (tasks : list Task)
            (failed : list pystr) (t : Task),
       _build_tasks lib (prefs nothing_saved) urandom book_ids requested
         = Built tasks failed ->
       t ∈ tasks -> task_verify_md5 t = true).
Proof.
  intros H.
  specialize (H sample_library zero_entropy [1%Z] None [sample_task] []
                sample_task build_tasks_sample (list_elem_of_here _ _)).
  discriminate H.
Qed.

(** C9: what the code does on a settings store that holds nothing. Both
    places that read the switch pass [True] as the fallback
    ([prefs.get("verify_md5", True)] in [_build_tasks] and in
    [load_settings]), but [config.py] registers
    [prefs.defaults["verify_md5"] = False], and [get] looks at the
    registered defaults before the fallback: every task that is built has
    hash verification off. *)
Theorem verify_md5_defaults_to_off
    (lib : Library) (urandom : nat -> N) (book_ids : list Z)
    (requested : option pystr) (tasks : list Task)
    (failed : list pystr) (t : Task) :
  _build_tasks lib (prefs nothing_saved) urandom book_ids requested
    = Built tasks failed ->
  t ∈ tasks -> task_verify_md5 t = false.
Proof.
  unfold _build_tasks. intros Hrun Hin.
  change (prefs_get verify_md5 (prefs nothing_saved) true) with false in Hrun.
  apply build_loop_verify_flag in Hrun; [|by constructor].
  rewrite Forall_forall in Hrun. by apply Hrun.
Qed.

Lemma verify_md5_defaults_to_off_witness :
  _build_tasks sample_library (prefs nothing_saved) zero_entropy [1%Z] None
    = Built [sample_task] [] /\
  sample_task ∈ [sample_task] /\
  task_verify_md5 sample_task = false.
Proof.
  assert (Hrun : _build_tasks sample_library (prefs nothing_saved)
                   zero_entropy [1%Z] None = Built [sample_task] [])
    by (vm_compute; reflexivity).
  assert (Hin : sample_task ∈ [sample_task]) by apply list_elem_of_here.
  split; [exact Hrun|]. split; [exact Hin|].
  exact (verify_md5_defaults_to_off sample_library zero_entropy [1%Z] None
           [sample_task] [] sample_task Hrun Hin).
Defined.

(** ** Transport: one send *)

Lemma send_single_book_calls (device : Device) (task : Task) (w : World) :
  device_calls (snd (send_single_book device task w))
  = device_calls w ++ [upload_call task].
Proof.
  unfold send_single_book.
  destruct (device _ _) as [[[|first more]|]|e trace]; try reflexivity.
  by destruct (entry_truthy first).
Qed.



(** C1: what the code does on the answer [[(None, -1)]], for every task.
    The test [paths and paths[0]] looks at truthiness only, and the tuple
    [(None, -1)] is truthy: the single-book send reports success, with
    [(None, -1)] as the location and no reason; the worker then lists the
    title as sent and stages the location for the catalog sync. The
    earlier [send_books], which tests [paths[i][1] >= 0], files the same
    answer as a failure. *)
Theorem send_single_book_accepts_negative_length (task : Task) (w : World) :
  send_single_book refusing_device task w
    = ((true, None, Some (EntryPair None (-1))),
       record_call (upload_call task) w) /\
  (exists w', send_raw_books_worker [task] (Some refusing_device) never no_files
    = (WorkerReturns
         {| r_success_titles := [task_title task];
            r_failed_list := [];
            r_error_reports := [];
            r_upload_locations := [EntryPair None (-1)];
            r_upload_metadata := [task_metadata task] |}, w')) /\
  Legacy.send_books refusing_device [] [task]
    = ([], [(task_title task, Legacy.transfer_failed)]).
Proof.
  split; [reflexivity|]. split; [|reflexivity].
  unfold send_raw_books_worker. cbn [worker_loop never length].
  unfold md5_step, no_files.
  destruct (task_verify_md5 task); eexists; reflexivity.
Qed.

(** The answer [[(None, -1)]] is not filed as an unconfirmed transfer. *)
Lemma negative_length_unconfirmed_refuted :
  ~ (forall (device : Device) (task : Task) (w : World),
       device (device_calls w) (upload_call task)
         = Returns (Some [EntryPair None (-1)]) ->
       fst (send_single_book device task w)
         = (false, Some unconfirmed, None)).
Proof.
  intros H.
  specialize (H refusing_device sample_task empty_world eq_refl).
  discriminate H.
Qed.

(** The answers that are filed as unconfirmed: when the answer of the
    driver is falsy in Python ([None] or an empty list) or its first entry
    is ([None] or an empty tuple), the single-book send reports a failure
    with the reason 传输未确认 ("transfer unconfirmed") and no location; it
    records the call and writes no error report, as no exception was
    raised. *)
Theorem send_single_book_unconfirmed
    (device : Device) (task : Task) (w : World)
    (paths : option (list UploadEntry)) :
  device (device_calls w) (upload_call task) = Returns paths ->
  match paths with
  | Some (first :: _) => entry_truthy first = false
  | _ => True
  end ->
  send_single_book device task w
    = ((false, Some unconfirmed, None), record_call (upload_call task) w) /\
  error_reports (snd (send_single_book device task w)) = error_reports w.
Proof.
  unfold send_single_book. intros ->.
  destruct paths as [[|first more]|]; try done. by intros ->.
Qed.

Lemma send_single_book_unconfirmed_witness :
  send_single_book confirming_nothing sample_task empty_world
    = ((false, Some (py "传输未确认"), None),
       record_call (upload_call sample_task) empty_world) /\
  error_reports (snd (send_single_book confirming_nothing sample_task
                                       empty_world)) = [].
Proof.
  exact (send_single_book_unconfirmed confirming_nothing sample_task
           empty_world (Some [EntryNone]) eq_refl eq_refl).
Defined.

(** ** Worker *)

Section Worker.

Variable device : Device.
Variable files : FileStore.

Lemma md5_step_task (total i : nat) (task : Task) (w : World) :
  fst (md5_step files total i task w) = sent_task files task.
Proof.
  unfold md5_step, sent_task.
  destruct (task_verify_md5 task); [|done]. by destruct (files _).
Qed.

Lemma md5_step_world (total i : nat) (task : Task) (w : World) :
  device_calls (snd (md5_step files total i task w)) = device_calls w /\
  error_reports (snd (md5_step files total i task w)) = error_reports w.
Proof.
  unfold md5_step.
  destruct (task_verify_md5 task); [|done]. by destruct (files _).
Qed.

Lemma before_send_world (total i : nat) (task : Task) (w : World) :
  device_calls (before_send files total i task w) = device_calls w /\
  error_reports (before_send files total i task w) = error_reports w.
Proof.
  unfold before_send, notifications_put. cbn [device_calls error_reports].
  apply (md5_step_world total i task (log _ w)).
Qed.

Lemma sent_task_title (task : Task) :
  task_title (sent_task files task) = task_title task.
Proof.
  unfold sent_task. destruct (task_verify_md5 task); [|done].
  by destruct (files _).
Qed.

(** One iteration of the loop when the flag is clear. *)
Lemma worker_loop_cons (abort : nat -> bool) (total : nat) (task : Task)
    (rest : list Task) (i : nat) (out : Outcomes) (w : World) :
  abort i = false ->
  worker_loop device files abort total (task :: rest) i out w
  = let s := send_single_book device (sent_task files task)
                              (before_send files total i task w) in
    worker_loop device files abort total rest (S i)
                (classify (sent_task files task) (fst s) out) (snd s).
Proof.
  intros Ha. cbn [worker_loop]. rewrite Ha. unfold before_send.
  pose proof (md5_step_task total i task
    (log (LogInfo (py "Processing: " ++ fstr (task_title task))) w)) as Ht.
  destruct (md5_step files total i task _) as [task' w1]. cbn in Ht. subst task'.
  cbn [snd]. cbn zeta. by destruct (send_single_book _ _ _).
Qed.

Lemma worker_loop_aborted (abort : nat -> bool) (total : nat)
    (tasks : list Task) (i : nat) (out : Outcomes) (w : World) :
  abort i = true ->
  worker_loop device files abort total tasks i out w = (out, w).
Proof. intros Ha. destruct tasks; cbn [worker_loop]; [done|]. by rewrite Ha. Qed.

Lemma classify_count (task : Task)
    (sent : bool * option pystr * option UploadEntry) (out : Outcomes) :
  (length (success_titles (classify task sent out))
   + length (failed_list (classify task sent out))
   = S (length (success_titles out) + length (failed_list out)))%nat.
Proof.
  destruct sent as [[[] err] loc]; cbn.
  - destruct (location_truthy loc); cbn; rewrite length_app; cbn; lia.
  - rewrite length_app; cbn; lia.
Qed.

(** Without cancellation every task is sent once, in order, and yields
    one outcome. *)
Lemma worker_loop_never (total : nat) (tasks : list Task) :
  forall (i : nat) (out : Outcomes) (w : World),
    let r := worker_loop device files never total tasks i out w in
    (length (success_titles (fst r)) + length (failed_list (fst r))
     = length (success_titles out) + length (failed_list out) + length tasks)%nat
    /\ device_calls (snd r) = device_calls w ++ calls_for files tasks.
Proof.
  induction tasks as [|task rest IH]; intros i out w.
  - cbn. split; [lia | by rewrite app_nil_r].
  - cbn zeta. rewrite worker_loop_cons by reflexivity. cbn zeta.
    specialize (IH (S i)
      (classify (sent_task files task)
         (fst (send_single_book device (sent_task files task)
                 (before_send files total i task w))) out)
      (snd (send_single_book device (sent_task files task)
              (before_send files total i task w)))).
    cbn zeta in IH. destruct IH as [IH1 IH2]. split.
    + rewrite IH1, classify_count. cbn [length]. lia.
    + rewrite IH2, send_single_book_calls.
      destruct (before_send_world total i task w) as [-> _].
      unfold calls_for. cbn [map]. by rewrite <- app_assoc.
Qed.

(** A flag that is first seen set at iteration [i + k] stops the loop
    there: the loop does what it does on the first [k] tasks. *)
Lemma worker_loop_cancelled (abort : nat -> bool) (total : nat)
    (tasks : list Task) :
  forall (k i : nat) (out : Outcomes) (w : World),
    (k <= length tasks)%nat ->
    (forall j, (j < k)%nat -> abort (i + j)%nat = false) ->
    ((k < length tasks)%nat -> abort (i + k)%nat = true) ->
    worker_loop device files abort total tasks i out w
    = worker_loop device files never total (take k tasks) i out w.
Proof.
  induction tasks as [|task rest IH]; intros k i out w Hk Hclear Hset.
  - by rewrite take_nil.
  - destruct k as [|k].
    + rewrite take_0, worker_loop_aborted; [reflexivity|].
      rewrite <- (Nat.add_0_r i). apply Hset. cbn. lia.
    + rewrite firstn_cons.
      rewrite worker_loop_cons
        by (rewrite <- (Nat.add_0_r i); apply Hclear; lia).
      rewrite (worker_loop_cons never) by reflexivity. cbn zeta.
      apply IH.
      * cbn in Hk. lia.
      * intros j Hj. replace (S i + j)%nat with (i + S j)%nat by lia.
        apply Hclear. lia.
      * intros Hlt. replace (S i + k)%nat with (i + S k)%nat by lia.
        apply Hset. cbn. lia.
Qed.

End Worker.

Lemma last_notification (w : World) :
  last (notifications (notifications_put finished w)) = Some finished.
Proof. unfold notifications_put. cbn [notifications]. apply last_snoc. Qed.


Example failing_on_second_first :
  failing_on_second [] (upload_call (sent_task no_files task_one))
  = Returns (Some [EntryPair (Some (py "One.epub")) 1024]).
Proof. vm_compute. reflexivity. Qed.


(** C5: when the cancellation flag is clear at the first [k] checks and is
    set at the next one, the worker returns normally with exactly [k]
    outcomes; the uploads made are those of the first [k] tasks, so the
    remaining tasks are never attempted; its result is what the loop
    produces on the first [k] tasks alone; and the last progress update is
    the final one. *)
Theorem worker_stops_at_cancellation
    (device : Device) (files : FileStore) (abort : nat -> bool)
    (tasks : list Task) (k : nat) :
  (k <= length tasks)%nat ->
  (forall j, (j < k)%nat -> abort j = false) ->
  ((k < length tasks)%nat -> abort k = true) ->
  exists (r : WorkerResult) (w : World),
    send_raw_books_worker tasks (Some device) abort files
      = (WorkerReturns r, w) /\
    (length (r_success_titles r) + length (r_failed_list r) = k)%nat /\
    device_calls w = calls_for files (take k tasks) /\
    length (device_calls w) = k /\
    r = result_of (fst (processed device files (length tasks) (take k tasks)))
                  (snd (processed device files (length tasks) (take k tasks)))
    /\ last (notifications w) = Some finished.
Proof.
  intros Hk Hclear Hset. unfold send_raw_books_worker.
  rewrite (worker_loop_cancelled device files abort (length tasks) tasks k 0)
    by done.
  fold (processed device files (length tasks) (take k tasks)).
  pose proof (worker_loop_never device files (length tasks) (take k tasks)
                0 no_outcomes empty_world) as Hn.
  cbn zeta in Hn. fold (processed device files (length tasks) (take k tasks)) in Hn.
  destruct (processed device files (length tasks) (take k tasks)) as [out w].
  cbn [fst snd] in *. destruct Hn as [Hcount Hcalls].
  assert (Hlen : length (take k tasks) = k) by (rewrite length_take; lia).
  eexists _, _. split; [reflexivity|].
  repeat split.
  - cbn [result_of r_success_titles r_failed_list].
    rewrite Hcount, Hlen. reflexivity.
  - unfold notifications_put. cbn [device_calls]. by rewrite Hcalls.
  - unfold notifications_put. cbn [device_calls]. rewrite Hcalls.
    unfold calls_for. cbn [empty_world device_calls app].
    by rewrite length_map.
  - apply last_notification.
Qed.

Lemma worker_stops_at_cancellation_witness :
  (1 <= length five_tasks)%nat /\
  (forall j, (j < 1)%nat -> set_after_first j = false) /\
  ((1 < length five_tasks)%nat -> set_after_first 1 = true) /\
  exists (r : WorkerResult) (w : World),
    send_raw_books_worker five_tasks (Some accepting_device) set_after_first
                          no_files = (WorkerReturns r, w) /\
    (length (r_success_titles r) + length (r_failed_list r) = 1)%nat /\
    device_calls w = calls_for no_files (take 1 five_tasks) /\
    length (device_calls w) = 1%nat /\
    r = result_of
          (fst (processed accepting_device no_files (length five_tasks)
                          (take 1 five_tasks)))
          (snd (processed accepting_device no_files (length five_tasks)
                          (take 1 five_tasks)))
    /\ last (notifications w) = Some finished.
Proof.
  assert (H1 : (1 <= length five_tasks)%nat) by (cbn; lia).
  assert (H2 : forall j, (j < 1)%nat -> set_after_first j = false).
  { intros j Hj. destruct j; [reflexivity | lia]. }
  assert (H3 : (1 < length five_tasks)%nat -> set_after_first 1 = true)
    by reflexivity.
  split; [exact H1|]. split; [exact H2|]. split; [exact H3|].
  exact (worker_stops_at_cancellation accepting_device no_files
           set_after_first five_tasks 1 H1 H2 H3).
Defined.

Example cancel_after_first_of_five :
  exists w : World,
    send_raw_books_worker five_tasks (Some accepting_device) set_after_first
                          no_files
    = (WorkerReturns
         {| r_success_titles := [Some (py "One")];
            r_failed_list := [];
            r_error_reports := [];
            r_upload_locations := [EntryPair (Some (py "One.epub")) 1024];
            r_upload_metadata := [task_metadata task_one] |}, w) /\
    device_calls w = [upload_call task_one] /\
    notifications w
    = [((0 # 5)%Q, py "正在发送 (1/5): One"); finished].
Proof. eexists. split; [|split]; vm_compute; reflexivity. Qed.

(** ** Remote reset of the device catalog *)

(** C2: when the device wants the acknowledgement and answers the
    [SEND_BOOK] message with the opcode [ERROR], the reset raises a
    [RuntimeError] whose text is the [message] field of the answer (or
    [SEND_BOOK failed] when there is none). The session sees the lock
    taken, the one exchange, which waits for the answer, and the lock
    released: no byte string is sent, and the delete that would follow is
    not issued. *)
Theorem purge_raises_on_error_opcode
    (device : SmartDevice) (lpath : pystr) (rnd : N) (now : option Z)
    (result : gmap pystr pystr) :
  can_send_ok_to_sendbook device = Has true ->
  _call_client device (py "SEND_BOOK") (send_book_args lpath true rnd now)
               false true
    = Answer (Some (py "ERROR")) (Some result) ->
  let raised :=
    RuntimeError (default (py "SEND_BOOK failed") (result !! py "message")) in
  let events :=
    [LockAcquired;
     CallClient (py "SEND_BOOK") (send_book_args lpath true rnd now) false true;
     LockReleased] in
  sb_wantsSendOkToSendbook (send_book_args lpath true rnd now) = true /\
  _purge_remote_metadata_file device lpath rnd now = (Raised raised, events) /\
  (forall p, SendByteString p ∉ events) /\
  purge_and_delete device lpath rnd now = (Raised raised, events).
Proof.
  intros Hack Hanswer raised events.
  assert (Hp : _purge_remote_metadata_file device lpath rnd now
               = (Raised raised, events)).
  { unfold _purge_remote_metadata_file. rewrite Hack.
    cbn [getattr]. rewrite Hanswer.
    rewrite bool_decide_eq_true_2 by reflexivity. reflexivity. }
  split; [reflexivity|]. split; [exact Hp|]. split.
  - intros p Hin. unfold events in Hin.
    repeat (apply elem_of_cons in Hin as [Hin | Hin]; [discriminate Hin|]).
    by apply elem_of_nil in Hin.
  - unfold purge_and_delete. by rewrite Hp.
Qed.

Lemma purge_raises_on_error_opcode_witness :
  _purge_remote_metadata_file locked_device catalog 0 None
  = (Raised (RuntimeError (py "locked")),
     [LockAcquired;
      CallClient (py "SEND_BOOK") (send_book_args catalog true 0 None)
                 false true;
      LockReleased]).
Proof.
  exact (proj1 (proj2
    (purge_raises_on_error_opcode locked_device catalog 0 None
       {[ py "message" := py "locked" ]} eq_refl eq_refl))).
Defined.

Example purge_and_delete_silent :
  purge_and_delete silent_device catalog 0 None
  = (Returned catalog,
     [LockAcquired;
      CallClient (py "SEND_BOOK") (send_book_args catalog false 0 None)
                 false false;
      SendByteString [Byte.x5b; Byte.x5d];
      LockReleased;
      DeleteBooks [catalog] false]).
Proof. vm_compute. reflexivity. Qed.

(** C3, as the specification has it, fails: the transfer that the reset
    announces is not of length zero. On the silent device the [SEND_BOOK]
    message declares two bytes. *)
Lemma reset_transfer_zero_length_refuted :
  ~ (forall (device : SmartDevice) (target : pystr) (rnd : N)
            (now : option Z) (opcode : pystr) (args : SendBookArgs)
            (dbg wait : bool),
       CallClient opcode args dbg wait
         ∈ snd (purge_and_delete device target rnd now) ->
       sb_lpath args = target /\ sb_totalBooks args = 1%Z /\
       sb_length args = 0%nat).
Proof.
  intros H.
  destruct (H silent_device catalog 0 None (py "SEND_BOOK")
              (send_book_args catalog false 0 None) false false)
    as (_ & _ & Hlen).
  - rewrite purge_and_delete_silent. cbn [snd].
    apply list_elem_of_further, list_elem_of_here.
  - discriminate Hlen.
Qed.

(** C3, amended: a reset that goes through announces the transfer of one
    file of two bytes to the catalog path, streams the two bytes [[]] that
    make an empty list, and is followed by a delete of the path it
    returns: the path the device supplies in its acknowledgement when it
    was asked for one and supplies one, the catalog path otherwise. *)
Theorem reset_overwrites_then_deletes
    (device : SmartDevice) (target : pystr) (rnd : N) (now : option Z)
    (cleaned : pystr) (events : list SessionEvent) :
  _purge_remote_metadata_file device target rnd now
    = (Returned cleaned, events) ->
  let wait := getattr (can_send_ok_to_sendbook device) false in
  let args := send_book_args target wait rnd now in
  (sb_lpath args = target /\ sb_length args = 2%nat /\
   sb_thisBook args = 0%Z /\ sb_totalBooks args = 1%Z) /\
  events = [LockAcquired; CallClient (py "SEND_BOOK") args false wait;
            SendByteString [Byte.x5b; Byte.x5d]; LockReleased] /\
  snd (purge_and_delete device target rnd now)
    = events ++ [DeleteBooks [cleaned] false] /\
  cleaned =
    match _call_client device (py "SEND_BOOK") args false wait with
    | Answer _ (Some r) =>
      if wait then default target (r !! py "lpath") else target
    | _ => target
    end.
Proof.
  intros Hp wait args.
  split; [by repeat split|].
  assert (Hd : snd (purge_and_delete device target rnd now)
               = events ++ [DeleteBooks [cleaned] false]).
  { unfold purge_and_delete. rewrite Hp.
    by destruct (delete_books device [cleaned] false). }
  revert Hp. unfold _purge_remote_metadata_file.
  fold wait. fold args.
  destruct (_call_client device (py "SEND_BOOK") args false wait)
    as [opcode result|e]; [|discriminate].
  destruct wait.
  - case_bool_decide.
    + destruct result; discriminate.
    + destruct result as [r|]; [|discriminate].
      cbn [bool_decide]. intros [= <- <-]. by repeat split.
  - intros [= <- <-]. split; [reflexivity|]. split; [exact Hd|].
    by destruct result.
Qed.

Lemma reset_overwrites_then_deletes_witness :
  _purge_remote_metadata_file correcting_device catalog 0 None
    = (Returned (py "books/.metadata.calibre"),
       [LockAcquired;
        CallClient (py "SEND_BOOK") (send_book_args catalog true 0 None)
                   false true;
        SendByteString [Byte.x5b; Byte.x5d]; LockReleased]) /\
  snd (purge_and_delete correcting_device catalog 0 None)
    = [LockAcquired;
       CallClient (py "SEND_BOOK") (send_book_args catalog true 0 None)
                  false true;
       SendByteString [Byte.x5b; Byte.x5d]; LockReleased]
      ++ [DeleteBooks [py "books/.metadata.calibre"] false].
Proof.
  assert (Hp : _purge_remote_metadata_file correcting_device catalog 0 None
    = (Returned (py "books/.metadata.calibre"),
       [LockAcquired;
        CallClient (py "SEND_BOOK") (send_book_args catalog true 0 None)
                   false true;
        SendByteString [Byte.x5b; Byte.x5d]; LockReleased]))
    by (vm_compute; reflexivity).
  split; [exact Hp|].
  exact (proj1 (proj2 (proj2
    (reset_overwrites_then_deletes correcting_device catalog 0 None _ _ Hp)))).
Defined.

(** * Further properties of the code *)

(** ** The safe-name transform *)

Lemma rstrip_prefix (chars s : pystr) : rstrip chars s `prefix_of` s.
Proof.
  unfold rstrip. apply prefix_suffix_reverse.
  rewrite reverse_involutive. apply lstrip_suffix.
Qed.

Lemma prefix_head (l1 l2 : pystr) (c : N) :
  l1 `prefix_of` l2 -> head l1 = Some c -> head l2 = Some c.
Proof. intros [k ->]. by destruct l1. Qed.

Lemma lstrip_head_clean (chars s : pystr) (c : N) :
  head (lstrip chars s) = Some c -> char_in chars c = false.
Proof.
  destruct (lstrip chars s) as [|a r] eqn:E; [done|].
  intros [= <-]. eapply lstrip_head, E.
Qed.

Lemma strip_head_clean (chars s : pystr) (c : N) :
  head (strip chars s) = Some c -> char_in chars c = false.
Proof.
  unfold strip. intros H.
  eapply lstrip_head_clean, prefix_head; [apply rstrip_prefix | exact H].
Qed.

(** For every name: no character of [invalid_chars] in the result, at most
    100 characters, and never the empty string. *)
Theorem safe_filename_always_safe (name : pystr) :
  (forall c, c ∈ invalid_chars -> c ∉ _safe_filename name) /\
  (length (_safe_filename name) <= 100)%nat /\
  _safe_filename name <> [].
Proof.
  split; [|split].
  - intros c. apply safe_filename_no_invalid_char.
  - apply safe_filename_length.
  - apply safe_filename_nonempty.
Qed.

(** For every name, the result does not begin with a dot or a space: the
    cut to 100 characters keeps the front of the stripped name. *)
Theorem safe_filename_never_starts_with_dot_or_space (name : pystr) (c : N) :
  head (_safe_filename name) = Some c -> char_in (py ". ") c = false.
Proof.
  unfold _safe_filename.
  destruct (is_empty name); [by intros [= <-]|].
  set (s := strip (py ". ") _).
  assert (Hs : forall c, head s = Some c -> char_in (py ". ") c = false)
    by (intros c'; apply strip_head_clean).
  assert (Ht : head (take 100 s) = Some c -> char_in (py ". ") c = false).
  { intros H. apply Hs. by destruct s. }
  destruct (100 <? length s)%nat.
  - destruct (is_empty (take 100 s)); [by intros [= <-] | exact Ht].
  - destruct (is_empty s); [by intros [= <-] | apply Hs].
Qed.

Lemma safe_filename_never_starts_with_dot_or_space_witness :
  head (_safe_filename (py " .Dune")) = Some 68 /\ char_in (py ". ") 68 = false.
Proof.
  split; [reflexivity|].
  apply (safe_filename_never_starts_with_dot_or_space (py " .Dune") 68).
  reflexivity.
Defined.

Lemma replace_absent (c u : N) (s : pystr) : c ∉ s -> replace c u s = s.
Proof.
  induction s as [|a s IH]; [done|]. intros H.
  apply not_elem_of_cons in H as [Hne Hs]. cbn.
  destruct (N.eqb_spec a c); [congruence|]. f_equal. by apply IH.
Qed.

Lemma replace_all_absent (u : N) (cs s : pystr) :
  (forall c, c ∈ cs -> c ∉ s) ->
  fold_left (fun name char => replace char u name) cs s = s.
Proof.
  induction cs as [|c cs IH]; [done|]. intros H. cbn.
  rewrite replace_absent by (apply H; left).
  apply IH. intros c' Hc'. apply H. by right.
Qed.

Lemma lstrip_clean_head (chars s : pystr) :
  (forall c, head s = Some c -> char_in chars c = false) ->
  lstrip chars s = s.
Proof. destruct s as [|a r]; [done|]. intros H. cbn. by rewrite (H a). Qed.

Lemma rstrip_clean_last (chars s : pystr) :
  (forall c, last s = Some c -> char_in chars c = false) ->
  rstrip chars s = s.
Proof.
  intros H. unfold rstrip. rewrite lstrip_clean_head.
  - apply reverse_involutive.
  - intros c Hc. apply H. rewrite <- (reverse_involutive s).
    by rewrite last_reverse.
Qed.

(** A name that is already safe is returned as it is: non-empty, without
    invalid characters, neither beginning nor ending with a dot or a
    space, and of at most 100 characters. *)
Theorem safe_filename_keeps_safe_name (name : pystr) :
  name <> [] ->
  (forall c, c ∈ invalid_chars -> c ∉ name) ->
  (forall c, head name = Some c -> char_in (py ". ") c = false) ->
  (forall c, last name = Some c -> char_in (py ". ") c = false) ->
  (length name <= 100)%nat ->
  _safe_filename name = name.
Proof.
  intros Hne Hinv Hhead Hlast Hlen. unfold _safe_filename.
  destruct name as [|a r] eqn:E; [done|]. rewrite <- E in *.
  assert (He : is_empty name = false) by (by rewrite E).
  rewrite He, replace_all_absent by done.
  unfold strip. rewrite lstrip_clean_head, rstrip_clean_last by done.
  destruct (Nat.ltb_spec 100 (length name)); [lia|]. by rewrite He.
Qed.

Lemma safe_filename_keeps_safe_name_witness :
  _safe_filename (py "Frank Herbert") = py "Frank Herbert".
Proof.
  apply safe_filename_keeps_safe_name.
  - discriminate.
  - intros c Hc Hin. vm_compute in Hc, Hin.
    repeat (apply elem_of_cons in Hc as [-> | Hc];
            [repeat (apply elem_of_cons in Hin as [Hin | Hin];
                     [discriminate Hin|]);
             by apply elem_of_nil in Hin|]).
    by apply elem_of_nil in Hc.
  - intros c [= <-]. reflexivity.
  - intros c Hc. vm_compute in Hc. injection Hc as <-. reflexivity.
  - vm_compute. lia.
Defined.

(** ** Filename templates without placeholders *)

Lemma fmt_scan_literal (kwargs : gmap pystr pystr) (t : pystr) :
  lbrace ∉ t -> rbrace ∉ t -> fmt_scan kwargs t None = FmtOk t.
Proof.
  induction t as [|c r IH]; [done|]. intros Hl Hr.
  apply not_elem_of_cons in Hl as [Hl1 Hl2].
  apply not_elem_of_cons in Hr as [Hr1 Hr2].
  cbn [fmt_scan].
  destruct (N.eqb_spec c lbrace); [congruence|].
  destruct (N.eqb_spec c rbrace); [congruence|].
  by rewrite IH.
Qed.

(** A template without braces is copied as it is: every book gets the
    name [template.ext], whatever its author and title. *)
Theorem build_filename_literal_template
    (mi : Metadata) (fmt template : pystr) :
  lbrace ∉ template -> rbrace ∉ template ->
  _build_filename mi fmt template = Fname (template ++ [46] ++ lower fmt).
Proof.
  intros Hl Hr. unfold _build_filename, str_format.
  by rewrite fmt_scan_literal.
Qed.

Lemma build_filename_literal_template_witness :
  _build_filename long_metadata (py "EPUB") (py "book") = Fname (py "book.epub").
Proof.
  apply (build_filename_literal_template long_metadata (py "EPUB") (py "book")).
  - intros H. vm_compute in H.
    repeat (apply elem_of_cons in H as [H | H]; [discriminate H|]).
    by apply elem_of_nil in H.
  - intros H. vm_compute in H.
    repeat (apply elem_of_cons in H as [H | H]; [discriminate H|]).
    by apply elem_of_nil in H.
Defined.

(** ** Task builder: what is selected and what is built *)

Lemma first_preferred_in (preferred formats : list pystr) (x : pystr) :
  first_preferred preferred formats = Some x -> x ∈ formats.
Proof.
  intros H. by destruct (first_preferred_Some _ _ _ H)
    as (pre & p & post & _ & _ & Hp & ->).
Qed.

(** The format chosen for a book is always one the book has; nothing is
    chosen only when the book has no format, or when a format was
    requested that the book lacks. Without a request, a book with a format
    is never left out. *)
Theorem select_format_sound
    (formats preferred : list pystr) (requested : option pystr) :
  match select_format formats requested preferred with
  | Some fmt => fmt ∈ formats
  | None =>
    formats = [] \/
    (str_truthy requested = true /\ upper (default [] requested) ∉ formats)
  end.
Proof.
  unfold select_format. destruct (str_truthy requested) eqn:Hr.
  - case_bool_decide; [done|]. by right.
  - destruct (first_preferred preferred formats) as [x|] eqn:E.
    + by eapply first_preferred_in.
    + destruct formats as [|f fs]; [by left | apply list_elem_of_here].
Qed.

Lemma prepare_core_fields (mi : Metadata) (ext : pystr) (file_size : Z)
    (rnd : N) :
  let m := prepare_metadata_for_device mi ext file_size None rnd in
  size m = Has file_size /\ extension m = Has (lower ext) /\ md5 m = md5 mi.
Proof.
  destruct mi as [t a s si tg cm lm lp u e sz h fm cd th dc].
  unfold prepare_metadata_for_device, deepcopy_metadata.
  destruct fm, cd, th; cbn -[str_uuid4 lower];
    destruct (str_truthy (getattr u None)); by cbn -[str_uuid4 lower].
Qed.

Lemma build_loop_invariant (lib : Library) (preferred : list pystr)
    (template : pystr) (verify : bool) (urandom : nat -> N)
    (requested : option pystr) (book_ids : list Z) :
  forall (i : nat) (tasks : list Task) (failed : list pystr)
         (tasks' : list Task) (failed' : list pystr),
    build_loop lib preferred template verify urandom requested book_ids i
               tasks failed = Built tasks' failed' ->
    exists (new_tasks : list Task) (new_failed : list pystr),
      tasks' = tasks ++ new_tasks /\ failed' = failed ++ new_failed /\
      (length new_tasks + length new_failed = length book_ids)%nat /\
      Forall (task_built_from lib) new_tasks /\
      map task_book_id new_tasks `sublist_of` book_ids.
Proof.
  induction book_ids as [|book_id rest IH];
    intros i tasks failed tasks' failed'; cbn [build_loop].
  - intros [= <- <-]. exists [], []. by rewrite !app_nil_r.
  - assert (Hskip : forall reason,
      build_loop lib preferred template verify urandom requested rest (S i)
                 tasks (failed ++ [reason]) = Built tasks' failed' ->
      exists new_tasks new_failed,
        tasks' = tasks ++ new_tasks /\ failed' = failed ++ new_failed /\
        (length new_tasks + length new_failed = length (book_id :: rest))%nat /\
        Forall (task_built_from lib) new_tasks /\
        map task_book_id new_tasks `sublist_of` book_id :: rest).
    { intros reason H.
      destruct (IH _ _ _ _ _ H) as (nt & nf & -> & -> & Hlen & Hok & Hsub).
      exists nt, (reason :: nf). rewrite <- app_assoc.
      repeat split; [cbn; lia | done | by apply sublist_cons]. }
    destruct (db_formats lib book_id) as [|f fs] eqn:Hf; [apply Hskip|].
    pose proof (select_format_sound (f :: fs) preferred requested) as Hsel.
    destruct (select_format (f :: fs) requested preferred) as [fmt|];
      [|apply Hskip].
    destruct (db_format_abspath lib book_id fmt) as [[|c p]|] eqn:Hp;
      cbn [str_truthy default from_option id andb]; try apply Hskip.
    destruct (os_path_exists lib (c :: p)) eqn:He; [|apply Hskip].
    destruct (_build_filename _ fmt template) as [name| |]; [|done|done].
    intros H.
    destruct (IH _ _ _ _ _ H) as (nt & nf & -> & -> & Hlen & Hok & Hsub).
    eexists (_ :: nt), nf. rewrite <- app_assoc.
    repeat split; [cbn; lia | | by apply sublist_skip].
    constructor; [|done].
    unfold task_built_from. cbn [task_format task_book_id task_path task_size
                                 task_metadata task_title].
    rewrite Hf. repeat split; try done.
    + apply prepare_core_fields.
    + apply prepare_core_fields.
    + apply prepare_core_fields.
Qed.

(** Every requested book is accounted for: it yields either one task or
    one skip reason, and the tasks come in the order of the request. *)
Theorem build_tasks_accounts_for_every_book
    (lib : Library) (prefs : JSONConfig) (urandom : nat -> N)
    (book_ids : list Z) (requested : option pystr)
    (tasks : list Task) (failed : list pystr) :
  _build_tasks lib prefs urandom book_ids requested = Built tasks failed ->
  (length tasks + length failed = length book_ids)%nat /\
  map task_book_id tasks `sublist_of` book_ids.
Proof.
  unfold _build_tasks. intros H.
  apply build_loop_invariant in H
    as (nt & nf & -> & -> & Hlen & _ & Hsub). by cbn.
Qed.

Example build_tasks_sample_with_skip :
  _build_tasks sample_library (prefs nothing_saved) zero_entropy [1%Z; 2%Z] None
  = Built [sample_task] [sample_skip].
Proof. vm_compute. reflexivity. Qed.

Lemma build_tasks_accounts_for_every_book_witness :
  (length [sample_task] + length [sample_skip] = length [1%Z; 2%Z])%nat /\
  map task_book_id [sample_task] `sublist_of` [1%Z; 2%Z].
Proof.
  exact (build_tasks_accounts_for_every_book sample_library
           (prefs nothing_saved) zero_entropy [1%Z; 2%Z] None
           [sample_task] [sample_skip] build_tasks_sample_with_skip).
Defined.

(** Every task that is built matches the library at build time: its
    format is one the book has, its path is the one the database gives
    for that format and exists, its size is the size of that file and is
    the size in its metadata, the extension in its metadata is the
    lower-cased format, its title is the book's, and its metadata has the
    hash of the source record: no hash is computed while tasks are
    built. *)
Theorem build_tasks_tasks_match_library
    (lib : Library) (prefs : JSONConfig) (urandom : nat -> N)
    (book_ids : list Z) (requested : option pystr)
    (tasks : list Task) (failed : list pystr) (t : Task) :
  _build_tasks lib prefs urandom book_ids requested = Built tasks failed ->
  t ∈ tasks -> task_built_from lib t /\ task_book_id t ∈ book_ids.
Proof.
  unfold _build_tasks. intros H Hin.
  apply build_loop_invariant in H
    as (nt & nf & -> & -> & _ & Hok & Hsub). cbn [app] in Hin.
  split.
  - rewrite Forall_forall in Hok. by apply Hok.
  - eapply sublist_subseteq; [exact Hsub|].
    apply list_elem_of_fmap. by exists t.
Qed.

Lemma build_tasks_tasks_match_library_witness :
  task_built_from sample_library sample_task /\
  task_book_id sample_task ∈ [1%Z; 2%Z].
Proof.
  exact (build_tasks_tasks_match_library sample_library
           (prefs nothing_saved) zero_entropy [1%Z; 2%Z] None
           [sample_task] [sample_skip] sample_task
           build_tasks_sample_with_skip (list_elem_of_here _ _)).
Defined.

(** Every task carries the switch that [prefs.get] returns: the saved
    value when there is one, the registered default otherwise. *)
Theorem build_tasks_flag_follows_prefs
    (lib : Library) (saved : PrefValues) (urandom : nat -> N)
    (book_ids : list Z) (requested : option pystr)
    (tasks : list Task) (failed : list pystr) (t : Task) :
  _build_tasks lib (prefs saved) urandom book_ids requested
    = Built tasks failed ->
  t ∈ tasks ->
  task_verify_md5 t = default false (verify_md5 saved).
Proof.
  unfold _build_tasks. intros H Hin.
  apply build_loop_verify_flag in H; [|by constructor].
  rewrite Forall_forall in H. rewrite (H t Hin).
  unfold prefs_get. cbn. by destruct (verify_md5 saved).
Qed.

Example build_tasks_sample_verify_on :
  _build_tasks sample_library (prefs verify_saved_on) zero_entropy [1%Z] None
  = Built [verified_task] [].
Proof. vm_compute. reflexivity. Qed.

Lemma build_tasks_flag_follows_prefs_witness :
  _build_tasks sample_library (prefs verify_saved_on) zero_entropy [1%Z] None
    = Built [verified_task] [] /\
  task_verify_md5 verified_task = true.
Proof.
  split; [exact build_tasks_sample_verify_on|].
  exact (build_tasks_flag_follows_prefs sample_library verify_saved_on
           zero_entropy [1%Z] None [verified_task] [] verified_task
           build_tasks_sample_verify_on (list_elem_of_here _ _)).
Defined.

(** ** Metadata sanitizer: idempotence and what it leaves alone *)

(** The sanitized record, field by field. *)
Lemma prepare_normal_form (mi : Metadata) (ext : pystr) (file_size : Z)
    (file_md5 : option pystr) (rnd : N) :
  prepare_metadata_for_device mi ext file_size file_md5 rnd
  = {| title := title mi; authors := authors mi; series := series mi;
       series_index := series_index mi; tags := tags mi;
       comments := comments mi; last_modified := last_modified mi;
       lpath := lpath mi;
       uuid := Has (Some (if str_truthy (getattr (uuid mi) None)
                          then default [] (getattr (uuid mi) None)
                          else str_uuid4 rnd));
       extension := Has (lower ext);
       size := Has file_size;
       md5 := if str_truthy file_md5 then Has (default [] file_md5)
              else md5 mi;
       format_metadata :=
         if hasattr (format_metadata mi) then Has ∅ else Missing;
       cover_data := if hasattr (cover_data mi) then Has None else Missing;
       thumbnail := if hasattr (thumbnail mi) then Has None else Missing;
       device_collections :=
         Has (Some (default [] (getattr (device_collections mi) (Some []))))
    |}.
Proof.
  destruct mi as [t a s si tg cm lm lp u e sz h fm cd th dc].
  unfold prepare_metadata_for_device, deepcopy_metadata.
  destruct file_md5 as [[|c0 h0]|], fm as [|fm], cd as [|cd], th as [|th],
    u as [|[[|c1 u1]|]]; reflexivity.
Qed.

(** Sanitizing a sanitized record changes nothing, whatever the second
    random draw is: the identifier generated the first time is kept. *)
Theorem prepare_metadata_for_device_idempotent
    (mi : Metadata) (ext : pystr) (file_size : Z)
    (file_md5 : option pystr) (rnd rnd' : N) :
  prepare_metadata_for_device
    (prepare_metadata_for_device mi ext file_size file_md5 rnd)
    ext file_size file_md5 rnd'
  = prepare_metadata_for_device mi ext file_size file_md5 rnd.
Proof.
  rewrite (prepare_normal_form (prepare_metadata_for_device _ _ _ _ _)).
  rewrite !prepare_normal_form.
  cbn [title authors series series_index tags comments last_modified lpath
       uuid extension size md5 format_metadata cover_data thumbnail
       device_collections getattr hasattr default from_option id].
  f_equal.
  - f_equal. f_equal.
    destruct (str_truthy (getattr (uuid mi) None)) eqn:Hu.
    + destruct (getattr (uuid mi) None) as [[|c u]|]; done.
    + pose proof (str_uuid4_nonempty rnd) as Hne.
      by destruct (str_uuid4 rnd).
  - by destruct (str_truthy file_md5).
  - by destruct (hasattr (format_metadata mi)).
  - by destruct (hasattr (cover_data mi)).
  - by destruct (hasattr (thumbnail mi)).
Qed.

(** The descriptive fields are never touched, and the collections are
    always a list afterwards: the record's own list when it has one, the
    empty list otherwise. *)
Theorem prepare_metadata_for_device_frame
    (mi : Metadata) (ext : pystr) (file_size : Z)
    (file_md5 : option pystr) (rnd : N) :
  let m := prepare_metadata_for_device mi ext file_size file_md5 rnd in
  title m = title mi /\ authors m = authors mi /\ series m = series mi /\
  series_index m = series_index mi /\ tags m = tags mi /\
  comments m = comments mi /\ last_modified m = last_modified mi /\
  lpath m = lpath mi /\
  device_collections m =
    Has (Some match device_collections mi with
              | Has (Some l) => l
              | _ => []
              end).
Proof.
  cbn zeta. rewrite prepare_normal_form.
  cbn [title authors series series_index tags comments last_modified lpath
       device_collections].
  repeat split. by destruct (device_collections mi) as [|[l|]].
Qed.

(** ** Transport: the shape of every result *)

Lemma send_single_book_cases
    (device : Device) (task : Task) (w : World) :
  let r := send_single_book device task w in
  device_calls (snd r) = device_calls w ++ [upload_call task] /\
  notifications (snd r) = notifications w /\
  match fst r with
  | (true, err, loc) =>
    err = None /\ location_truthy loc = true /\
    error_reports (snd r) = error_reports w
  | (false, err, loc) =>
    loc = None /\
    match device (device_calls w) (upload_call task) with
    | UploadRaises e trace =>
      err = Some (exc_str e) /\
      error_reports (snd r)
        = error_reports w ++ [error_report (task_title task) e trace]
    | Returns _ =>
      err = Some unconfirmed /\ error_reports (snd r) = error_reports w
    end
  end.
Proof.
  unfold send_single_book.
  destruct (device _ _) as [[[|first more]|]|e trace]; cbn; try done.
  by destruct first.
Qed.

(** Whatever the driver does, one send makes exactly one upload call and
    returns one of two shapes: success with a usable location and no
    reason, or failure with a reason and no location. An error report is
    written exactly when the driver raised, and it is appended to the
    reports that were there. *)
Theorem send_single_book_result_shape
    (device : Device) (task : Task) (w : World) :
  let r := send_single_book device task w in
  device_calls (snd r) = device_calls w ++ [upload_call task] /\
  notifications (snd r) = notifications w /\
  match fst r with
  | (true, err, loc) =>
    err = None /\ location_truthy loc = true /\
    error_reports (snd r) = error_reports w
  | (false, err, loc) =>
    loc = None /\
    match device (device_calls w) (upload_call task) with
    | UploadRaises e trace =>
      err = Some (exc_str e) /\
      error_reports (snd r)
        = error_reports w ++ [error_report (task_title task) e trace]
    | Returns _ =>
      err = Some unconfirmed /\ error_reports (snd r) = error_reports w
    end
  end.
Proof. apply send_single_book_cases. Qed.

(** ** Worker: what every batch keeps *)

Lemma classify_sent (device : Device) (task : Task) (out : Outcomes)
    (w : World) :
  let r := send_single_book device task w in
  let out' := classify task (fst r) out in
  exists (s : list (option pystr)) (f : list (option pystr * option pystr))
         (locs : list UploadEntry) (metas : list Metadata)
         (reps : list Report),
    success_titles out' = success_titles out ++ s /\
    failed_list out' = failed_list out ++ f /\
    upload_locations out' = upload_locations out ++ locs /\
    upload_metadata out' = upload_metadata out ++ metas /\
    error_reports (snd r) = error_reports w ++ reps /\
    ((s = [task_title task] /\ f = [] /\ length locs = 1%nat /\
      length metas = 1%nat /\ Forall (fun e => entry_truthy e = true) locs /\
      reps = [])
     \/ (s = [] /\ locs = [] /\ metas = [] /\
         (exists m, f = [(task_title task, Some m)]) /\
         (reps = [] \/ exists r', reps = [r'] /\
                                  report_title r' = task_title task))).
Proof.
  intros r out'. subst r out'.
  pose proof (send_single_book_cases device task w) as H. cbn zeta in H.
  destruct H as (_ & _ & H).
  destruct (send_single_book device task w) as [[[ok err] loc] w1].
  cbn [fst snd] in *. destruct ok.
  - destruct H as (-> & Hloc & ->). unfold classify. rewrite Hloc.
    cbn [success_titles failed_list upload_locations upload_metadata].
    exists [task_title task], [], [default EntryNone loc],
           [task_metadata task], [].
    rewrite !app_nil_r. split_and!; try done. left. split_and!; try done.
    destruct loc as [e|]; [|done]. cbn in *. by repeat constructor.
  - destruct H as (-> & H). unfold classify.
    cbn [success_titles failed_list upload_locations upload_metadata].
    destruct (device _ _) as [paths|e trace]; destruct H as (-> & ->).
    + exists [], [(task_title task, Some unconfirmed)], [], [], [].
      rewrite !app_nil_r. split_and!; try done.
      right. split_and!; eauto.
    + exists [], [(task_title task, Some (exc_str e))], [], [],
             [error_report (task_title task) e trace].
      rewrite !app_nil_r. split_and!; try done.
      right. split_and!; eauto. right. eexists. split; [done|].
      unfold report_title, error_report. by destruct (_ || _).
Qed.

Lemma worker_loop_outcomes (device : Device) (files : FileStore)
    (abort : nat -> bool) (total : nat) (tasks : list Task) :
  forall (i : nat) (out : Outcomes) (w : World),
    let r := worker_loop device files abort total tasks i out w in
    exists (s : list (option pystr)) (f : list (option pystr * option pystr))
           (locs : list UploadEntry) (metas : list Metadata)
           (reps : list Report),
      success_titles (fst r) = success_titles out ++ s /\
      failed_list (fst r) = failed_list out ++ f /\
      upload_locations (fst r) = upload_locations out ++ locs /\
      upload_metadata (fst r) = upload_metadata out ++ metas /\
      error_reports (snd r) = error_reports w ++ reps /\
      s `sublist_of` map task_title tasks /\
      map fst f `sublist_of` map task_title tasks /\
      length locs = length s /\ length metas = length s /\
      Forall (fun e => entry_truthy e = true) locs /\
      map report_title reps `sublist_of` map fst f /\
      Forall (fun x => exists m, snd x = Some m) f.
Proof.
  induction tasks as [|task rest IH]; intros i out w.
  - cbn. exists [], [], [], [], []. rewrite !app_nil_r.
    repeat split; by constructor.
  - cbn zeta. destruct (abort i) eqn:Ha.
    + rewrite worker_loop_aborted by done. cbn [fst snd].
      exists [], [], [], [], []. rewrite !app_nil_r.
      repeat split; try by constructor. apply sublist_nil_l.
      apply sublist_nil_l.
    + rewrite worker_loop_cons by done. cbn zeta.
      set (w0 := before_send files total i task w).
      destruct (classify_sent device (sent_task files task) out w0)
        as (s1 & f1 & l1 & m1 & r1 & Hs & Hf & Hl & Hm & Hr & Hcase).
      destruct (IH (S i)
        (classify (sent_task files task)
           (fst (send_single_book device (sent_task files task) w0)) out)
        (snd (send_single_book device (sent_task files task) w0)))
        as (s2 & f2 & l2 & m2 & r2 & Hs2 & Hf2 & Hl2 & Hm2 & Hr2 & Hsub
            & Hfsub & Hll & Hml & Htr & Hrsub & Hreason).
      exists (s1 ++ s2), (f1 ++ f2), (l1 ++ l2), (m1 ++ m2), (r1 ++ r2).
      rewrite Hs2, Hf2, Hl2, Hm2, Hr2, Hs, Hf, Hl, Hm, Hr.
      destruct (before_send_world files total i task w) as [_ Hbw].
      fold w0 in Hbw. rewrite Hbw.
      rewrite <- !app_assoc. rewrite sent_task_title in Hcase.
      repeat split.
      * destruct Hcase as [(-> & _) | (-> & _)]; cbn;
          [by apply sublist_skip | by apply sublist_cons].
      * destruct Hcase as [(_ & -> & _) | (_ & _ & _ & [m ->] & _)]; cbn;
          [by apply sublist_cons | by apply sublist_skip].
      * destruct Hcase as [(-> & _ & Hl1 & _) | (-> & -> & _)];
          rewrite !length_app; cbn; lia.
      * destruct Hcase as [(-> & _ & _ & Hm1 & _) | (-> & _ & -> & _)];
          rewrite !length_app; cbn; lia.
      * apply Forall_app. split; [|done].
        destruct Hcase as [(_ & _ & _ & _ & Ht & _) | (_ & -> & _)];
          [done | constructor].
      * destruct Hcase as [(_ & -> & _ & _ & _ & ->)
                          | (_ & _ & _ & [m ->] & [-> | (r' & -> & Ht)])];
          cbn; [done | by apply sublist_cons |].
        rewrite Ht. by apply sublist_skip.
      * apply Forall_app. split; [|done].
        destruct Hcase as [(_ & -> & _) | (_ & _ & _ & [m ->] & _)];
          repeat constructor. by exists m.
Qed.


(** The titles listed as sent, and the titles listed as failed, appear in
    the order of the tasks, and every failure carries a reason. *)
Theorem worker_reports_in_task_order
    (tasks : list Task) (device : Device) (abort : nat -> bool)
    (files : FileStore) :
  match fst (send_raw_books_worker tasks (Some device) abort files) with
  | WorkerReturns r =>
    r_success_titles r `sublist_of` map task_title tasks /\
    map fst (r_failed_list r) `sublist_of` map task_title tasks /\
    Forall (fun x => exists reason, snd x = Some reason) (r_failed_list r)
  | WorkerRaises _ => False
  end.
Proof.
  unfold send_raw_books_worker.
  pose proof (worker_loop_outcomes device files abort (length tasks) tasks 0
                no_outcomes empty_world) as H. cbn zeta in H.
  destruct (worker_loop device files abort (length tasks) tasks 0 no_outcomes
                        empty_world) as [out w].
  cbn [fst snd] in *.
  destruct H as (s & f & l & m & r & Hs & Hf & _ & _ & _ & Hsub & Hfsub & _ & _
                 & _ & _ & Hreason).
  cbn [result_of r_failed_list r_success_titles].
  rewrite Hs, Hf. cbn. done.
Qed.

(** Every error report belongs to a failed task: the titles of the
    reports appear, in order, among the titles of the failures. A batch
    without failures has no error report. *)
Theorem worker_error_reports_belong_to_failures
    (tasks : list Task) (device : Device) (abort : nat -> bool)
    (files : FileStore) :
  match fst (send_raw_books_worker tasks (Some device) abort files) with
  | WorkerReturns r =>
    map report_title (r_error_reports r) `sublist_of` map fst (r_failed_list r)
    /\ match r_failed_list r with
       | [] => r_error_reports r = []
       | _ :: _ => True
       end
  | WorkerRaises _ => False
  end.
Proof.
  unfold send_raw_books_worker.
  pose proof (worker_loop_outcomes device files abort (length tasks) tasks 0
                no_outcomes empty_world) as H. cbn zeta in H.
  destruct (worker_loop device files abort (length tasks) tasks 0 no_outcomes
                        empty_world) as [out w].
  cbn [fst snd] in *.
  destruct H as (s & f & l & m & r & _ & Hf & _ & _ & Hr & _ & _ & _ & _
                 & _ & Hrsub & _).
  cbn [result_of r_failed_list r_error_reports notifications_put
       error_reports].
  rewrite Hf, Hr. cbn. split; [done|].
  destruct f; [|done]. cbn in Hrsub. apply sublist_nil_r in Hrsub.
  by destruct r.
Qed.

(** ** Worker: progress *)

Lemma StronglySorted_snoc {A : Type} (R : A -> A -> Prop) (l : list A) (a : A) :
  StronglySorted R l -> Forall (fun x => R x a) l ->
  StronglySorted R (l ++ [a]).
Proof.
  induction 1 as [|x l Hl IH Hx]; intros Ha; cbn.
  - repeat constructor.
  - apply Forall_cons in Ha as [Hxa Hla]. constructor; [by apply IH|].
    apply Forall_app. split; [done | by repeat constructor].
Qed.

Lemma progress_nonneg (i total : nat) : (0 <= progress i total)%Q.
Proof. unfold progress, Qle. cbn. lia. Qed.

Lemma progress_step (i total : nat) :
  (progress i total <= progress (S i) total)%Q.
Proof. unfold progress, Qle. cbn [Qnum Qden]. nia. Qed.

Lemma progress_le_1 (i total : nat) :
  (i <= total)%nat -> (progress i total <= 1)%Q.
Proof.
  intros Hi. unfold progress, Qle. cbn [Qnum Qden].
  destruct total as [|n].
  - replace i with 0%nat by lia. cbn. lia.
  - rewrite <- Pos.of_nat_succ, Zpos_P_of_succ_nat. lia.
Qed.

Lemma before_send_fractions (files : FileStore) (total i : nat) (task : Task)
    (w : World) :
  fractions (before_send files total i task w) = fractions w ++ [progress i total]
  \/ fractions (before_send files total i task w)
     = (fractions w ++ [progress i total]) ++ [progress i total].
Proof.
  unfold before_send, md5_step, fractions.
  destruct (task_verify_md5 task); [|left].
  - right. destruct (files _); cbn [snd notifications_put notifications log];
      by rewrite !map_app.
  - cbn [snd notifications_put notifications log]. by rewrite map_app.
Qed.

Lemma worker_loop_fractions (device : Device) (files : FileStore)
    (abort : nat -> bool) (total : nat) (tasks : list Task) :
  forall (i : nat) (out : Outcomes) (w : World),
    (i + length tasks <= total)%nat ->
    StronglySorted Qle (fractions w) ->
    Forall (fun q => (0 <= q)%Q /\ (q <= progress i total)%Q) (fractions w) ->
    let w' := snd (worker_loop device files abort total tasks i out w) in
    StronglySorted Qle (fractions w') /\
    Forall (fun q => (0 <= q)%Q /\ (q <= 1)%Q) (fractions w').
Proof.
  induction tasks as [|task rest IH]; intros i out w Hi Hsorted Hbound.
  - cbn. split; [done|]. eapply Forall_impl; [exact Hbound|].
    intros q [H0 Hq]. split; [done|].
    eapply Qle_trans; [exact Hq | apply progress_le_1; cbn in Hi; lia].
  - cbn zeta. destruct (abort i) eqn:Ha.
    + rewrite worker_loop_aborted by done. cbn [snd]. split; [done|].
      eapply Forall_impl; [exact Hbound|].
      intros q [H0 Hq]. split; [done|].
      eapply Qle_trans; [exact Hq | apply progress_le_1; cbn in Hi; lia].
    + rewrite worker_loop_cons by done. cbn zeta.
      set (w0 := before_send files total i task w).
      assert (Hw0 : StronglySorted Qle (fractions w0) /\
                    Forall (fun q => (0 <= q)%Q /\ (q <= progress i total)%Q)
                           (fractions w0)).
      { assert (H1 : StronglySorted Qle (fractions w ++ [progress i total])).
        { apply StronglySorted_snoc; [done|].
          eapply Forall_impl; [exact Hbound|]. by intros q [_ Hq]. }
        assert (H2 : Forall (fun q => (0 <= q)%Q /\ (q <= progress i total)%Q)
                            (fractions w ++ [progress i total])).
        { apply Forall_app. split; [done|]. repeat constructor.
          - apply progress_nonneg.
          - apply Qle_refl. }
        unfold w0.
        destruct (before_send_fractions files total i task w) as [-> | ->];
          [done|]. split.
        - apply StronglySorted_snoc; [done|].
          eapply Forall_impl; [exact H2|]. by intros q [_ Hq].
        - apply Forall_app. split; [done|]. repeat constructor.
          + apply progress_nonneg.
          + apply Qle_refl. }
      destruct Hw0 as [Hs0 Hb0].
      pose proof (send_single_book_cases device (sent_task files task) w0)
        as (_ & Hn & _). cbn zeta in Hn.
      apply IH.
      * cbn in Hi. lia.
      * unfold fractions. by rewrite Hn.
      * unfold fractions. rewrite Hn. eapply Forall_impl; [exact Hb0|].
        intros q [H0 Hq]. split; [done|].
        eapply Qle_trans; [exact Hq | apply progress_step].
Qed.

(** The progress fractions on the queue never decrease and lie between 0
    and 1; a worker that has a device ends the queue with 1, also when it
    was cancelled, and a worker without one puts nothing on it. *)
Theorem worker_progress_never_decreases
    (tasks : list Task) (device : option Device) (abort : nat -> bool)
    (files : FileStore) :
  let w := snd (send_raw_books_worker tasks device abort files) in
  StronglySorted Qle (fractions w) /\
  Forall (fun q => (0 <= q)%Q /\ (q <= 1)%Q) (fractions w) /\
  match device with
  | Some _ => last (fractions w) = Some 1%Q
  | None => fractions w = []
  end.
Proof.
  unfold send_raw_books_worker. destruct device as [device|].
  - pose proof (worker_loop_fractions device files abort (length tasks) tasks
                  0 no_outcomes empty_world) as H.
    cbn zeta in H.
    destruct (worker_loop device files abort (length tasks) tasks 0
                          no_outcomes empty_world) as [out w].
    cbn [fst snd] in *.
    destruct H as [Hs Hb]; [cbn; lia | constructor | constructor |].
    unfold fractions, notifications_put. cbn [notifications].
    rewrite map_app. cbn [map fst finished]. split; [|split].
    + apply StronglySorted_snoc; [done|].
      eapply Forall_impl; [exact Hb|]. by intros q [_ Hq].
    + apply Forall_app. split; [done|]. by repeat constructor.
    + apply last_snoc.
  - cbn. repeat split; constructor.
Qed.

(** ** Worker: what is uploaded *)

(** When nobody cancels, every task is uploaded exactly once, in order, as
    a one-file call that keeps the session open. The metadata passed
    carries the computed hash when the task asks for verification and the
    file can be read; when the hash cannot be computed the upload is made
    all the same, with the metadata as it was. *)
Theorem worker_uploads_each_task_once
    (tasks : list Task) (device : Device) (files : FileStore) :
  device_calls (snd (send_raw_books_worker tasks (Some device) never files))
    = map (fun t => upload_call (sent_task files t)) tasks /\
  forall t : Task,
    let c := upload_call (sent_task files t) in
    up_files c = [task_path t] /\ up_names c = [task_name t] /\
    up_on_card c = None /\ up_end_session c = false /\
    up_metadata c =
      [match task_verify_md5 t, files (task_path t) with
       | true, Digest file_md5 => set_md5 file_md5 (task_metadata t)
       | _, _ => task_metadata t
       end].
Proof.
  split.
  - unfold send_raw_books_worker.
    pose proof (worker_loop_never device files (length tasks) tasks 0
                  no_outcomes empty_world) as H. cbn zeta in H.
    destruct (worker_loop device files never (length tasks) tasks 0
                          no_outcomes empty_world) as [out w].
    cbn [fst snd] in *. destruct H as [_ H].
    unfold notifications_put. cbn [device_calls]. by rewrite H.
  - intros t. unfold sent_task, upload_call.
    destruct (task_verify_md5 t); [|done]. by destruct (files (task_path t)).
Qed.

(** ** Remote reset: the lock and the order of events *)

(** Whatever the device answers, and also when the exchange raises, the
    reset takes the lock first and releases it last, exactly once each;
    the exchange and the byte string lie in between. The payload is
    streamed exactly when the reset returns. The delete that follows in
    [delete_remote_metadata_file] comes after the release, is for the one
    path the reset returned, and is not issued when the reset raised. *)
Theorem purge_holds_lock_throughout
    (device : SmartDevice) (lpath : pystr) (rnd : N) (now : option Z) :
  let wait := getattr (can_send_ok_to_sendbook device) false in
  let exchange :=
    CallClient (py "SEND_BOOK") (send_book_args lpath wait rnd now) false wait in
  let r := _purge_remote_metadata_file device lpath rnd now in
  match fst r with
  | Returned cleaned =>
    snd r = [LockAcquired; exchange; SendByteString payload; LockReleased] /\
    snd (purge_and_delete device lpath rnd now)
      = snd r ++ [DeleteBooks [cleaned] false]
  | Raised e =>
    snd r = [LockAcquired; exchange; LockReleased] /\
    purge_and_delete device lpath rnd now = (Raised e, snd r)
  end.
Proof.
  cbn zeta. unfold purge_and_delete, _purge_remote_metadata_file.
  destruct (_call_client device _ _ false _) as [opcode result|e]; [|done].
  destruct (getattr (can_send_ok_to_sendbook device) false).
  - case_bool_decide; destruct result as [res|]; cbn; try done.
    by destruct (delete_books device _ false).
  - cbn. by destruct (delete_books device _ false).
Qed.

(** A device that does not ask for the acknowledgement is not waited for:
    whatever [_call_client] returns, even the opcode [ERROR], the two
    bytes are streamed and the path is returned unchanged. *)
Theorem purge_without_acknowledgement_ignores_answer
    (device : SmartDevice) (lpath : pystr) (rnd : N) (now : option Z)
    (opcode : option pystr) (result : option (gmap pystr pystr)) :
  getattr (can_send_ok_to_sendbook device) false = false ->
  _call_client device (py "SEND_BOOK") (send_book_args lpath false rnd now)
               false false = Answer opcode result ->
  _purge_remote_metadata_file device lpath rnd now
  = (Returned lpath,
     [LockAcquired;
      CallClient (py "SEND_BOOK") (send_book_args lpath false rnd now)
                 false false;
      SendByteString payload; LockReleased]).
Proof.
  intros Hw Ha. unfold _purge_remote_metadata_file. by rewrite Hw, Ha.
Qed.

Lemma purge_without_acknowledgement_ignores_answer_witness :
  _purge_remote_metadata_file unheard_device catalog 0 None
  = (Returned catalog,
     [LockAcquired;
      CallClient (py "SEND_BOOK") (send_book_args catalog false 0 None)
                 false false;
      SendByteString payload; LockReleased]).
Proof.
  exact (purge_without_acknowledgement_ignores_answer unheard_device catalog
           0 None (Some (py "ERROR"))
           (Some {[ py "message" := py "locked" ]}) eq_refl eq_refl).
Defined.

(** ** Remote reset: the flow around it *)

Lemma locate_among_spec (device : ConnectedDevice) (names : list pystr) :
  let r := locate_among device names in
  match fst r with
  | Some target =>
    exists skipped rest,
      names = skipped ++ target :: rest /\
      snd r = map GetFile (skipped ++ [target]) /\
      get_file device target = None /\
      Forall (fun n => get_file device n <> None) skipped
  | None =>
    snd r = map GetFile names /\
    Forall (fun n => get_file device n <> None) names
  end.
Proof.
  induction names as [|n names IH]; [by repeat constructor|].
  cbn [locate_among]. unfold _remote_file_exists.
  destruct (get_file device n) as [e|] eqn:E.
  - cbn zeta in IH. destruct (locate_among device names) as [found fetches].
    cbn [fst snd] in *.
    destruct found as [target|].
    + destruct IH as (skipped & rest & -> & -> & Ht & Hs).
      exists (n :: skipped), rest. split_and!; [done | done | done |].
      constructor; [by rewrite E | done].
    + destruct IH as [-> Hs]. split; [done|].
      constructor; [by rewrite E | done].
  - cbn. exists [], names. by split_and!.
Qed.

Lemma locate_fetches (device : ConnectedDevice) :
  snd (_locate_remote_metadata_file device) = probe_fetches device.
Proof.
  unfold _locate_remote_metadata_file, candidates, probe_fetches.
  cbn [locate_among].
  destruct (_remote_file_exists device (py ".metadata.calibre")); [done|].
  by destruct (_remote_file_exists device (py "metadata.calibre")).
Qed.

(** The catalog that is looked for is the first of [.metadata.calibre] and
    [metadata.calibre] that the device lets us fetch; a fetch that raises,
    whatever the exception, counts as an absent file; and the second name
    is fetched only when the first fetch raised. *)
Theorem locate_prefers_hidden_catalog (device : ConnectedDevice) :
  let r := _locate_remote_metadata_file device in
  snd r = probe_fetches device /\
  fst r =
    match get_file device (py ".metadata.calibre"),
          get_file device (py "metadata.calibre") with
    | None, _ => Some (py ".metadata.calibre")
    | Some _, None => Some (py "metadata.calibre")
    | Some _, Some _ => None
    end.
Proof.
  cbn zeta. split; [apply locate_fetches|].
  unfold _locate_remote_metadata_file, candidates. cbn [locate_among].
  unfold _remote_file_exists.
  destruct (get_file device (py ".metadata.calibre")); [|done].
  by destruct (get_file device (py "metadata.calibre")).
Qed.

(** What reaches the protocol session in [delete_remote_metadata_file].
    With no usable device, nothing does. With one, the flow first looks
    for the catalog with one or two [get_file] fetches, before the
    operator is asked anything. When no catalog is found, or the operator
    does not consent, these fetches are all: the flow ends with the
    dialog, or with the question, and there is no exchange, no byte string
    and no delete. With consent, the question is followed by exactly the
    events of the reset and the delete, and nothing after them reaches
    the session. *)
Theorem delete_remote_needs_consent
    (dm : option DeviceManager) (confirmed : bool) (rnd : N) (now : option Z) :
  let events := snd (delete_remote_metadata_file dm confirmed rnd now) in
  match _get_smart_device dm with
  | Some device =>
    match fst (_locate_remote_metadata_file device), confirmed with
    | Some target, true =>
      exists tail,
        events = probe_fetches device
                 ++ [delete_question target]
                 ++ map OnSession
                        (snd (purge_and_delete (session device) target rnd now))
                 ++ tail /\
        Forall (fun ev => touches_session ev = false) tail
    | Some target, false =>
      events = probe_fetches device ++ [delete_question target]
    | None, _ =>
      exists dialog,
        events = probe_fetches device ++ [dialog] /\
        is_dialog dialog = true
    end
  | None => Forall (fun ev => touches_session ev = false) events
  end.
Proof.
  cbn zeta. unfold delete_remote_metadata_file.
  destruct (_get_smart_device dm) as [device|]; [|by repeat constructor].
  rewrite <- (locate_fetches device).
  destruct (_locate_remote_metadata_file device) as [[target|] fetches];
    cbn [fst snd] in *.
  - destruct confirmed; cbn [negb]; [|done].
    destruct (purge_and_delete (session device) target rnd now)
      as [[cleaned|e] events]; cbn [snd].
    + eexists. split; [reflexivity | by repeat constructor].
    + exists []. rewrite !app_nil_r. by split.
  - destruct confirmed; by eexists.
Qed.

(** When the reset or the delete raises, the handler calls
    [self._record_error], which the action does not have: the flow ends
    with an [AttributeError] and the error dialog of the handler is never
    shown. *)
Theorem delete_remote_failure_shows_no_dialog
    (dm : option DeviceManager) (device : ConnectedDevice) (target : pystr)
    (rnd : N) (now : option Z) (e : PyExc) (events : list SessionEvent) :
  _get_smart_device dm = Some device ->
  fst (_locate_remote_metadata_file device) = Some target ->
  purge_and_delete (session device) target rnd now = (Raised e, events) ->
  let r := delete_remote_metadata_file dm true rnd now in
  fst r = Raised no_record_error /\
  Forall (fun ev => is_error_dialog ev = false) (snd r).
Proof.
  intros Hd Ht Hp. cbn zeta. unfold delete_remote_metadata_file.
  rewrite Hd.
  assert (Hf : Forall (fun ev => is_error_dialog ev = false)
                      (snd (_locate_remote_metadata_file device))).
  { unfold _locate_remote_metadata_file, candidates. cbn [locate_among].
    destruct (_remote_file_exists device (py ".metadata.calibre"));
      [by repeat constructor|].
    destruct (_remote_file_exists device (py "metadata.calibre"));
      by repeat constructor. }
  destruct (_locate_remote_metadata_file device) as [found fetches].
  cbn [fst snd] in *. subst found. cbn [negb]. rewrite Hp. cbn [fst snd].
  split; [done|]. apply Forall_app. split; [done|].
  constructor; [done|]. apply Forall_fmap. by apply Forall_true.
Qed.

Lemma delete_remote_failure_shows_no_dialog_witness :
  fst (delete_remote_metadata_file locked_manager true 0 None)
    = Raised no_record_error /\
  Forall (fun ev => is_error_dialog ev = false)
         (snd (delete_remote_metadata_file locked_manager true 0 None)).
Proof.
  refine (delete_remote_failure_shows_no_dialog locked_manager locked_reader
            (py "metadata.calibre") 0 None (RuntimeError (py "locked")) _
            eq_refl _ _).
  - vm_compute. reflexivity.
  - vm_compute. reflexivity.
Defined.

(** ** Purge of the local cache *)

#[local] Set Warnings "-clear-no-such-hyp".

Lemma remove_found_spec (host : Host) (paths : list pystr) :
  forall (present : gset pystr) (deleted : list pystr)
         (errors : list (pystr * pystr)),
    let r := remove_found host paths present deleted errors in
    exists (nd : list pystr) (ne : list (pystr * pystr)),
      r.1.1 = deleted ++ nd /\ r.1.2 = errors ++ ne /\
      NoDup nd /\
      r.2 = present ∖ list_to_set nd /\
      (forall p, p ∈ nd ->
         p ∈ paths /\ p ∈ present /\ remove_error host p = None) /\
      (forall p m, (p, m) ∈ ne ->
         p ∈ paths /\ p ∈ r.2 /\
         exists err, remove_error host p = Some err /\ m = exc_str err) /\
      (forall p, p ∈ paths -> p ∈ present -> p ∈ nd \/ p ∈ ne.*1).
Proof.
  induction paths as [|path rest IH]; intros present deleted errors.
  - cbn. exists [], []. rewrite !app_nil_r.
    split_and!; try done; try (by apply NoDup_nil); set_solver.
  - cbn zeta. cbn [remove_found]. case_bool_decide as Hin.
    + destruct (remove_error host path) as [err|] eqn:Herr.
      * destruct (IH present deleted (errors ++ [(path, exc_str err)]))
          as (nd & ne & Ed & Ee & Hnd & Hpr & Hdel & Herrs & Hcov).
        cbn zeta in *.
        exists nd, ((path, exc_str err) :: ne).
        rewrite Ed, Ee, <- app_assoc. split_and!; try done.
        -- intros p Hp. destruct (Hdel p Hp) as (? & ? & ?).
           split_and!; [set_solver | done | done].
        -- intros p m Hpm. apply elem_of_cons in Hpm as [[= -> ->] | Hpm].
           ++ split_and!; [set_solver | | by exists err].
              rewrite Hpr. apply elem_of_difference. split; [done|].
              intros Hd. apply elem_of_list_to_set in Hd.
              destruct (Hdel path Hd) as (_ & _ & Hnone). congruence.
           ++ destruct (Herrs p m Hpm) as (? & ? & ?).
              split_and!; [set_solver | done | done].
        -- intros p Hp Hpres. apply elem_of_cons in Hp as [-> | Hp].
           ++ right. cbn. set_solver.
           ++ destruct (Hcov p Hp Hpres); [by left | right; cbn; set_solver].
      * destruct (IH (present ∖ {[ path ]}) (deleted ++ [path]) errors)
          as (nd & ne & Ed & Ee & Hnd & Hpr & Hdel & Herrs & Hcov).
        cbn zeta in *.
        exists (path :: nd), ne.
        rewrite Ed, Ee, <- app_assoc. split_and!; try done.
        -- constructor; [|done]. intros Hd.
           destruct (Hdel path Hd) as (_ & Hp & _). set_solver.
        -- rewrite Hpr. set_solver.
        -- intros p Hp. apply elem_of_cons in Hp as [-> | Hp].
           ++ split_and!; [set_solver | done | done].
           ++ destruct (Hdel p Hp) as (? & ? & ?).
              split_and!; [set_solver | set_solver | done].
        -- intros p m Hpm. destruct (Herrs p m Hpm) as (? & ? & ?).
           split_and!; [set_solver | done | done].
        -- intros p Hp Hpres. apply elem_of_cons in Hp as [-> | Hp].
           ++ left. set_solver.
           ++ destruct (decide (p = path)) as [-> | Hne]; [left; set_solver|].
              destruct (Hcov p Hp); [set_solver | by left; set_solver | by right].
    + destruct (IH present deleted errors)
        as (nd & ne & Ed & Ee & Hnd & Hpr & Hdel & Herrs & Hcov).
      cbn zeta in *. exists nd, ne. split_and!; try done.
      * intros p Hp. destruct (Hdel p Hp) as (? & ? & ?).
        split_and!; [set_solver | done | done].
      * intros p m Hpm. destruct (Herrs p m Hpm) as (? & ? & ?).
        split_and!; [set_solver | done | done].
      * intros p Hp Hpres. apply elem_of_cons in Hp as [-> | Hp]; [done|].
        by apply Hcov.
Qed.

(** What the purge of the local cache reports: every deleted path was a
    catalog that was found and existed, it is listed once even when two
    walks found it, and it is gone afterwards; nothing else is removed; a
    path listed as an error still exists; and every catalog that was
    found and existed is either deleted or listed as an error. *)
Theorem local_purge_reports_what_it_did (host : Host) (present : gset pystr) :
  let r := _delete_local_metadata_files host present in
  NoDup r.1.1 /\
  r.2 = present ∖ list_to_set r.1.1 /\
  Forall (fun p => p ∈ metadata_files host /\ p ∈ present /\ p ∉ r.2) r.1.1 /\
  Forall (fun pm => pm.1 ∈ metadata_files host /\ pm.1 ∈ r.2) r.1.2 /\
  Forall (fun p => p ∉ present \/ p ∈ r.1.1 \/ p ∈ r.1.2.*1)
         (metadata_files host).
Proof.
  cbn zeta. unfold _delete_local_metadata_files.
  destruct (remove_found_spec host (metadata_files host) present [] [])
    as (nd & ne & Ed & Ee & Hnd & Hpr & Hdel & Herrs & Hcov).
  cbn zeta in *. cbn [app] in Ed, Ee. rewrite Ed, Ee, Hpr.
  split_and!; try done.
  - apply Forall_forall. intros p Hp. destruct (Hdel p Hp) as (? & ? & ?).
    split_and!; [done | done | set_solver].
  - apply Forall_forall. intros [p m] Hpm.
    destruct (Herrs p m Hpm) as (? & Hin & _). rewrite Hpr in Hin. by split.
  - apply Forall_forall. intros p Hp.
    destruct (decide (p ∈ present)) as [Hin|]; [|by left].
    right. by apply Hcov.
Qed.

(** Running the purge again deletes nothing more and leaves the files as
    the first run left them. *)
Theorem local_purge_second_run_deletes_nothing
    (host : Host) (present : gset pystr) :
  let first := _delete_local_metadata_files host present in
  let second := _delete_local_metadata_files host first.2 in
  second.1.1 = [] /\ second.2 = first.2.
Proof.
  cbn zeta. unfold _delete_local_metadata_files.
  destruct (remove_found_spec host (metadata_files host) present [] [])
    as (nd & ne & Ed & Ee & Hnd & Hpr & Hdel & Herrs & Hcov).
  cbn zeta in *.
  set (after := (remove_found host (metadata_files host) present [] []).2) in *.
  destruct (remove_found_spec host (metadata_files host) after [] [])
    as (nd2 & ne2 & Ed2 & Ee2 & Hnd2 & Hpr2 & Hdel2 & Herrs2 & Hcov2).
  cbn zeta in *. cbn [app] in Ed2.
  assert (Hempty : nd2 = []).
  { destruct nd2 as [|p nd2]; [done|]. exfalso.
    destruct (Hdel2 p (list_elem_of_here _ _)) as (Hp & Hin & Hnone).
    rewrite Hpr in Hin. apply elem_of_difference in Hin as [Hin Hnot].
    destruct (Hcov p Hp Hin) as [Hd | He].
    - apply Hnot. by apply elem_of_list_to_set.
    - apply list_elem_of_fmap in He as ([p' m] & -> & Hpm).
      destruct (Herrs p' m Hpm) as (_ & _ & err & Herr & _).
      cbn in Hnone. congruence. }
  rewrite Ed2, Hpr2, Hempty. split; [done|]. set_solver.
Qed.

Lemma remove_found_absent (host : Host) (paths : list pystr)
    (present : gset pystr) (deleted : list pystr)
    (errors : list (pystr * pystr)) :
  (forall p, p ∈ paths -> p ∉ present) ->
  remove_found host paths present deleted errors = (deleted, errors, present).
Proof.
  induction paths as [|path rest IH]; [done|]. intros H.
  cbn [remove_found]. rewrite bool_decide_eq_false_2 by (apply H; left).
  apply IH. intros p Hp. apply H. by right.
Qed.

(** A catalog that was found but is no longer there is not an error: when
    none of the files found exists, the purge reports no deletion and no
    error and removes nothing. *)
Theorem local_purge_missing_files_are_not_errors
    (host : Host) (present : gset pystr) :
  (forall p, p ∈ metadata_files host -> p ∉ present) ->
  _delete_local_metadata_files host present = ([], [], present).
Proof. apply remove_found_absent. Qed.

Example metadata_files_sample :
  metadata_files sample_host = [sample_catalog; sample_catalog].
Proof. vm_compute. reflexivity. Qed.

Lemma local_purge_missing_files_are_not_errors_witness :
  _delete_local_metadata_files sample_host ∅ = ([], [], ∅).
Proof.
  apply (local_purge_missing_files_are_not_errors sample_host ∅).
  intros p _. apply not_elem_of_empty.
Defined.

Example local_purge_sample :
  (_delete_local_metadata_files sample_host {[ sample_catalog ]}).1
  = ([sample_catalog], []).
Proof. vm_compute. reflexivity. Qed.

(** ** Catalog sync and the end of a job *)

Lemma get_booklists_prints (gui : Gui) :
  Forall (fun ev => is_dialog ev = false /\ is_sync_event ev = false)
         (snd (_get_booklists gui)).
Proof.
  unfold _get_booklists, view_db.
  destruct (memory_view gui) as [|[[m|]|e]], (card_a_view gui) as [|[a|e']],
    (card_b_view gui) as [|[b|e'']]; cbn [snd]; by repeat constructor.
Qed.

Lemma sync_events_spec (gui : Gui) (locations : list UploadEntry)
    (metadata : list Metadata) :
  Forall (sync_event_ok gui locations metadata)
         (_sync_books_to_device gui locations metadata).
Proof.
  unfold _sync_books_to_device.
  destruct locations as [|l ls]; [constructor|].
  destruct metadata as [|m ms]; [constructor|].
  destruct (device_manager gui) as [dm|] eqn:Hdm; [|constructor].
  destruct (dm_device dm) as [|[device|]] eqn:Hdev; cbn [getattr];
    try constructor.
  pose proof (get_booklists_prints gui) as Hp.
  destruct (_get_booklists gui) as [[b|] printed] eqn:Hb; cbn [fst snd] in *.
  - assert (Hprinted : Forall (sync_event_ok gui (l :: ls) (m :: ms)) printed).
    { eapply Forall_impl; [exact Hp|]. intros ev [Hd Hs].
      unfold sync_event_ok. rewrite Hs. split_and!; [done | | done].
      destruct ev; try done; discriminate Hs. }
    assert (Hadd : sync_event_ok gui (l :: ls) (m :: ms)
                     (AddBooksToMetadata (l :: ls) (m :: ms) b)).
    { unfold sync_event_ok. rewrite Hb. split_and!; try done.
      intros _. split_and!; try done; [by exists dm, device | exists b; by rewrite ?Hb]. }
    assert (Hset : sync_event_ok gui (l :: ls) (m :: ms)
                     (SetBooksInLibrary b true false)).
    { unfold sync_event_ok. rewrite Hb. split_and!; try done.
      intros _. split_and!; try done; [by exists dm, device | exists b; by rewrite ?Hb]. }
    assert (Href : sync_event_ok gui (l :: ls) (m :: ms) RefreshDeviceViews).
    { unfold sync_event_ok. split_and!; try done.
      intros _. split_and!; try done; [by exists dm, device | exists b; by rewrite ?Hb]. }
    assert (Hfail : forall e, sync_event_ok gui (l :: ls) (m :: ms)
                                (sync_failed e)).
    { intros e. unfold sync_event_ok, sync_failed. by split_and!. }
    destruct (add_books_to_metadata device) as [|[e|]];
      destruct (set_books_in_library gui) as [|[e'|]]; cbn [hasattr];
      repeat match goal with
             | |- Forall _ [] => apply Forall_nil_2
             | |- Forall _ (_ :: _) => apply Forall_cons_2
             | |- Forall _ (_ ++ _) => apply Forall_app_2
             end; try done; apply Hfail.
  - eapply Forall_impl; [exact Hp|]. intros ev [Hd Hs].
    unfold sync_event_ok. rewrite Hs. split_and!; [done | | done].
    destruct ev; try done; discriminate Hs.
Qed.

(** The catalog sync is best effort: it never shows a dialog; it touches
    the booklists and the views only when something was staged, a device
    is still connected and the main booklist is available; and it passes
    on exactly the staged locations and metadata, with the reset flag set
    and the device sync off. *)
Theorem sync_is_best_effort (gui : Gui) (locations : list UploadEntry)
    (metadata : list Metadata) :
  Forall (sync_event_ok gui locations metadata)
         (_sync_books_to_device gui locations metadata) /\
  match fst (_get_booklists gui) with
  | Some _ => True
  | None =>
    Forall (fun ev => is_sync_event ev = false)
           (_sync_books_to_device gui locations metadata)
  end.
Proof.
  split; [apply sync_events_spec|].
  destruct (fst (_get_booklists gui)) eqn:Hb; [done|].
  eapply Forall_impl; [apply sync_events_spec|].
  intros ev (_ & _ & Hsync).
  destruct (is_sync_event ev) eqn:E; [|done].
  destruct (Hsync eq_refl) as (_ & _ & _ & b & Hsome). congruence.
Qed.

Lemma no_dialog_filter (events : list UiEvent) :
  Forall (fun ev => is_dialog ev = false) events ->
  List.filter is_dialog events = [] /\ existsb is_dialog events = false.
Proof.
  induction 1 as [|ev l Hev _ [IH1 IH2]]; [done|]. cbn. by rewrite Hev.
Qed.

Lemma sync_shows_no_dialog (gui : Gui) (locations : list UploadEntry)
    (metadata : list Metadata) :
  Forall (fun ev => is_dialog ev = false)
         (_sync_books_to_device gui locations metadata).
Proof.
  eapply Forall_impl; [apply sync_events_spec|]. by intros ev [H _].
Qed.

(** The operator sees at most one dialog at the end of a job, and sees one
    exactly when the job itself failed or its result lists a failure or an
    error report; a batch that went through ends silently. A failed job
    leaves the booklists and the views alone. *)
Theorem job_finished_shows_at_most_one_dialog (gui : Gui) (job : Job) :
  let events := job_finished gui job in
  (length (List.filter is_dialog events) <= 1)%nat /\
  existsb is_dialog events =
    (job_failed job
     || match job_result job with
        | Some r => negb (is_nil (r_failed_list r) && is_nil (r_error_reports r))
        | None => false
        end) /\
  (if job_failed job
   then Forall (fun ev => is_sync_event ev = false) events else True).
Proof.
  cbn zeta. unfold job_finished.
  destruct (job_failed job); [by repeat constructor|].
  destruct (job_result job) as [r|]; [|by repeat constructor].
  destruct (no_dialog_filter _ (sync_shows_no_dialog gui (r_upload_locations r)
                                  (r_upload_metadata r))) as [Hf He].
  rewrite List.filter_app, existsb_app, Hf, He.
  destruct (is_nil (r_failed_list r) && is_nil (r_error_reports r)); cbn;
    split_and!; done || lia.
Qed.

Lemma worker_result_invariant (tasks : list Task) (device : Device)
    (abort : nat -> bool) (files : FileStore) :
  exists r : WorkerResult,
    fst (send_raw_books_worker tasks (Some device) abort files)
      = WorkerReturns r /\
    length (r_upload_locations r) = length (r_success_titles r) /\
    length (r_upload_metadata r) = length (r_success_titles r) /\
    (r_failed_list r = [] -> r_error_reports r = []).
Proof.
  unfold send_raw_books_worker.
  pose proof (worker_loop_outcomes device files abort (length tasks) tasks 0
                no_outcomes empty_world) as H. cbn zeta in H.
  destruct (worker_loop device files abort (length tasks) tasks 0 no_outcomes
                        empty_world) as [out w].
  cbn [fst snd] in *.
  destruct H as (s & f & l & m & r & Hs & Hf & Hl & Hm & Hr & _ & _ & Hll & Hml
                 & _ & Hrsub & _).
  eexists. split; [reflexivity|].
  cbn [result_of r_upload_locations r_upload_metadata r_success_titles
       r_failed_list r_error_reports notifications_put error_reports].
  rewrite Hs, Hf, Hl, Hm, Hr. cbn [no_outcomes success_titles failed_list
    upload_locations upload_metadata empty_world error_reports app].
  split_and!; try done.
  intros ->. cbn in Hrsub. apply sublist_nil_r in Hrsub. by destruct r.
Qed.

(** From the worker to the end of the job: after any batch that had a
    device, the operator gets the error dialog exactly when some task
    failed; the sync is handed as many metadata records as locations, one
    pair per title sent; and when no title was sent the booklists and the
    views are left alone. *)
Theorem batch_ends_with_dialog_iff_failure
    (gui : Gui) (tasks : list Task) (device : Device) (abort : nat -> bool)
    (files : FileStore) (details : pystr) :
  let run := fst (send_raw_books_worker tasks (Some device) abort files) in
  let events := job_finished gui (job_of run details) in
  match run with
  | WorkerReturns r =>
    existsb is_dialog events = negb (is_nil (r_failed_list r)) /\
    Forall (fun ev =>
              match ev with
              | AddBooksToMetadata l m _ =>
                length l = length (r_success_titles r) /\
                length m = length (r_success_titles r)
              | _ => True
              end) events /\
    (if is_nil (r_success_titles r)
     then Forall (fun ev => is_sync_event ev = false) events else True)
  | WorkerRaises _ => False
  end.
Proof.
  cbn zeta.
  destruct (worker_result_invariant tasks device abort files)
    as (r & -> & Hl & Hm & Hrep).
  cbn [job_of]. unfold job_finished. cbn [job_failed job_result].
  pose proof (sync_events_spec gui (r_upload_locations r)
                (r_upload_metadata r)) as Hsync.
  destruct (no_dialog_filter _ (sync_shows_no_dialog gui (r_upload_locations r)
                                  (r_upload_metadata r))) as [_ He].
  split_and!.
  - rewrite existsb_app, He. destruct (r_failed_list r) as [|f fs].
    + by rewrite Hrep.
    + done.
  - apply Forall_app. split.
    + eapply Forall_impl; [exact Hsync|]. intros ev (_ & Hargs & _).
      destruct ev; try done. by destruct Hargs as (-> & -> & _).
    + destruct (_ && _); by repeat constructor.
  - destruct (r_success_titles r) as [|t ts] eqn:Hs; [|done]. cbn [is_nil].
    apply Forall_app. split.
    + destruct (r_upload_locations r); [constructor | discriminate Hl].
    + destruct (_ && _); by repeat constructor.
Qed.

(** ** The main entry *)

Lemma device_ready_starts_nothing (gui : Gui) :
  Forall (fun ev => is_job_start ev = false) (snd (_device_ready_for_send gui)).
Proof.
  unfold _device_ready_for_send.
  destruct (match device_manager gui with
            | Some dm =>
              match get_current_device_information dm with
              | Has (Returned None) => true
              | _ => false
              end
            | None => false
            end); [by repeat constructor|].
  destruct (job_manager gui) as [jm|]; [|by constructor].
  destruct (has_device_jobs jm) as [|jobs]; [by constructor|].
  destruct (with_queued_also jobs) as [[]|e]; try by repeat constructor.
  destruct (is_type_error e); [|by constructor].
  destruct (without_arguments jobs) as [[]|e']; by repeat constructor.
Qed.

(** A send job is started at most once, and only when rows are selected,
    a usable device is connected, the device is ready, and at least one
    task was built; it gets exactly the tasks the task builder returned,
    and the books that were skipped are announced in a dialog of their
    own, which does not stop the others from being sent. *)
Theorem send_raw_selected_starts_job_only_with_tasks
    (gui : Gui) (book_ids : list Z) (lib : Library) (prefs : JSONConfig)
    (urandom : nat -> N) (fmt : option pystr) :
  let events := snd (send_raw_selected gui book_ids lib prefs urandom fmt) in
  (length (List.filter is_job_start events) <= 1)%nat /\
  Forall (job_start_ok gui book_ids lib prefs urandom fmt events) events.
Proof.
  cbn zeta. unfold send_raw_selected.
  destruct book_ids as [|id ids] eqn:Hids; [by repeat constructor|].
  rewrite <- Hids.
  destruct (_get_smart_device (device_manager gui)) as [device|] eqn:Hdev;
    [|by repeat constructor].
  pose proof (device_ready_starts_nothing gui) as Hready.
  assert (Hcount : List.filter is_job_start (snd (_device_ready_for_send gui))
                   = []).
  { induction Hready as [|ev l Hev _ IH]; [done|]. cbn. by rewrite Hev. }
  assert (Hshown : forall events,
    Forall (job_start_ok gui book_ids lib prefs urandom fmt events)
           (snd (_device_ready_for_send gui))).
  { intros events. eapply Forall_impl; [exact Hready|].
    intros ev Hev. by destruct ev. }
  destruct (_device_ready_for_send gui) as [[[]|e] shown] eqn:Hr;
    cbn [fst snd] in *.
  2,3: (split; [rewrite Hcount; cbn; lia | apply Hshown]).
  destruct (_build_tasks lib prefs urandom book_ids fmt)
    as [tasks failed| |] eqn:Hb; cbn [snd].
  2,3: (split; [rewrite Hcount; cbn; lia | apply Hshown]).
  destruct tasks as [|t ts]; cbn [is_nil snd].
  - split.
    + rewrite !List.filter_app, Hcount. destruct failed; cbn; lia.
    + repeat (apply Forall_app_2); [apply Hshown | | by repeat constructor].
      destruct failed; by repeat constructor.
  - split.
    + rewrite !List.filter_app, Hcount. destruct failed; cbn; lia.
    + repeat (apply Forall_app_2); [apply Hshown | |].
      * destruct failed; by repeat constructor.
      * apply Forall_cons_2; [|by repeat constructor].
        unfold job_start_ok. split; [done|]. split; [by rewrite Hids|].
        split; [done|]. split; [by rewrite Hr|].
        exists failed. split; [done|]. destruct failed as [|f fs]; [by left|].
        right. cbn [is_nil]. apply elem_of_app. right.
        apply elem_of_app. left. apply list_elem_of_here.
Qed.

(** ** The settings widget *)

Lemma strip_idempotent (chars s : pystr) :
  strip chars (strip chars s) = strip chars s.
Proof.
  unfold strip at 1.
  rewrite lstrip_clean_head by (intros c; apply strip_head_clean).
  apply rstrip_clean_last. intros c. apply strip_last.
Qed.

(** What is saved is what is shown after a reload, up to the trimming done
    when saving, and saving again stores the same values: the format
    order, the trimmed subdirectory, the trimmed template or the default
    one when it is blank, the timeout and the verification switch. *)
Theorem settings_survive_save_and_load (w w0 : ConfigWidget) :
  (30 <= timeout_spin w <= 600)%Z ->
  let shown := load_settings (prefs (save_settings w)) w0 in
  format_list shown = format_list w /\
  subdir_edit shown = strip_ws (subdir_edit w) /\
  template_edit shown =
    (if is_empty (strip_ws (template_edit w)) then py "{author} - {title}"
     else strip_ws (template_edit w)) /\
  timeout_spin shown = timeout_spin w /\
  verify_md5_cb shown = verify_md5_cb w /\
  save_settings shown = save_settings w.
Proof.
  intros Ht. cbn zeta.
  unfold load_settings, prefs, prefs_get, save_settings.
  cbn [stored preferred_formats device_subdir filename_template timeout
       verify_md5 format_list subdir_edit template_edit timeout_spin
       verify_md5_cb].
  assert (Hspin : spin_set_value (timeout_spin w) = timeout_spin w)
    by (unfold spin_set_value; lia).
  rewrite Hspin. split_and!; try done.
  unfold strip_ws. rewrite strip_idempotent. f_equal. f_equal.
  destruct (is_empty (strip whitespace (template_edit w))) eqn:E.
  - vm_compute. reflexivity.
  - by rewrite strip_idempotent, E.
Qed.

Lemma settings_survive_save_and_load_witness :
  let shown := load_settings (prefs (save_settings sample_widget))
                             sample_widget in
  subdir_edit shown = py "books" /\
  template_edit shown = py "{author} - {title}" /\
  timeout_spin shown = 90%Z /\
  save_settings shown = save_settings sample_widget.
Proof.
  assert (Ht : (30 <= timeout_spin sample_widget <= 600)%Z) by (cbn; lia).
  destruct (settings_survive_save_and_load sample_widget sample_widget Ht)
    as (_ & Hs & Htpl & Hto & _ & Hsave).
  cbn zeta. split_and!.
  - rewrite Hs. vm_compute. reflexivity.
  - rewrite Htpl. vm_compute. reflexivity.
  - exact Hto.
  - exact Hsave.
Defined.

(** Whatever the settings store holds, the timeout shown after a load is
    between 30 and 600 seconds; and whatever the operator typed, the
    template that is saved is not empty and has no white space around
    it. *)
Theorem settings_stay_in_bounds (p : JSONConfig) (w : ConfigWidget) :
  (30 <= timeout_spin (load_settings p w) <= 600)%Z /\
  exists template,
    filename_template (save_settings w) = Some template /\
    template <> [] /\ strip_ws template = template.
Proof.
  split; [unfold load_settings, spin_set_value; cbn; lia|].
  unfold save_settings. cbn [filename_template].
  destruct (is_empty (strip_ws (template_edit w))) eqn:E.
  - eexists. split; [reflexivity|]. split; [done | by vm_compute].
  - eexists. split; [reflexivity|]. split.
    + by destruct (strip_ws (template_edit w)).
    + unfold strip_ws. apply strip_idempotent.
Qed.

(** Adding a format never repeats an entry: the name is upper-cased and
    trimmed first, a name already in the list leaves the list as it is,
    a list without repetitions stays so, and adding the same name a second
    time changes nothing. *)
Theorem add_format_never_repeats (w : ConfigWidget) (fmt : pystr) (ok : bool) :
  NoDup (format_list w) ->
  NoDup (format_list (add_format w fmt ok)) /\
  add_format (add_format w fmt ok) fmt ok = add_format w fmt ok /\
  (ok = true -> fmt <> [] ->
   strip_ws (upper fmt) ∈ format_list (add_format w fmt ok)) /\
  (strip_ws (upper fmt) ∈ format_list w -> add_format w fmt ok = w).
Proof.
  intros Hnd. unfold add_format.
  destruct ok; [|by split_and!]. cbn [andb].
  destruct (is_empty fmt) eqn:He; cbn [negb].
  { rewrite ?He; cbn [negb andb]. split_and!; try done.
    intros _ Hne. by destruct fmt. }
  case_bool_decide as Hin.
  - rewrite ?He; cbn [negb andb]. rewrite bool_decide_eq_true_2 by done.
    by split_and!.
  - cbn [format_list with_formats]. rewrite ?He; cbn [negb andb].
    rewrite bool_decide_eq_true_2
      by (apply elem_of_app; right; apply list_elem_of_here).
    split_and!; try done.
    + apply NoDup_app. split_and!; [done | | apply NoDup_singleton].
      intros x Hx Hx'. apply list_elem_of_singleton in Hx'. by subst.
    + intros _ _. apply elem_of_app. right. apply list_elem_of_here.
Qed.

Lemma add_format_never_repeats_witness :
  format_list (add_format sample_widget (py " epub") true)
    = format_list sample_widget /\
  format_list (add_format sample_widget (py "cbz ") true)
    = [py "EPUB"; py "PDF"; py "MOBI"; py "CBZ"] /\
  NoDup (format_list (add_format sample_widget (py "cbz ") true)).
Proof.
  assert (Hnd : NoDup (format_list sample_widget)).
  { cbn. repeat (apply NoDup_cons_2; [by vm_compute; set_solver|]).
    apply NoDup_nil_2. }
  split; [vm_compute; reflexivity|]. split; [vm_compute; reflexivity|].
  exact (proj1 (add_format_never_repeats sample_widget (py "cbz ") true Hnd)).
Defined.

Lemma insert_item_perm {A : Type} (row : nat) (item : A) (l : list A) :
  insert_item row item l ≡ₚ item :: l.
Proof.
  unfold insert_item. rewrite <- Permutation_middle.
  by rewrite take_drop.
Qed.

Lemma move_item_perm (w : ConfigWidget) (row target : nat) :
  format_list (move_item w row target) ≡ₚ format_list w.
Proof.
  unfold move_item. destruct (format_list w !! row) as [item|] eqn:E; [|done].
  cbn [format_list with_formats]. rewrite insert_item_perm.
  symmetry. by apply delete_Permutation.
Qed.

(** Moving a row up or down only reorders the formats: none is lost,
    none is added. Moving up when the first row, or no row, is current
    changes nothing, and so does moving down from the last row. *)
Theorem moving_a_format_only_reorders (w : ConfigWidget) :
  format_list (move_up w) ≡ₚ format_list w /\
  format_list (move_down w) ≡ₚ format_list w /\
  (if (current_row w <=? 0)%Z then move_up w = w else True) /\
  (if (Z.of_nat (length (format_list w)) - 1 <=? current_row w)%Z
   then move_down w = w else True).
Proof.
  unfold move_up, move_down. split_and!.
  - destruct (0 <? current_row w)%Z; [apply move_item_perm | done].
  - destruct (_ && _); [apply move_item_perm | done].
  - destruct (Z.leb_spec (current_row w) 0); [|done].
    destruct (Z.ltb_spec 0 (current_row w)); [lia | done].
  - destruct (Z.leb_spec (Z.of_nat (length (format_list w)) - 1)
                         (current_row w)); [|done].
    destruct (Z.ltb_spec (current_row w)
                         (Z.of_nat (length (format_list w)) - 1)); [lia|].
    by rewrite andb_false_r.
Qed.

Lemma swap_down {A : Type} (l1 l2 : list A) (x y : A) :
  insert_item (S (length l1)) x (delete (length l1) (l1 ++ x :: y :: l2))
  = l1 ++ y :: x :: l2.
Proof.
  rewrite delete_middle. unfold insert_item.
  replace (l1 ++ y :: l2) with ((l1 ++ [y]) ++ l2) by (by rewrite <- app_assoc).
  replace (S (length l1)) with (length (l1 ++ [y]))
    by (rewrite length_app; cbn; lia).
  rewrite take_app_length, drop_app_length. by rewrite <- app_assoc.
Qed.

Lemma swap_up {A : Type} (l1 l2 : list A) (x y : A) :
  insert_item (length l1) x (delete (S (length l1)) (l1 ++ y :: x :: l2))
  = l1 ++ x :: y :: l2.
Proof.
  replace (l1 ++ y :: x :: l2) with ((l1 ++ [y]) ++ x :: l2)
    by (by rewrite <- app_assoc).
  replace (S (length l1)) with (length (l1 ++ [y]))
    by (rewrite length_app; cbn; lia).
  rewrite delete_middle. rewrite <- app_assoc. cbn [app].
  unfold insert_item. by rewrite take_app_length, drop_app_length.
Qed.

(** Moving the current row down and then up again restores the list and
    the current row, whenever there is a row below the current one. *)
Theorem move_down_then_up_restores (w : ConfigWidget) :
  (0 <= current_row w)%Z ->
  (current_row w + 1 < Z.of_nat (length (format_list w)))%Z ->
  move_up (move_down w) = w.
Proof.
  destruct w as [items row sub tpl tmo ver]. cbn [current_row format_list].
  intros H0 H1.
  set (i := Z.to_nat row).
  assert (Hi : (S i < length items)%nat) by lia.
  destruct (lookup_lt_is_Some_2 items i ltac:(lia)) as [x Hx].
  pose proof (take_drop_middle items i x Hx) as Hsplit.
  destruct (drop (S i) items) as [|y l2] eqn:Hd.
  { apply (f_equal length) in Hd. rewrite length_drop in Hd. cbn in Hd. lia. }
  assert (Hlen : length (take i items) = i) by (rewrite length_take; lia).
  set (l1 := take i items) in *.
  unfold move_down. cbn [current_row format_list].
  destruct (Z.leb_spec 0 row); [|lia].
  destruct (Z.ltb_spec row (Z.of_nat (length items) - 1)); [|lia].
  cbn [andb]. unfold move_item at 1. cbn [format_list]. fold i. rewrite Hx.
  replace (Z.to_nat (row + 1)) with (S i) by lia.
  rewrite <- Hsplit at 1. rewrite <- Hlen at 1 2. rewrite swap_down.
  unfold move_up. cbn [current_row format_list with_formats].
  destruct (Z.ltb_spec 0 (Z.of_nat (S i))); [|lia].
  unfold move_item. cbn [format_list with_formats].
  replace (Z.to_nat (Z.of_nat (S i))) with (S (length l1)) by lia.
  replace (l1 ++ y :: x :: l2) with ((l1 ++ [y]) ++ x :: l2)
    by (by rewrite <- app_assoc).
  rewrite (list_lookup_middle _ _ _ (S (length l1)))
    by (rewrite length_app; cbn; lia).
  rewrite <- app_assoc. cbn [app].
  replace (Z.to_nat (Z.of_nat (S i) - 1)) with (length l1) by lia.
  rewrite swap_up, Hsplit. unfold with_formats.
  cbn [subdir_edit template_edit timeout_spin verify_md5_cb].
  f_equal. lia.
Qed.

Lemma move_down_then_up_restores_witness :
  move_up (move_down sample_widget) = sample_widget.
Proof.
  apply (move_down_then_up_restores sample_widget); cbn; lia.
Defined.

(** ** Hashing a file *)

Lemma chunk_size_pos : (0 < chunk_size)%nat.
Proof. unfold chunk_size. lia. Qed.

Section HashingFacts.

Variable hash : Type.
Variable hash_new : hash.
Variable hash_update : hash -> list byte -> hash.
Variable hash_hexdigest : hash -> pystr.

Hypothesis update_app :
  forall (h : hash) (a b : list byte),
    hash_update (hash_update h a) b = hash_update h (a ++ b).

Lemma hash_chunks_all (fuel : nat) :
  forall (rest : list byte) (h : hash),
    (length rest < fuel)%nat ->
    hash_chunks hash hash_update fuel rest h
    = match rest with
      | [] => h
      | _ :: _ => hash_update h rest
      end.
Proof.
  induction fuel as [|fuel IH]; intros rest h Hlen; [lia|].
  cbn [hash_chunks].
  destruct rest as [|b rest]; [by rewrite take_nil|].
  pose proof chunk_size_pos as Hpos.
  destruct chunk_size as [|n] eqn:Hn; [lia|].
  cbn [take drop]. rewrite IH by (rewrite length_drop; cbn in Hlen; lia).
  destruct (drop n rest) eqn:Hd.
  - f_equal. f_equal. rewrite <- (take_drop n rest) at 2.
    by rewrite Hd, app_nil_r.
  - rewrite update_app, <- Hd. cbn [app]. by rewrite take_drop.
Qed.

End HashingFacts.

(** For any hash object whose [update] on two pieces equals one [update]
    on their concatenation, reading the file in chunks of 8192 bytes
    hashes the whole content, every byte once and in order; the hash of
    an empty file is that of the fresh object. *)
Theorem calculate_md5_hashes_whole_file
    (hash : Type) (hash_new : hash)
    (hash_update : hash -> list byte -> hash)
    (hash_hexdigest : hash -> pystr) (content : list byte) :
  (forall (h : hash) (a b : list byte),
     hash_update (hash_update h a) b = hash_update h (a ++ b)) ->
  calculate_md5 hash hash_new hash_update hash_hexdigest content
  = hash_hexdigest match content with
                   | [] => hash_new
                   | _ :: _ => hash_update hash_new content
                   end.
Proof.
  intros Happ. unfold calculate_md5. f_equal.
  apply hash_chunks_all; [exact Happ | lia].
Qed.

Lemma calculate_md5_hashes_whole_file_witness :
  calculate_md5 (list byte) [] (fun h chunk => h ++ chunk) keep_hexdigest
                long_content
  = map Byte.to_N long_content.
Proof.
  rewrite (calculate_md5_hashes_whole_file (list byte) []
             (fun h chunk => h ++ chunk) keep_hexdigest long_content).
  - by destruct long_content.
  - intros h a b. by rewrite <- app_assoc.
Defined.
